(** * Reasonance: session lifecycle, broadcast fan-out and argument graph

    A shallow embedding of the Python sources under [src/reasonance]
    ([types.py], [claude_client.py], [argument_mapper.py], [models.py],
    [session_manager.py] and the turn and anchor handlers of [api.py]),
    followed by the properties of the specification proved over it.

    Conventions of the embedding.
    - A Python [str] is a [string]; one character of the Rocq string stands
      for one code point of the Python string, so that [message[:100]] is the
      first hundred characters.
    - A Python [float] is a binary64 [float] of the kernel, with its own
      multiplication; [0.8] is the binary64 number nearest to eight tenths.
    - [datetime.now()] is a reading of a clock the environment supplies; the
      model keeps the instant (microseconds) where the source stores its
      ISO-8601 text.
    - An exception is a value [Raise e] of [result]; a function that mutates
      an object and may raise returns the object as it is left together with
      the result, so that what was mutated before the exception stays.
    - Logging calls have no effect on the state and are left out. *)

From Stdlib Require Import ZArith String Ascii List Bool Lia.
From Stdlib Require Import Floats.PrimFloat Floats.SpecFloat Floats.FloatOps.
From stdpp Require Import gmap strings list sorting.

Set Warnings "-register-all,-inexact-float".

Local Open Scope string_scope.
Local Open Scope list_scope.
Local Open Scope stdpp_scope.
Local Open Scope Z_scope.

(** ** Python values and exceptions *)

Module Py.

(** The exceptions the modelled code can meet. *)
Inductive exn : Type :=
| AttributeError
| TypeError
| ValueError
| OverflowError
| KeyError
| IndexError
| JSONDecodeError
| RecursionError
| APIError
| OSError
| HTTPException (status : Z).

Inductive result (A : Type) : Type :=
| Ok (a : A)
| Raise (e : exn).

Arguments Ok {A} a.
Arguments Raise {A} e.

Definition bind {A B : Type} (r : result A) (k : A -> result B) : result B :=
  match r with
  | Ok a => k a
  | Raise e => Raise e
  end.

Definition is_ok {A : Type} (r : result A) : bool :=
  match r with
  | Ok _ => true
  | Raise _ => false
  end.

(** What [json.loads] can return, which is also what the handlers put into
    the payloads they broadcast.  A dict keeps its items in insertion order,
    with string keys. *)
Inductive pyval : Type :=
| PyNone
| PyBool (b : bool)
| PyInt (z : Z)
| PyFloat (f : float)
| PyStr (s : string)
| PyList (l : list pyval)
| PyDict (d : list (string * pyval)).

(** A dict with string keys, in insertion order *)
Definition dict (V : Type) : Type := list (string * V).

Definition pydict : Type := dict pyval.

(** [key in d] *)
Fixpoint dict_has {V : Type} (key : string) (d : dict V) : bool :=
  match d with
  | [] => false
  | (k, _) :: d' => if String.eqb k key then true else dict_has key d'
  end.

(** [d.get(key)], [None] when the key is absent *)
Fixpoint dict_lookup {V : Type} (key : string) (d : dict V) : option V :=
  match d with
  | [] => None
  | (k, v) :: d' => if String.eqb k key then Some v else dict_lookup key d'
  end.

(** [d.get(key, dflt)] *)
Definition dict_get {V : Type} (key : string) (dflt : V) (d : dict V) : V :=
  match dict_lookup key d with
  | Some v => v
  | None => dflt
  end.

(** [d[key] = v]: an existing key keeps its place, a new one goes last *)
Fixpoint dict_set {V : Type} (key : string) (v : V) (d : dict V) : dict V :=
  match d with
  | [] => [(key, v)]
  | (k, w) :: d' =>
      if String.eqb k key then (k, v) :: d' else (k, w) :: dict_set key v d'
  end.

(** What [del d[key]] leaves of a dict that has the key *)
Fixpoint dict_del {V : Type} (key : string) (d : dict V) : dict V :=
  match d with
  | [] => []
  | (k, w) :: d' =>
      if String.eqb k key then d' else (k, w) :: dict_del key d'
  end.

(** The library functions of the Python runtime that the code calls and that
    are not part of the repository: the JSON codec, the parser of
    [float(str)] and the rendering of an instant as ISO-8601 text.
    [json.loads] returns the value it read or raises: JSONDecodeError for a
    text that is no JSON, and other exceptions besides, a ValueError for an
    integer of too many digits, a RecursionError for too deep a nesting. *)
Class Runtime : Type := {
  json_loads : string -> result pyval;
  json_dumps : pyval -> string;
  float_of_str : string -> option float; (* [None]: ValueError *)
  isoformat : Z -> string                (* [datetime.isoformat] of an instant *)
}.

(** [float(int)]: the nearest binary64 number, ties to even; an integer
    that rounds beyond the largest finite number raises OverflowError. *)
Definition float_of_int (z : Z) : result float :=
  match binary_normalize 53 1024 z 0 false with
  | S754_infinity _ => Raise OverflowError
  | sf => Ok (SF2Prim sf)
  end.

(** [float(v)] *)
Definition py_float `{Runtime} (v : pyval) : result float :=
  match v with
  | PyFloat f => Ok f
  | PyInt z => float_of_int z
  | PyBool b => Ok (if b then 1%float else 0%float)
  | PyStr s =>
      match float_of_str s with
      | Some f => Ok f
      | None => Raise ValueError
      end
  | PyNone | PyList _ | PyDict _ => Raise TypeError
  end.

(** [isinstance(v, list)] *)
Definition is_list (v : pyval) : bool :=
  match v with
  | PyList _ => true
  | _ => false
  end.

(** [v == s] for a string [s] *)
Definition eq_str (v : pyval) (s : string) : bool :=
  match v with
  | PyStr t => String.eqb t s
  | _ => false
  end.

(** The integer a float is equal to, if any: [1.0 == 1], and no integer
    equals [0.5], an infinity or a NaN. *)
Definition float_as_int (f : float) : option Z :=
  match Prim2SF f with
  | S754_zero _ => Some 0
  | S754_finite s m e =>
      let mz := if s then Z.neg m else Z.pos m in
      if 0 <=? e then Some (mz * 2 ^ e)
      else if (Z.pos m mod 2 ^ (- e) =? 0) then Some (mz / 2 ^ (- e))
      else None
  | S754_infinity _ | S754_nan => None
  end.

(** The integer key a value hashes and compares equal to.  A list or a dict
    is unhashable: looking it up in a dict raises TypeError.  [True] is [1]
    and [False] is [0]; a string or [None] equals no integer. *)
Definition int_key (v : pyval) : result (option Z) :=
  match v with
  | PyInt z => Ok (Some z)
  | PyBool b => Ok (Some (if b then 1 else 0))
  | PyFloat f => Ok (float_as_int f)
  | PyStr _ | PyNone => Ok None
  | PyList _ | PyDict _ => Raise TypeError
  end.

(** [v in d] for a dict [d] whose keys are integers *)
Definition in_int_dict {V : Type} (v : pyval) (d : gmap Z V) : result bool :=
  match int_key v with
  | Ok (Some z) => Ok (bool_decide (is_Some (d !! z)))
  | Ok None => Ok false
  | Raise e => Raise e
  end.

(** [s[:n]] *)
Fixpoint str_take (n : nat) (s : string) : string :=
  match n, s with
  | S n', String c s' => String c (str_take n' s')
  | _, _ => EmptyString
  end.

Fixpoint str_drop (n : nat) (s : string) : string :=
  match n, s with
  | S n', String _ s' => str_drop n' s'
  | _, _ => s
  end.

(** The text before and after the leftmost occurrence of [sep] in [s] *)
Fixpoint str_find (sep s : string) : option (string * string) :=
  if String.prefix sep s then Some (EmptyString, str_drop (String.length sep) s)
  else
    match s with
    | EmptyString => None
    | String c s' =>
        match str_find sep s' with
        | Some (before, after) => Some (String c before, after)
        | None => None
        end
    end.

(** [sep in s] *)
Definition str_contains (sep s : string) : bool :=
  match str_find sep s with
  | Some _ => true
  | None => false
  end.

(** [s.split(sep)[0]] *)
Definition split_first (sep s : string) : string :=
  match str_find sep s with
  | Some (before, _) => before
  | None => s
  end.

(** [s.split(sep)[1]] *)
Definition split_second (sep s : string) : result string :=
  match str_find sep s with
  | Some (_, rest) => Ok (split_first sep rest)
  | None => Raise IndexError
  end.

(** [str.isspace] on the code points below 256 *)
Definition is_space (c : ascii) : bool :=
  let n := Z.of_nat (nat_of_ascii c) in
  ((9 <=? n) && (n <=? 13)) || ((28 <=? n) && (n <=? 32))
  || (n =? 133) || (n =? 160).

Fixpoint lstrip (s : string) : string :=
  match s with
  | String c s' => if is_space c then lstrip s' else s
  | EmptyString => EmptyString
  end.

Fixpoint rstrip (s : string) : string :=
  match s with
  | String c s' =>
      match rstrip s' with
      | EmptyString => if is_space c then EmptyString else String c EmptyString
      | r => String c r
      end
  | EmptyString => EmptyString
  end.

(** [s.strip()] *)
Definition strip (s : string) : string := rstrip (lstrip s).

End Py.

(** ** types.py *)

Module Types.
Import Py.

Definition datetime : Type := Z.

Inductive ArgumentType : Type :=
| CLAIM
| SUPPORT
| COUNTER
| RESPONSE.

(** [t.value] *)
Definition value (t : ArgumentType) : string :=
  match t with
  | CLAIM => "claim"
  | SUPPORT => "support"
  | COUNTER => "counter"
  | RESPONSE => "response"
  end.

(** [[t.value for t in ArgumentType]] *)
Definition all_values : list string :=
  map value [CLAIM; SUPPORT; COUNTER; RESPONSE].

(** [ArgumentType(v)]: the member whose value equals [v], ValueError when
    there is none *)
Definition of_value (v : pyval) : result ArgumentType :=
  if eq_str v "claim" then Ok CLAIM
  else if eq_str v "support" then Ok SUPPORT
  else if eq_str v "counter" then Ok COUNTER
  else if eq_str v "response" then Ok RESPONSE
  else Raise ValueError.

(** The dataclass does not check its annotations: [summary] and [topic]
    hold whatever the classifier response carried, [target_id] whatever
    stood in its targets list.  [position] is never set and stays [None]. *)
Record ArgumentNode : Type := {
  turn_id : Z;
  type : ArgumentType;
  summary : pyval;
  speaker : string;
  topic : pyval;
  timestamp : datetime
}.

Record ArgumentEdge : Type := {
  source_id : Z;
  target_id : pyval;
  edge_type : ArgumentType;
  edge_timestamp : datetime
}.

(** The fields of a node other than the instant it was built at *)
Definition content (n : ArgumentNode) : Z * ArgumentType * pyval * string * pyval :=
  (turn_id n, type n, summary n, speaker n, topic n).

(** The readings [datetime.now()] will return, the next one first *)
Definition Clock : Type := nat -> datetime.

Definition now (clock : Clock) : datetime := clock 0%nat.

Definition tick (clock : Clock) : Clock := fun k => clock (S k).

End Types.

(** ** claude_client.py *)

Module ClaudeClient.
Import Py.

(** What [claude_client.messages.create] does with a prompt: it raises, or
    it returns a message whose content blocks carry these texts.  The text of
    the prompt reaches the code again only through this answer. *)
Inductive api_reply : Type :=
| ApiRaises
| ApiMessage (content : list string).

(** [message.content[0].text] *)
Definition first_text (content : list string) : result string :=
  match content with
  | t :: _ => Ok t
  | [] => Raise IndexError
  end.

Definition fence_json : string := "```json".
Definition fence : string := "```".

(** The body of the try block, up to the argument of [json.loads] *)
Definition response_text (reply : api_reply) : result string :=
  match reply with
  | ApiRaises => Raise APIError
  | ApiMessage content =>
      bind (first_text content) (fun text =>
        if str_contains fence_json text then
          bind (split_second fence_json text) (fun t => Ok (strip (split_first fence t)))
        else if str_contains fence text then
          bind (split_second fence text) (fun t => Ok (strip (split_first fence t)))
        else Ok text)
  end.

Definition parse_failure : pyval :=
  PyDict [("type", PyStr "claim"); ("targets", PyList []);
          ("summary", PyStr "Failed to parse Claude's response")].

Definition call_failure : pyval :=
  PyDict [("type", PyStr "claim"); ("targets", PyList []);
          ("summary", PyStr "Failed to analyze message")].

(** [call_claude]: the try block ends in [json.loads]; the first handler
    takes a JSONDecodeError, the second every other exception of the block,
    those of [json.loads] included.  Both return a default response, so the
    function returns a value whatever the provider did. *)
Definition call_claude `{Runtime} (reply : api_reply) : pyval :=
  match bind (response_text reply) json_loads with
  | Ok v => v
  | Raise JSONDecodeError => parse_failure
  | Raise _ => call_failure
  end.

End ClaudeClient.

(** ** argument_mapper.py *)

Module ArgumentMapper.
Import Py Types.

Record t : Type := {
  nodes : gmap Z ArgumentNode;
  edges : list ArgumentEdge;
  confidence_threshold : float
}.

(** [ArgumentMapper()] *)
Definition init : t :=
  {| nodes := ∅; edges := []; confidence_threshold := 0.5%float |}.

Definition penalty : float := 0.8%float.

(** [analysis.get(key, dflt)]: a response that is not a dict has no [get] *)
Definition get (analysis : pyval) (key : string) (dflt : pyval) : result pyval :=
  match analysis with
  | PyDict d => Ok (dict_get key dflt d)
  | _ => Raise AttributeError
  end.

(** [not isinstance(analysis.get(targets, []), list)] *)
Definition bad_targets (d : pydict) : bool :=
  negb (is_list (dict_get "targets" (PyList []) d)).

(** [type not in analysis or analysis[type] not in [t.value for t in ArgumentType]] *)
Definition bad_type (d : pydict) : bool :=
  match dict_lookup "type" d with
  | None => true
  | Some v => negb (existsb (eq_str v) all_values)
  end.

(** [_validate_analysis]: the confidence, and the response as the function
    leaves it.  Nothing is mutated before the one step that can raise. *)
Definition _validate_analysis `{Runtime} (analysis : pyval)
  : result (pydict * float) :=
  bind (get analysis "confidence" (PyInt 0)) (fun c =>
  bind (py_float c) (fun confidence =>
    match analysis with
    | PyDict d =>
        let '(d1, confidence1) :=
          if bad_targets d
          then (dict_set "targets" (PyList []) d, (confidence * penalty)%float)
          else (d, confidence) in
        let '(d2, confidence2) :=
          if bad_type d1
          then (dict_set "type" (PyStr "claim") d1, (confidence1 * penalty)%float)
          else (d1, confidence1) in
        Ok (d2, confidence2)
    | _ => Raise AttributeError
    end)).

(** The loop of [_add_node_and_edges].  An unhashable target raises at the
    membership test; the edges appended before it stay.  The clock left is
    returned with the mapper. *)
Fixpoint add_edges (clock : Clock) (node : ArgumentNode) (targets : list pyval)
  (self : t) : t * Clock * result unit :=
  match targets with
  | [] => (self, clock, Ok tt)
  | target :: rest =>
      match in_int_dict target (nodes self) with
      | Raise e => (self, clock, Raise e)
      | Ok false => add_edges clock node rest self
      | Ok true =>
          let edge := {| source_id := turn_id node; target_id := target;
                         edge_type := type node; edge_timestamp := now clock |} in
          add_edges (tick clock) node rest
            {| nodes := nodes self; edges := edges self ++ [edge];
               confidence_threshold := confidence_threshold self |}
      end
  end.

(** [_add_node_and_edges] *)
Definition _add_node_and_edges (clock : Clock) (node : ArgumentNode)
  (targets : list pyval) (self : t) : t * Clock * result unit :=
  add_edges clock node targets
    {| nodes := <[turn_id node := node]> (nodes self); edges := edges self;
       confidence_threshold := confidence_threshold self |}.

Definition ellipsis : string := "...".

(** [message[:100] + ...] *)
Definition truncated (message : string) : string :=
  String.append (str_take 100 message) ellipsis.

(** [_create_fallback_node] *)
Definition _create_fallback_node (clock : Clock) (tid : Z) (message speaker : string)
  (self : t) : t * ArgumentNode :=
  let fallback_node :=
    {| turn_id := tid; type := CLAIM; summary := PyStr (truncated message);
       speaker := speaker; topic := PyNone; timestamp := now clock |} in
  ({| nodes := <[tid := fallback_node]> (nodes self); edges := edges self;
      confidence_threshold := confidence_threshold self |}, fallback_node).

(** The targets handed to [_add_node_and_edges]; after validation the entry
    is a list whenever it is present. *)
Definition targets_of (d : pydict) : result (list pyval) :=
  match dict_get "targets" (PyList []) d with
  | PyList l => Ok l
  | _ => Raise TypeError
  end.

(** The try block of [analyze_message], after the prompt is built *)
Definition analyze_body `{Runtime} (clock : Clock) (tid : Z)
  (message speaker : string) (reply : ClaudeClient.api_reply) (self : t)
  : t * Clock * result (ArgumentNode * float) :=
  let analysis := ClaudeClient.call_claude reply in
  match _validate_analysis analysis with
  | Raise e => (self, clock, Raise e)
  | Ok (d, confidence) =>
      match of_value (dict_get "type" (PyStr "claim") d) with
      | Raise e => (self, clock, Raise e)
      | Ok ty =>
          let node :=
            {| turn_id := tid; type := ty;
               summary := dict_get "summary" (PyStr (truncated message)) d;
               speaker := speaker; topic := dict_get "topic" PyNone d;
               timestamp := now clock |} in
          match targets_of d with
          | Raise e => (self, tick clock, Raise e)
          | Ok targets =>
              match _add_node_and_edges (tick clock) node targets self with
              | (self', clock', Ok _) => (self', clock', Ok (node, confidence))
              | (self', clock', Raise e) => (self', clock', Raise e)
              end
          end
      end
  end.

(** [analyze_message]: the handler of the try block turns every exception
    into the fallback node with confidence [0.0]. *)
Definition analyze_message `{Runtime} (clock : Clock) (tid : Z)
  (message speaker : string) (reply : ClaudeClient.api_reply) (self : t)
  : t * Clock * result (ArgumentNode * float) :=
  match analyze_body clock tid message speaker reply self with
  | (self', clock', Ok r) => (self', clock', Ok r)
  | (self', clock', Raise _) =>
      let '(self'', node) := _create_fallback_node clock' tid message speaker self' in
      (self'', tick clock', Ok (node, 0%float))
  end.

End ArgumentMapper.

(** ** config.py *)

Module Config.

Definition INACTIVE_SESSION_TIMEOUT : Z := 5.   (* minutes *)
Definition CLEANUP_INTERVAL : Z := 60.          (* seconds *)

(** One second of [timedelta.total_seconds()], in the unit of the clock *)
Definition second : Z := 1000000.

End Config.

(** ** models.py *)

Module Session.
Import Py Types.

(** The anchor dicts built by [Session.add_anchor] and by the
    [create_anchor] handler have the same six keys. *)
Record Anchor : Type := {
  position : Z;
  length : Z;
  word : string;
  turnId : Z;
  userId : string;
  anchor_timestamp : datetime
}.

(** The request body of the anchor handlers *)
Record AnchorData : Type := {
  ad_position : Z;
  ad_length : Z;
  ad_word : string;
  ad_turnId : Z;
  ad_userId : string
}.

(** A transcript dict; [create_anchor] adds the key [anchors] to it. *)
Record Transcript : Type := {
  tr_turn_id : Z;
  tr_speaker : string;
  tr_transcript : string;
  tr_timestamp : datetime;
  tr_anchors : option (list Anchor)
}.

(** [timeline[metadata]], the part of the timeline that is its own; the
    other entries alias the lists of the session. *)
Record Metadata : Type := {
  md_created_at : datetime;
  md_participants : list string;
  md_is_archived : bool;
  md_archived_at : option datetime
}.

Record t : Type := {
  session_id : string;
  turn_count : Z;
  transcripts : list Transcript;
  created_at : datetime;
  last_activity : datetime;
  last_turn_id : Z;
  participants : gset string;
  connected_clients : Z;
  anchors : list Anchor;
  argument_mapper : ArgumentMapper.t;
  artifacts : list pyval;
  metadata : Metadata
}.

(** [Session(session_id)], two readings of the clock *)
Definition init (clock : Clock) (sid : string) : t :=
  {| session_id := sid; turn_count := 0; transcripts := [];
     created_at := now clock; last_activity := now (tick clock);
     last_turn_id := 0; participants := ∅; connected_clients := 0;
     anchors := []; argument_mapper := ArgumentMapper.init; artifacts := [];
     metadata := {| md_created_at := now clock; md_participants := [];
                    md_is_archived := false; md_archived_at := None |} |}.

Definition with_transcripts (l : list Transcript) (last : Z) (self : t) : t :=
  {| session_id := session_id self; turn_count := turn_count self;
     transcripts := l; created_at := created_at self;
     last_activity := last_activity self; last_turn_id := last;
     participants := participants self;
     connected_clients := connected_clients self; anchors := anchors self;
     argument_mapper := argument_mapper self; artifacts := artifacts self;
     metadata := metadata self |}.

Definition with_anchors (l : list Anchor) (self : t) : t :=
  {| session_id := session_id self; turn_count := turn_count self;
     transcripts := transcripts self; created_at := created_at self;
     last_activity := last_activity self; last_turn_id := last_turn_id self;
     participants := participants self;
     connected_clients := connected_clients self; anchors := l;
     argument_mapper := argument_mapper self; artifacts := artifacts self;
     metadata := metadata self |}.

Definition with_mapper (m : ArgumentMapper.t) (self : t) : t :=
  {| session_id := session_id self; turn_count := turn_count self;
     transcripts := transcripts self; created_at := created_at self;
     last_activity := last_activity self; last_turn_id := last_turn_id self;
     participants := participants self;
     connected_clients := connected_clients self; anchors := anchors self;
     argument_mapper := m; artifacts := artifacts self;
     metadata := metadata self |}.

Definition with_metadata (md : Metadata) (self : t) : t :=
  {| session_id := session_id self; turn_count := turn_count self;
     transcripts := transcripts self; created_at := created_at self;
     last_activity := last_activity self; last_turn_id := last_turn_id self;
     participants := participants self;
     connected_clients := connected_clients self; anchors := anchors self;
     argument_mapper := argument_mapper self; artifacts := artifacts self;
     metadata := md |}.

Definition with_presence (ps : gset string) (clients : Z) (activity : datetime)
  (self : t) : t :=
  {| session_id := session_id self; turn_count := turn_count self;
     transcripts := transcripts self; created_at := created_at self;
     last_activity := activity; last_turn_id := last_turn_id self;
     participants := ps; connected_clients := clients; anchors := anchors self;
     argument_mapper := argument_mapper self; artifacts := artifacts self;
     metadata := metadata self |}.

(** [is_inactive], at the instant [datetime.now()] returns *)
Definition is_inactive (instant : datetime) (self : t) : bool :=
  (connected_clients self <=? 0)
  && (size (participants self) =? 0)%nat
  && (Config.INACTIVE_SESSION_TIMEOUT * 60 * Config.second
        <? instant - last_activity self).

(** [add_participant] *)
Definition add_participant (instant : datetime) (name : string) (self : t) : t :=
  with_presence ({[name]} ∪ participants self) (connected_clients self + 1)
    instant self.

(** [remove_participant] *)
Definition remove_participant (instant : datetime) (name : string) (self : t) : t :=
  with_presence (participants self ∖ {[name]})
    (Z.max 0 (connected_clients self - 1)) instant self.

(** What [get_graph] returns: the nodes by turn id and the edges in the
    order they were appended, without the instants.  The ids are kept as
    they are where the source renders them with [str]. *)
Record GraphNode : Type := {
  gn_turn_id : Z;
  gn_type : string;
  gn_summary : pyval;
  gn_topic : pyval;
  gn_speaker : string
}.

Record GraphEdge : Type := {
  ge_source : Z;
  ge_target : pyval;
  ge_type : string
}.

Definition graph_node (n : ArgumentNode) : GraphNode :=
  {| gn_turn_id := turn_id n; gn_type := value (type n);
     gn_summary := summary n; gn_topic := topic n; gn_speaker := speaker n |}.

Definition graph_edge (e : ArgumentEdge) : GraphEdge :=
  {| ge_source := source_id e; ge_target := target_id e;
     ge_type := value (edge_type e) |}.

Definition get_graph (m : ArgumentMapper.t) : gmap Z GraphNode * list GraphEdge :=
  (graph_node <$> ArgumentMapper.nodes m, map graph_edge (ArgumentMapper.edges m)).

(** The JSON document [archive] writes *)
Record Snapshot : Type := {
  sn_transcripts : list Transcript;
  sn_artifacts : list pyval;
  sn_anchors : list Anchor;
  sn_argument_graph : gmap Z GraphNode * list GraphEdge;
  sn_created_at : datetime;
  sn_archived_at : datetime;
  sn_participants : list string;
  sn_session_id : string;
  sn_is_archived : bool;
  sn_transcript_count : nat;
  sn_participant_count : nat
}.

(** The archives directory: the snapshot files by session id *)
Definition Disk : Type := gmap string Snapshot.

(** What the file system does during one [archive]: nothing goes wrong,
    creating or opening the snapshot file raises, or the snapshot is
    written and moving the recordings directory raises. *)
Inductive io_fault : Type :=
| NoFault
| WriteFails
| MoveFails.

Definition snapshot (instant : datetime) (self : t) : Snapshot :=
  {| sn_transcripts := transcripts self; sn_artifacts := artifacts self;
     sn_anchors := anchors self;
     sn_argument_graph := get_graph (argument_mapper self);
     sn_created_at := created_at self; sn_archived_at := instant;
     sn_participants := elements (participants self);
     sn_session_id := session_id self; sn_is_archived := true;
     sn_transcript_count := List.length (transcripts self);
     sn_participant_count := size (participants self) |}.

(** [archive]: the timeline metadata is marked first, then the snapshot is
    written, then the recordings are moved. *)
Definition archive (clock : Clock) (fault : io_fault) (disk : Disk) (self : t)
  : t * Disk * Clock * result unit :=
  let md := {| md_created_at := md_created_at (metadata self);
               md_participants := elements (participants self);
               md_is_archived := true;
               md_archived_at := Some (now clock) |} in
  let self' := with_metadata md self in
  match fault with
  | WriteFails => (self', disk, tick clock, Raise OSError)
  | MoveFails =>
      (self', <[session_id self := snapshot (now (tick clock)) self]> disk,
       tick (tick clock), Raise OSError)
  | NoFault =>
      (self', <[session_id self := snapshot (now (tick clock)) self]> disk,
       tick (tick clock), Ok tt)
  end.

(** [add_anchor]: the request is not compared with the transcripts. *)
Definition add_anchor (instant : datetime) (anchor_data : AnchorData) (self : t)
  : t * Anchor :=
  let new_anchor :=
    {| position := ad_position anchor_data; length := ad_length anchor_data;
       word := ad_word anchor_data; turnId := ad_turnId anchor_data;
       userId := ad_userId anchor_data; anchor_timestamp := instant |} in
  (with_anchors (anchors self ++ [new_anchor]) self, new_anchor).

Definition anchor_matches (tid pos len : Z) (user_id : string) (a : Anchor) : bool :=
  (turnId a =? tid) && (position a =? pos) && (length a =? len)
  && String.eqb (userId a) user_id.

Fixpoint remove_first (p : Anchor -> bool) (l : list Anchor)
  : option (Anchor * list Anchor) :=
  match l with
  | [] => None
  | a :: l' =>
      if p a then Some (a, l')
      else match remove_first p l' with
           | Some (r, l'') => Some (r, a :: l'')
           | None => None
           end
  end.

(** [remove_anchor] *)
Definition remove_anchor (tid pos len : Z) (user_id : string) (self : t)
  : t * option Anchor :=
  match remove_first (anchor_matches tid pos len user_id) (anchors self) with
  | Some (removed, rest) => (with_anchors rest self, Some removed)
  | None => (self, None)
  end.

(** What [Session.analyze_message] hands back: the pair of the mapper, or
    the bare node of its own handler. *)
Inductive analysis : Type :=
| Classified (node : ArgumentNode) (confidence : float)
| Bare (node : ArgumentNode).

(** [Session.analyze_message].  Sorting the transcripts for the context
    cannot raise and only feeds the prompt. *)
Definition analyze_message `{Runtime} (clock : Clock) (tid : Z)
  (message speaker : string) (reply : ClaudeClient.api_reply) (self : t)
  : t * Clock * result analysis :=
  match ArgumentMapper.analyze_message clock tid message speaker reply
          (argument_mapper self) with
  | (m, clock', Ok (node, confidence)) =>
      (with_mapper m self, clock', Ok (Classified node confidence))
  | (m, clock', Raise _) =>
      (with_mapper m self, tick clock',
       Ok (Bare {| turn_id := tid; type := CLAIM;
                   summary := PyStr (str_take 100 message);
                   speaker := speaker; topic := PyNone;
                   timestamp := now clock' |}))
  end.

End Session.

(** ** session_manager.py *)

Module SessionManager.
Import Py Types.

(** The manager with the two stores its methods act on.  [queues] holds the
    [asyncio.Queue] objects by identity: a queue is its index, its content
    the items put and not yet taken, oldest first; the queues are unbounded,
    so [put] never waits.  [disk] is the archives directory.  [trace] lists
    every [queue.put] in the order it was performed. *)
Record t : Type := {
  active_sessions : dict Session.t;
  session_queues : dict (list nat);
  global_queues : list nat;
  archived_sessions : dict pyval;
  queues : list (list pyval);
  disk : Session.Disk;
  trace : list (nat * pyval)
}.

(** [SessionManager()] over the archives found at start-up *)
Definition init (archived : dict pyval) (d : Session.Disk) : t :=
  {| active_sessions := []; session_queues := []; global_queues := [];
     archived_sessions := archived; queues := []; disk := d; trace := [] |}.

Definition with_sessions (a : dict Session.t) (self : t) : t :=
  {| active_sessions := a; session_queues := session_queues self;
     global_queues := global_queues self;
     archived_sessions := archived_sessions self; queues := queues self;
     disk := disk self; trace := trace self |}.

Definition with_session_queues (sq : dict (list nat)) (self : t) : t :=
  {| active_sessions := active_sessions self; session_queues := sq;
     global_queues := global_queues self;
     archived_sessions := archived_sessions self; queues := queues self;
     disk := disk self; trace := trace self |}.

Definition with_global_queues (g : list nat) (self : t) : t :=
  {| active_sessions := active_sessions self;
     session_queues := session_queues self; global_queues := g;
     archived_sessions := archived_sessions self; queues := queues self;
     disk := disk self; trace := trace self |}.

Definition with_disk (d : Session.Disk) (self : t) : t :=
  {| active_sessions := active_sessions self;
     session_queues := session_queues self;
     global_queues := global_queues self;
     archived_sessions := archived_sessions self; queues := queues self;
     disk := d; trace := trace self |}.

(** [asyncio.Queue()] *)
Definition new_queue (self : t) : t * nat :=
  ({| active_sessions := active_sessions self;
      session_queues := session_queues self;
      global_queues := global_queues self;
      archived_sessions := archived_sessions self;
      queues := queues self ++ [[]]; disk := disk self; trace := trace self |},
   List.length (queues self)).

(** [await queue.put(item)] *)
Definition put (q : nat) (item : pyval) (self : t) : t :=
  {| active_sessions := active_sessions self;
     session_queues := session_queues self;
     global_queues := global_queues self;
     archived_sessions := archived_sessions self;
     queues := alter (fun content => content ++ [item]) q (queues self);
     disk := disk self; trace := trace self ++ [(q, item)] |}.

(** [create_session], with the identifier [uuid.uuid4()] returned *)
Definition create_session (clock : Clock) (sid : string) (self : t)
  : t * Clock * Session.t :=
  let session := Session.init clock sid in
  (with_session_queues (dict_set sid [] (session_queues self))
     (with_sessions (dict_set sid session (active_sessions self)) self),
   tick (tick clock), session).

(** [get_session] *)
Definition get_session (sid : string) (self : t) : option Session.t :=
  dict_lookup sid (active_sessions self).

(** [remove_session].  An exception of [archive] leaves the session in the
    map, with what [archive] did before it raised. *)
Definition remove_session (clock : Clock) (fault : Session.io_fault)
  (sid : string) (self : t) : t * Clock * result unit :=
  match dict_lookup sid (active_sessions self) with
  | None => (self, clock, Ok tt)
  | Some session =>
      match Session.archive clock fault (disk self) session with
      | (session', disk', clock', Raise e) =>
          (with_disk disk'
             (with_sessions (dict_set sid session' (active_sessions self)) self),
           clock', Raise e)
      | (_, disk', clock', Ok _) =>
          let self1 :=
            with_disk disk'
              (with_sessions (dict_del sid (active_sessions self)) self) in
          if dict_has sid (session_queues self1)
          then (with_session_queues (dict_del sid (session_queues self1)) self1,
                clock', Ok tt)
          else (self1, clock', Raise KeyError)
      end
  end.

(** The item every subscriber of a session receives *)
Definition message `{Runtime} (data : pydict) : pyval :=
  PyDict [("data", PyStr (json_dumps (PyDict data)))].

(** [if timestamp in data: del data[timestamp]] *)
Definition strip_timestamp (data : pydict) : pydict :=
  if dict_has "timestamp" data then dict_del "timestamp" data else data.

(** The loop [for queue in qs: await queue.put(item)] *)
Definition put_all (item : pyval) (qs : list nat) (self : t) : t :=
  fold_left (fun s q => put q item s) qs self.

(** [broadcast_to_session].  The callers pass a dict built for the call, so
    the removal of its timestamp shows only in the message. *)
Definition broadcast_to_session `{Runtime} (sid : string) (data : pydict)
  (self : t) : t :=
  match dict_lookup sid (session_queues self) with
  | Some qs => put_all (message (strip_timestamp data)) qs self
  | None => self
  end.

(** [broadcast_to_home]: no code sets the attribute [home_queues], so the
    test [hasattr(self, home_queues)] fails and nothing is sent. *)
Definition broadcast_to_home (data : pydict) (self : t) : t := self.

(** [add_client_queue] *)
Definition add_client_queue (sid : string) (self : t) : t * nat :=
  let self1 :=
    if dict_has sid (session_queues self) then self
    else with_session_queues (dict_set sid [] (session_queues self)) self in
  let '(self2, queue) := new_queue self1 in
  (with_session_queues
     (dict_set sid (dict_get sid [] (session_queues self2) ++ [queue])
        (session_queues self2)) self2,
   queue).

(** [l.remove(x)]: the first occurrence goes; [None] stands for ValueError *)
Fixpoint list_remove (x : nat) (l : list nat) : option (list nat) :=
  match l with
  | [] => None
  | y :: l' =>
      if Nat.eqb y x then Some l'
      else match list_remove x l' with
           | Some r => Some (y :: r)
           | None => None
           end
  end.

(** [remove_client_queue] *)
Definition remove_client_queue (sid : string) (queue : nat) (self : t) : t :=
  match dict_lookup sid (session_queues self) with
  | Some qs =>
      match list_remove queue qs with
      | Some qs' => with_session_queues (dict_set sid qs' (session_queues self)) self
      | None => self
      end
  | None => self
  end.

(** [add_global_queue] *)
Definition add_global_queue (queue : nat) (self : t) : t :=
  with_global_queues (global_queues self ++ [queue]) self.


(** [broadcast_global] *)
Definition broadcast_global `{Runtime} (data : pydict) (self : t) : t :=
  put_all (message data) (global_queues self) self.

Definition session_removed (sid : string) : pydict :=
  [("type", PyStr "session_removed"); ("session_id", PyStr sid)].

(** The for loop of [cleanup_inactive_sessions] over the items listed when
    the tick began.  [fault] says what the file system does when the session
    of that id is archived.  A session of the list is touched by no
    iteration but its own, so its state in the list is its state when it is
    tested. *)
Fixpoint sweep (clock : Clock) (fault : string -> Session.io_fault)
  (items : list (string * Session.t)) (self : t) : t * Clock * result unit :=
  match items with
  | [] => (self, clock, Ok tt)
  | (sid, session) :: rest =>
      if Session.is_inactive (now clock) session then
        match remove_session (tick clock) (fault sid) sid self with
        | (self', clock', Ok _) =>
            sweep clock' fault rest (broadcast_to_home (session_removed sid) self')
        | (self', clock', Raise e) => (self', clock', Raise e)
        end
      else sweep (tick clock) fault rest self
  end.

(** One turn of the [while True] loop of [cleanup_inactive_sessions], up to
    the sleep: the try block holds the whole for loop, and its handler logs
    the exception. *)
Definition cleanup_inactive_sessions (clock : Clock)
  (fault : string -> Session.io_fault) (self : t) : t * Clock :=
  match sweep clock fault (active_sessions self) self with
  | (self', clock', Ok _) => (self', clock')
  | (self', clock', Raise _) => (self', clock')
  end.

(** [get_active_sessions_info] *)
Definition get_active_sessions_info `{Runtime} (self : t) : pyval :=
  PyList (map (fun '(_, session) =>
    PyDict [("session_id", PyStr (Session.session_id session));
            ("participant_count",
             PyInt (Z.of_nat (size (Session.participants session))));
            ("created_at", PyStr (isoformat (Session.created_at session)));
            ("transcript_count",
             PyInt (Z.of_nat (List.length (Session.transcripts session))));
            ("is_archived", PyBool false)])
    (active_sessions self)).

End SessionManager.

(** ** api.py: the turn and anchor handlers *)

Module Api.
Import Py Types.

Definition not_found : exn := HTTPException 404.
Definition unprocessable : exn := HTTPException 422.
Definition server_error : exn := HTTPException 500.

(** A session is an object the handlers mutate in place: the session of the
    map is replaced by the mutated one. *)
Definition store (sid : string) (session : Session.t) (self : SessionManager.t)
  : SessionManager.t :=
  SessionManager.with_sessions
    (dict_set sid session (SessionManager.active_sessions self)) self.

Definition anchor_py `{Runtime} (a : Session.Anchor) : pyval :=
  PyDict [("position", PyInt (Session.position a));
          ("length", PyInt (Session.length a));
          ("word", PyStr (Session.word a));
          ("turnId", PyInt (Session.turnId a));
          ("userId", PyStr (Session.userId a));
          ("timestamp", PyStr (isoformat (Session.anchor_timestamp a)))].

Definition transcript_py `{Runtime} (tr : Session.Transcript) : pyval :=
  PyDict ([("turn_id", PyInt (Session.tr_turn_id tr));
           ("speaker", PyStr (Session.tr_speaker tr));
           ("transcript", PyStr (Session.tr_transcript tr));
           ("timestamp", PyStr (isoformat (Session.tr_timestamp tr)))]
          ++ match Session.tr_anchors tr with
             | Some l => [("anchors", PyList (map anchor_py l))]
             | None => []
             end).

Definition transcript_event `{Runtime} (tr : Session.Transcript) : pydict :=
  [("type", PyStr "transcript"); ("data", transcript_py tr)].

(** The lines shared by [send_message] and [upload_audio]: the next turn id
    is taken, the transcript appended, the id recorded. *)
Definition append_turn (instant : datetime) (speaker text : string)
  (session : Session.t) : Session.t * Session.Transcript :=
  let turn_id := Session.last_turn_id session + 1 in
  let transcript :=
    {| Session.tr_turn_id := turn_id; Session.tr_speaker := speaker;
       Session.tr_transcript := text; Session.tr_timestamp := instant;
       Session.tr_anchors := None |} in
  (Session.with_transcripts (Session.transcripts session ++ [transcript])
     turn_id session, transcript).

(** [send_message], up to the task it leaves to the event loop *)
Definition send_message `{Runtime} (clock : Clock) (sid speaker message : string)
  (self : SessionManager.t) : SessionManager.t * Clock * result Z :=
  match SessionManager.get_session sid self with
  | None => (self, clock, Raise not_found)
  | Some session =>
      let '(session', transcript) := append_turn (now clock) speaker message session in
      let self1 := store sid session' self in
      let self2 :=
        SessionManager.broadcast_to_session sid (transcript_event transcript) self1 in
      let self3 :=
        SessionManager.broadcast_global
          [("type", PyStr "sessions_update");
           ("active", SessionManager.get_active_sessions_info self2)] self2 in
      (self3, tick clock, Ok (Session.tr_turn_id transcript))
  end.

Definition placeholder : string := "[Transcribing...]".

(** [upload_audio], up to the task it leaves to the event loop.  The
    rejection of an empty upload is raised inside the try block, whose
    handler turns it into a 500. *)
Definition upload_audio `{Runtime} (clock : Clock) (sid speaker : string)
  (audio_content : list Byte.byte) (self : SessionManager.t)
  : SessionManager.t * Clock * result Z :=
  match SessionManager.get_session sid self with
  | None => (self, clock, Raise not_found)
  | Some session =>
      match audio_content with
      | [] => (self, clock, Raise server_error)
      | _ :: _ =>
          let '(session', transcript) :=
            append_turn (now clock) speaker placeholder session in
          let self1 := store sid session' self in
          let self2 :=
            SessionManager.broadcast_to_session sid (transcript_event transcript)
              self1 in
          (self2, tick clock, Ok (Session.tr_turn_id transcript))
      end
  end.

(** What the transcription provider made of an upload *)
Inductive transcription : Type :=
| TranscriberRaises
| TranscriptError
| TranscriptText (text : string).

Definition transcription_failed : string := "[Transcription failed]".
Definition empty_transcript : string := "[Empty transcript]".

(** The first transcript of the given turn id gets the text; [None] when no
    transcript has the id. *)
Fixpoint set_text (turn_id : Z) (text : string) (l : list Session.Transcript)
  : option (Session.Transcript * list Session.Transcript) :=
  match l with
  | [] => None
  | tr :: l' =>
      if Session.tr_turn_id tr =? turn_id then
        let tr' :=
          {| Session.tr_turn_id := Session.tr_turn_id tr;
             Session.tr_speaker := Session.tr_speaker tr;
             Session.tr_transcript := text;
             Session.tr_timestamp := Session.tr_timestamp tr;
             Session.tr_anchors := Session.tr_anchors tr |} in
        Some (tr', tr' :: l')
      else match set_text turn_id text l' with
           | Some (tr', l'') => Some (tr', tr :: l'')
           | None => None
           end
  end.

(** The transcript update of [process_audio_and_update], for a session that
    is still in the map; the analysis that may follow is a call of
    [Session.analyze_message]. *)
Definition update_transcript `{Runtime} (sid : string) (turn_id : Z)
  (outcome : transcription) (self : SessionManager.t) : SessionManager.t :=
  match outcome, SessionManager.get_session sid self with
  | TranscriberRaises, _ | _, None => self
  | (TranscriptError | TranscriptText _), Some session =>
      let text :=
        match outcome with
        | TranscriptText (String c s) => String c s
        | TranscriptText EmptyString => empty_transcript
        | _ => transcription_failed
        end in
      match set_text turn_id text (Session.transcripts session) with
      | None => self
      | Some (tr, l) =>
          SessionManager.broadcast_to_session sid (transcript_event tr)
            (store sid (Session.with_transcripts l (Session.last_turn_id session)
                          session) self)
      end
  end.

(** What [AnchorData] accepts: [position >= 0], [length > 0], [turnId >= 0] *)
Definition anchor_data_valid (a : Session.AnchorData) : bool :=
  (0 <=? Session.ad_position a) && (0 <? Session.ad_length a)
  && (0 <=? Session.ad_turnId a).

(** [add_anchor], the first handler registered for the route *)
Definition add_anchor `{Runtime} (clock : Clock) (sid : string)
  (anchor_data : Session.AnchorData) (self : SessionManager.t)
  : SessionManager.t * Clock * result Session.Anchor :=
  if negb (anchor_data_valid anchor_data) then (self, clock, Raise unprocessable)
  else
    match SessionManager.get_session sid self with
    | None => (self, clock, Raise not_found)
    | Some session =>
        let '(session', new_anchor) :=
          Session.add_anchor (now clock) anchor_data session in
        (SessionManager.broadcast_to_session sid
           [("type", PyStr "anchor"); ("data", anchor_py new_anchor)]
           (store sid session' self),
         tick clock, Ok new_anchor)
    end.

(** The first transcript of the given turn id gets the anchor. *)
Fixpoint attach (a : Session.Anchor) (l : list Session.Transcript)
  : option (list Session.Transcript) :=
  match l with
  | [] => None
  | tr :: l' =>
      if Session.tr_turn_id tr =? Session.turnId a then
        Some ({| Session.tr_turn_id := Session.tr_turn_id tr;
                 Session.tr_speaker := Session.tr_speaker tr;
                 Session.tr_transcript := Session.tr_transcript tr;
                 Session.tr_timestamp := Session.tr_timestamp tr;
                 Session.tr_anchors :=
                   Some (default [] (Session.tr_anchors tr) ++ [a]) |} :: l')
      else match attach a l' with
           | Some l'' => Some (tr :: l'')
           | None => None
           end
  end.

(** [create_anchor], the second handler written for the same route: it looks
    the turn up among the transcripts and answers 404 when there is none. *)
Definition create_anchor `{Runtime} (clock : Clock) (sid : string)
  (anchor : Session.AnchorData) (self : SessionManager.t)
  : SessionManager.t * Clock * result unit :=
  match SessionManager.get_session sid self with
  | None => (self, clock, Raise not_found)
  | Some session =>
      let anchor_data :=
        {| Session.position := Session.ad_position anchor;
           Session.length := Session.ad_length anchor;
           Session.word := Session.ad_word anchor;
           Session.turnId := Session.ad_turnId anchor;
           Session.userId := Session.ad_userId anchor;
           Session.anchor_timestamp := now clock |} in
      match attach anchor_data (Session.transcripts session) with
      | None => (self, clock, Raise not_found)
      | Some l =>
          (SessionManager.broadcast_to_session sid
             [("type", PyStr "add"); ("data", anchor_py anchor_data)]
             (store sid (Session.with_transcripts l (Session.last_turn_id session)
                           session) self),
           tick clock, Ok tt)
      end
  end.

(** [archive_session], the DELETE handler *)
Definition archive_session (clock : Clock) (fault : Session.io_fault)
  (sid : string) (self : SessionManager.t)
  : SessionManager.t * Clock * result unit :=
  match SessionManager.get_session sid self with
  | None => (self, clock, Raise not_found)
  | Some _ => SessionManager.remove_session clock fault sid self
  end.

(** A turn submission, and the steps that can stand between two of them on
    the same session: the transcription of an earlier upload coming back. *)
Inductive step : Type :=
| SendMessage (speaker message : string)
| UploadAudio (speaker : string) (audio_content : list Byte.byte)
| Transcribed (turn_id : Z) (outcome : transcription).

(** The steps in call order, with the answer of every submission *)
Fixpoint run `{Runtime} (clock : Clock) (sid : string) (steps : list step)
  (self : SessionManager.t) : SessionManager.t * Clock * list (result Z) :=
  match steps with
  | [] => (self, clock, [])
  | SendMessage speaker message :: rest =>
      let '(self', clock', r) := send_message clock sid speaker message self in
      let '(self'', clock'', rs) := run clock' sid rest self' in
      (self'', clock'', r :: rs)
  | UploadAudio speaker audio :: rest =>
      let '(self', clock', r) := upload_audio clock sid speaker audio self in
      let '(self'', clock'', rs) := run clock' sid rest self' in
      (self'', clock'', r :: rs)
  | Transcribed turn_id outcome :: rest =>
      run clock sid rest (update_transcript sid turn_id outcome self)
  end.

(** How the loop of a consumer stands once it has read what its queue
    holds: it left the loop on the close sentinel, or it waits in
    [queue.get()] for the next put. *)
Inductive consumer : Type :=
| Released
| Waiting.

(** The [while True] loop of [event_generator] in [session_events], over the
    items its queue holds: it yields the items in their order and leaves the
    loop at the first [None]. *)
Fixpoint event_loop (content : list pyval) : list pyval * consumer :=
  match content with
  | [] => ([], Waiting)
  | PyNone :: _ => ([], Released)
  | message :: rest =>
      let '(yielded, c) := event_loop rest in (message :: yielded, c)
  end.

End Api.

(** ** Notions the properties are stated with *)

Module Spec.
Import Py Types.







(** A value that can be looked up in a dict *)
Definition hashable (v : pyval) : bool := is_ok (int_key v).

(** The target is the key of a node *)
Definition known {V : Type} (d : gmap Z V) (target : pyval) : bool :=
  match in_int_dict target d with
  | Ok b => b
  | Raise _ => false
  end.

(** The operations that create nodes and edges *)
Inductive op `{Runtime} : Type :=
| AddNodeAndEdges (clock : Clock) (node : ArgumentNode) (targets : list pyval)
| CreateFallbackNode (clock : Clock) (tid : Z) (message speaker : string)
| AnalyzeMessage (clock : Clock) (tid : Z) (message speaker : string)
    (reply : ClaudeClient.api_reply).

Definition apply `{Runtime} (o : op) (m : ArgumentMapper.t) : ArgumentMapper.t :=
  match o with
  | AddNodeAndEdges clock node targets =>
      (ArgumentMapper._add_node_and_edges clock node targets m).1.1
  | CreateFallbackNode clock tid message speaker =>
      (ArgumentMapper._create_fallback_node clock tid message speaker m).1
  | AnalyzeMessage clock tid message speaker reply =>
      (ArgumentMapper.analyze_message clock tid message speaker reply m).1.1
  end.

(** Every step of a sequence of operations satisfies [P] *)
Fixpoint every_step `{Runtime} (P : ArgumentMapper.t -> ArgumentMapper.t -> Prop)
  (ops : list op) (m : ArgumentMapper.t) : Prop :=
  match ops with
  | [] => True
  | o :: rest => P m (apply o m) /\ every_step P rest (apply o m)
  end.

(** The step appends edges only, and each one points at a node of the map as
    the step leaves it, which has the keys the map had when the edge was
    made: a step inserts its one node before it makes an edge. *)
Definition appends_to_known (m m' : ArgumentMapper.t) : Prop :=
  exists added,
    ArgumentMapper.edges m' = ArgumentMapper.edges m ++ added
    /\ Forall (fun e => known (ArgumentMapper.nodes m') (target_id e) = true) added.

(** The targets field is present and is not a list *)
Definition targets_malformed (d : pydict) : bool :=
  match dict_lookup "targets" d with
  | Some (PyList _) | None => false
  | Some _ => true
  end.

(** The type field is missing or is none of the four values *)
Definition type_unrecognised (d : pydict) : bool :=
  match dict_lookup "type" d with
  | Some (PyStr s) =>
      negb (String.eqb s "claim" || String.eqb s "support"
            || String.eqb s "counter" || String.eqb s "response")
  | _ => true
  end.

Definition penalised (applies : bool) (c : float) : float :=
  if applies then (c * 0.8)%float else c.

(** The response as validation leaves it *)
Definition validated (d : pydict) : pydict :=
  let d1 := if targets_malformed d then dict_set "targets" (PyList []) d else d in
  if type_unrecognised d then dict_set "type" (PyStr "claim") d1 else d1.

(** The targets validation hands on *)
Definition valid_targets (d : pydict) : list pyval :=
  match dict_lookup "targets" d with
  | Some (PyList l) => l
  | _ => []
  end.

(** The type validation hands on *)
Definition valid_type (d : pydict) : ArgumentType :=
  match of_value (dict_get "type" (PyStr "claim") d) with
  | Ok ty => ty
  | Raise _ => CLAIM
  end.

(** A submission that appends a turn: every message, and every upload that
    is not empty *)
Definition accepted (s : Api.step) : bool :=
  match s with
  | Api.SendMessage _ _ => true
  | Api.UploadAudio _ (_ :: _) => true
  | _ => false
  end.

Definition speaker_of (s : Api.step) : string :=
  match s with
  | Api.SendMessage speaker _ | Api.UploadAudio speaker _ => speaker
  | Api.Transcribed _ _ => EmptyString
  end.

(** The turn ids the answers carry *)
Definition granted (answers : list (result Z)) : list Z :=
  omap (fun r => match r with Ok z => Some z | Raise _ => None end) answers.

(** [1; ...; n] *)
Definition first_ids (n : nat) : list Z := map Z.of_nat (seq 1 n).

(** The last item of the queue is the close sentinel [None] *)
Definition closed_by_sentinel (q : nat) (self : SessionManager.t) : bool :=
  match SessionManager.queues self !! q with
  | Some content =>
      match last content with
      | Some PyNone => true
      | _ => false
      end
  | None => false
  end.

(** No queue holds the close sentinel *)
Definition sentinel_free (self : SessionManager.t) : Prop :=
  Forall (Forall (fun item => item <> PyNone)) (SessionManager.queues self).

(** The keys of a dict are distinct *)
Definition distinct_keys {V : Type} (d : dict V) : Prop := NoDup (map fst d).

(** The operations on the manager that touch the subscriber lists or the
    queues *)
Inductive manager_op : Type :=
| CreateSession (clock : Clock) (sid : string)
| Subscribe (sid : string)
| Unsubscribe (sid : string) (queue : nat)
| RemoveSession (clock : Clock) (fault : Session.io_fault) (sid : string)
| Publish (sid : string) (data : pydict)
| SubscribeGlobal
| PublishGlobal (data : pydict).

Definition manage `{Runtime} (self : SessionManager.t) (o : manager_op)
  : SessionManager.t :=
  match o with
  | CreateSession clock sid => (SessionManager.create_session clock sid self).1.1
  | Subscribe sid => (SessionManager.add_client_queue sid self).1
  | Unsubscribe sid queue => SessionManager.remove_client_queue sid queue self
  | RemoveSession clock fault sid =>
      (SessionManager.remove_session clock fault sid self).1.1
  | Publish sid data => SessionManager.broadcast_to_session sid data self
  | SubscribeGlobal =>
      let '(self', queue) := SessionManager.new_queue self in
      SessionManager.add_global_queue queue self'
  | PublishGlobal data => SessionManager.broadcast_global data self
  end.

(** Every subscriber list holds queues that exist, each one once. *)
Definition subscribers_distinct (self : SessionManager.t) : Prop :=
  Forall (fun entry : string * list nat =>
            NoDup entry.2
            /\ Forall (fun q => (q < List.length (SessionManager.queues self))%nat)
                 entry.2)
    (SessionManager.session_queues self).

(** The session [sid] is registered, its last turn id is [k], and its
    transcripts carry the ids [1; ...; k] and these speakers, in this order. *)
Definition dense (sid : string) (k : nat) (speakers : list string)
  (w : SessionManager.t) : Prop :=
  exists session,
    SessionManager.get_session sid w = Some session
    /\ Session.last_turn_id session = Z.of_nat k
    /\ map Session.tr_turn_id (Session.transcripts session) = first_ids k
    /\ map Session.tr_speaker (Session.transcripts session) = speakers.

(** An anchor request on a turn that does not exist *)
Definition stray_anchor : Session.AnchorData :=
  {| Session.ad_position := 0; Session.ad_length := 5;
     Session.ad_word := "hello"; Session.ad_turnId := 7;
     Session.ad_userId := "alice" |}.

(** The values the witnesses run on: a JSON codec that knows five
    documents, and a clock that counts. *)
Definition self_loop_response : pydict :=
  [("type", PyStr "support"); ("summary", PyStr "agrees with itself");
   ("targets", PyList [PyInt 1; PyInt 2]); ("confidence", PyFloat 0.9)].

Definition coerced_response : pydict :=
  [("type", PyStr "rebuttal"); ("summary", PyStr "no");
   ("targets", PyStr "1, 2"); ("confidence", PyFloat 0.9)].

Definition first_claim : pydict :=
  [("type", PyStr "claim"); ("summary", PyStr "X causes Y");
   ("targets", PyList []); ("confidence", PyFloat 0.9)].

Definition counter_to_first : pydict :=
  [("type", PyStr "counter"); ("summary", PyStr "X does not cause Y");
   ("targets", PyList [PyInt 1]); ("confidence", PyFloat 0.85)].

Definition sample_runtime : Runtime :=
  {| json_loads s :=
       if String.eqb s "claim" then Ok (PyDict first_claim)
       else if String.eqb s "counter" then Ok (PyDict counter_to_first)
       else if String.eqb s "self-loop" then Ok (PyDict self_loop_response)
       else if String.eqb s "coerced" then Ok (PyDict coerced_response)
       else if String.eqb s "no-confidence" then Ok (PyDict [("confidence", PyNone)])
       else if String.eqb s "too-deep" then Raise RecursionError
       else Raise JSONDecodeError;
     json_dumps _ := "{}";
     float_of_str _ := None;
     isoformat _ := "1970-01-01T00:00:00" |}.

(** What a consumer reads out of an item: the JSON text under [data],
    parsed *)
Definition event_of `{Runtime} (item : pyval) : option pyval :=
  match item with
  | PyDict [(key, PyStr text)] =>
      if String.eqb key "data" then
        match json_loads text with
        | Ok v => Some v
        | Raise _ => None
        end
      else None
  | _ => None
  end.

(** A codec for the examples: it writes the string entries of a dict, and
    reads the one text the examples publish. *)
Definition wire_entry (entry : string * pyval) : string :=
  match entry with
  | (key, PyStr s) => String.append key (String.append ": " s)
  | (key, _) => String.append key ": ?"
  end.

Definition wire (v : pyval) : string :=
  match v with
  | PyDict d =>
      String.append "{" (String.append (String.concat ", " (map wire_entry d)) "}")
  | _ => "?"
  end.

Definition wire_runtime : Runtime :=
  {| json_loads s :=
       if String.eqb s "{type: transcript}"
       then Ok (PyDict [("type", PyStr "transcript")])
       else Raise JSONDecodeError;
     json_dumps := wire;
     float_of_str _ := None;
     isoformat _ := "1970-01-01T00:00:00" |}.

Definition sample_clock : Clock := fun k => Z.of_nat k.

(** A manager with one session and two subscribers of it *)
Definition one_session : SessionManager.t :=
  (SessionManager.create_session sample_clock "s"
     (SessionManager.init [] ∅)).1.1.

Definition two_subscribers : SessionManager.t :=
  (SessionManager.add_client_queue "s"
     (SessionManager.add_client_queue "s" one_session).1).1.

(** A manager with the sessions [a] and [b], both created near instant 0
    and left alone; a clock that reads twenty minutes later; a file system
    that cannot write the snapshot of [a]. *)
Definition two_sessions : SessionManager.t :=
  (SessionManager.create_session sample_clock "b"
     (SessionManager.create_session sample_clock "a"
        (SessionManager.init [] ∅)).1.1).1.1.

Definition late_clock : Clock := fun k => 1200 * Config.second + Z.of_nat k.

Definition disk_refuses_a (sid : string) : Session.io_fault :=
  if String.eqb sid "a" then Session.WriteFails else Session.NoFault.

Definition sample_node : ArgumentNode :=
  {| turn_id := 1; type := COUNTER; summary := PyStr "that is wrong";
     speaker := "Bob"; topic := PyNone; timestamp := 0 |}.

End Spec.

(** ** models.py: the queries on the transcripts *)

Module SessionQueries.
Import Py Types.

(** [sorted] is stable: items of equal key keep the order of the input.
    That fixes its result, which this insertion sort computes, the items
    taken from the last to the first.  [before a b] says that an item of key
    [a] goes in front of an item of key [b] that came after it in the input. *)
Fixpoint insert_by {A : Type} (key : A -> Z) (before : Z -> Z -> bool) (x : A)
  (l : list A) : list A :=
  match l with
  | [] => [x]
  | y :: l' =>
      if before (key x) (key y) then x :: y :: l'
      else y :: insert_by key before x l'
  end.

Definition sorted_by {A : Type} (key : A -> Z) (before : Z -> Z -> bool)
  (l : list A) : list A :=
  foldr (insert_by key before) [] l.

(** [sorted(l, key=...)] *)
Definition ascending : Z -> Z -> bool := fun a b => a <=? b.

(** [sorted(l, key=..., reverse=True)], which keeps equal items in the order
    of the input as well *)
Definition descending : Z -> Z -> bool := fun a b => b <=? a.

(** [l[:count]]: a negative count leaves that many items off the end *)
Definition slice_to {A : Type} (count : Z) (l : list A) : list A :=
  if 0 <=? count then take (Z.to_nat count) l
  else take (List.length l - Z.to_nat (- count)) l.

(** [get_recent_turns].  The key is the timestamp of the transcript; the
    ISO-8601 texts of the source compare as their instants do. *)
Definition get_recent_turns (count : Z) (self : Session.t)
  : list Session.Transcript :=
  slice_to count (sorted_by Session.tr_timestamp descending (Session.transcripts self)).

(** [get_all_turns] *)
Definition get_all_turns (self : Session.t) : list Session.Transcript :=
  sorted_by Session.tr_timestamp ascending (Session.transcripts self).

End SessionQueries.

(** ** selection_analyzer.py *)

Module SelectionAnalyzer.
Import Py Types.

(** [x[key]] for a string key: a dict answers with the value or KeyError,
    anything else with TypeError. *)
Definition item (x : pyval) (key : string) : result pyval :=
  match x with
  | PyDict d =>
      match dict_lookup key d with
      | Some v => Ok v
      | None => Raise KeyError
      end
  | _ => Raise TypeError
  end.

(** The subscripts of one f-string, in the order they are evaluated *)
Fixpoint items (x : pyval) (keys : list string) : result unit :=
  match keys with
  | [] => Ok tt
  | key :: rest => bind (item x key) (fun _ => items x rest)
  end.

(** The comprehension that renders every element with these subscripts *)
Fixpoint render_all (keys : list string) (xs : list pyval) : result unit :=
  match xs with
  | [] => Ok tt
  | x :: rest => bind (items x keys) (fun _ => render_all keys rest)
  end.

(** [v[:n]]: a list or a string can be sliced; a dict, a number or [None]
    raises. *)
Definition slice (n : nat) (v : pyval) : result pyval :=
  match v with
  | PyList l => Ok (PyList (take n l))
  | PyStr s => Ok (PyStr (str_take n s))
  | _ => Raise TypeError
  end.

(** [min(max(f, 0), 1)].  [max] keeps its first argument unless the second
    is greater, [min] unless the second is smaller; the bounds are the
    integers [0] and [1], and a NaN compares to neither. *)
Definition clamp (f : float) : pyval :=
  let m := if PrimFloat.ltb f 0 then PyInt 0 else PyFloat f in
  match m with
  | PyFloat x => if PrimFloat.ltb 1 x then PyInt 1 else PyFloat x
  | other => other
  end.

Definition failed : pydict :=
  [("main_themes", PyList [PyStr "Analysis failed"]);
   ("key_points", PyList [PyStr "Unable to analyze selection"]);
   ("conclusion", PyStr "Analysis failed due to an error");
   ("confidence", PyFloat 0)].

(** The try block of [analyze_selection]: the two texts of the prompt are
    rendered, the provider is called, the answer is cleaned. *)
Definition analyze_body `{Runtime} (nodes edges : list pyval)
  (reply : ClaudeClient.api_reply) : result pydict :=
  bind (render_all ["id"; "speaker"; "summary"] nodes) (fun _ =>
  bind (render_all ["source"; "type"; "target"] edges) (fun _ =>
  let analysis := ClaudeClient.call_claude reply in
  bind (ArgumentMapper.get analysis "main_themes" (PyList [])) (fun themes =>
  bind (slice 3 themes) (fun main_themes =>
  bind (ArgumentMapper.get analysis "key_points" (PyList [])) (fun points =>
  bind (slice 5 points) (fun key_points =>
  bind (ArgumentMapper.get analysis "conclusion"
          (PyStr "Unable to determine conclusion")) (fun conclusion =>
  bind (ArgumentMapper.get analysis "confidence" (PyFloat 0.5)) (fun c =>
  bind (py_float c) (fun confidence =>
    Ok [("main_themes", main_themes); ("key_points", key_points);
        ("conclusion", conclusion); ("confidence", clamp confidence)]))))))))).

(** [analyze_selection] *)
Definition analyze_selection `{Runtime} (nodes edges : list pyval)
  (reply : ClaudeClient.api_reply) : pydict :=
  match analyze_body nodes edges reply with
  | Ok cleaned => cleaned
  | Raise _ => failed
  end.

End SelectionAnalyzer.

(** ** Further notions *)

Module Notions.
Import Py Types.

(** The clock never runs backwards. *)
Definition monotone (clock : Clock) : Prop :=
  forall i j : nat, (i <= j)%nat -> clock i <= clock j.

(** The two dicts of the manager have distinct keys, and every live session
    has its list of subscribers. *)
Definition registry_consistent (self : SessionManager.t) : Prop :=
  Spec.distinct_keys (SessionManager.active_sessions self)
  /\ Spec.distinct_keys (SessionManager.session_queues self)
  /\ forall sid,
       is_Some (dict_lookup sid (SessionManager.active_sessions self)) ->
       is_Some (dict_lookup sid (SessionManager.session_queues self)).

(** A confidence within the bounds: the integer [0] or [1], or a float that
    is neither below [0] nor above [1]. *)
Definition within_bounds (v : pyval) : bool :=
  match v with
  | PyInt z => (z =? 0) || (z =? 1)
  | PyFloat x => negb (PrimFloat.ltb x 0) && negb (PrimFloat.ltb 1 x)
  | _ => false
  end.

(** At most [n] items, for a list or a string *)
Definition at_most (n : nat) (v : pyval) : bool :=
  match v with
  | PyList l => (List.length l <=? n)%nat
  | PyStr s => (String.length s <=? n)%nat
  | _ => false
  end.

(** What an edge says, without the instant it was made at *)
Definition edge_content (e : ArgumentEdge) : Z * pyval * ArgumentType :=
  (source_id e, target_id e, edge_type e).

(** The text a transcription leaves in the transcript *)
Definition final_text (outcome : Api.transcription) : option string :=
  match outcome with
  | Api.TranscriberRaises => None
  | Api.TranscriptError => Some Api.transcription_failed
  | Api.TranscriptText EmptyString => Some Api.empty_transcript
  | Api.TranscriptText text => Some text
  end.

(** [x] may stand in front of [y] *)
Definition in_order {A : Type} (key : A -> Z) (before : Z -> Z -> bool)
  (x y : A) : Prop :=
  before (key x) (key y) = true.



(** A mapper that holds turn 1, the claim of Alice *)
Definition after_first_claim : ArgumentMapper.t :=
  (ArgumentMapper.analyze_message (H := Spec.sample_runtime) Spec.sample_clock 1
     "X causes Y" "Alice" (ClaudeClient.ApiMessage ["claim"])
     ArgumentMapper.init).1.1.

(** A response whose second target is a list, and a parser that knows it *)
Definition unhashable_response : pydict :=
  [("type", PyStr "support"); ("summary", PyStr "agrees");
   ("targets", PyList [PyInt 1; PyList []; PyInt 1]);
   ("confidence", PyFloat 0.9)].

Definition second_runtime : Runtime :=
  {| json_loads s :=
       if String.eqb s "unhashable" then Ok (PyDict unhashable_response)
       else Raise JSONDecodeError;
     json_dumps _ := "{}";
     float_of_str _ := None;
     isoformat _ := "1970-01-01T00:00:00" |}.

(** A manager with the sessions [a], [b] and [c], all left alone, and a
    file system that cannot write the snapshot of [b] *)
Definition three_sessions : SessionManager.t :=
  (SessionManager.create_session Spec.sample_clock "c" Spec.two_sessions).1.1.

Definition disk_refuses_b (sid : string) : Session.io_fault :=
  if String.eqb sid "b" then Session.WriteFails else Session.NoFault.


End Notions.

(** ** Properties of dicts *)

Module DictProps.
Import Py Spec.

Lemma dict_lookup_set_eq {V : Type} (key : string) (v : V) (d : dict V) :
  dict_lookup key (dict_set key v d) = Some v.
Proof.
  induction d as [|[k w] d IH]; simpl.
  - by rewrite String.eqb_refl.
  - destruct (String.eqb k key) eqn:E; simpl; rewrite E; done.
Qed.

Lemma dict_lookup_set_ne {V : Type} (key key' : string) (v : V) (d : dict V) :
  key <> key' -> dict_lookup key' (dict_set key v d) = dict_lookup key' d.
Proof.
  intros Hne. apply String.eqb_neq in Hne.
  induction d as [|[k w] d IH]; simpl.
  - by rewrite Hne.
  - destruct (String.eqb k key) eqn:E; simpl.
    + apply String.eqb_eq in E. subst k. by rewrite Hne.
    + by rewrite IH.
Qed.

Lemma dict_has_lookup {V : Type} (key : string) (d : dict V) :
  dict_has key d = match dict_lookup key d with Some _ => true | None => false end.
Proof.
  induction d as [|[k v] d IH]; simpl; [done|].
  destruct (String.eqb k key); [done|exact IH].
Qed.

Lemma dict_lookup_not_key {V : Type} (key : string) (d : dict V) :
  ~ In key (map fst d) -> dict_lookup key d = None.
Proof.
  induction d as [|[k v] d IH]; simpl; [done|]. intros Hn.
  destruct (String.eqb k key) eqn:E.
  - apply String.eqb_eq in E. tauto.
  - apply IH. tauto.
Qed.

Lemma dict_del_keys {V : Type} (key : string) (d : dict V) (k : string) :
  In k (map fst (dict_del key d)) -> In k (map fst d).
Proof.
  induction d as [|[k0 v] d IH]; simpl; [done|].
  destruct (String.eqb k0 key); simpl; tauto.
Qed.

Lemma dict_lookup_del_eq {V : Type} (key : string) (d : dict V) :
  distinct_keys d -> dict_lookup key (dict_del key d) = None.
Proof.
  unfold distinct_keys. induction d as [|[k v] d IH]; simpl; [done|].
  intros Hnd. apply NoDup_cons in Hnd as [Hk Hnd].
  destruct (String.eqb k key) eqn:E.
  - apply String.eqb_eq in E. subst k. apply dict_lookup_not_key.
    by rewrite <- list_elem_of_In.
  - simpl. rewrite E. by apply IH.
Qed.

Lemma dict_lookup_del_ne {V : Type} (key key' : string) (d : dict V) :
  key <> key' -> dict_lookup key' (dict_del key d) = dict_lookup key' d.
Proof.
  intros Hne. apply String.eqb_neq in Hne.
  induction d as [|[k v] d IH]; simpl; [done|].
  destruct (String.eqb k key) eqn:E.
  - apply String.eqb_eq in E. subst k. by rewrite Hne.
  - simpl. by rewrite IH.
Qed.

End DictProps.

(** ** Properties of the argument mapper *)

Module MapperProps.
Import Py Types ArgumentMapper Spec DictProps.

Section Mapper.
Context `{Runtime}.

Lemma known_in_int_dict {V : Type} (d : gmap Z V) (target : pyval) :
  known d target = true <-> in_int_dict target d = Ok true.
Proof.
  unfold known. destruct (in_int_dict target d) as [[|]|]; split; congruence.
Qed.

Lemma in_int_dict_mono {V : Type} (d d' : gmap Z V) (target : pyval) :
  (forall k, is_Some (d !! k) -> is_Some (d' !! k)) ->
  known d target = true -> known d' target = true.
Proof.
  unfold known, in_int_dict. intros Hsub.
  destruct (int_key target) as [[k|]|]; try done.
  rewrite !bool_decide_eq_true. apply Hsub.
Qed.

(** The loop leaves the nodes alone and appends one edge for every target
    it met that is a key of the node map, in the order of the targets. *)
Lemma add_edges_spec (targets : list pyval) :
  forall (clock : Clock) (node : ArgumentNode) (self : t),
  exists added,
    nodes (add_edges clock node targets self).1.1 = nodes self
    /\ confidence_threshold (add_edges clock node targets self).1.1
       = confidence_threshold self
    /\ edges (add_edges clock node targets self).1.1 = edges self ++ added
    /\ Forall (fun e => source_id e = turn_id node /\ edge_type e = type node
                        /\ known (nodes self) (target_id e) = true) added
    /\ (forallb hashable targets = true ->
        (add_edges clock node targets self).2 = Ok tt
        /\ map target_id added = List.filter (known (nodes self)) targets).
Proof.
  induction targets as [|target rest IH]; intros clock node self; simpl.
  - exists []. rewrite app_nil_r. repeat split; constructor.
  - unfold known at 2, hashable at 1, in_int_dict.
    destruct (int_key target) as [[k|]|] eqn:Hkey; simpl.
    + destruct (bool_decide (is_Some (nodes self !! k))) eqn:Hk.
      * set (self1 := {| nodes := nodes self; edges := _; confidence_threshold := _ |}).
        destruct (IH (tick clock) node self1) as (added & Hn & Hc & He & Hall & Hok).
        exists ({| source_id := turn_id node; target_id := target;
                   edge_type := type node; edge_timestamp := now clock |} :: added).
        rewrite Hn, Hc, He. subst self1. simpl in *. rewrite <- app_assoc. simpl.
        split; [done|]. split; [done|]. split; [done|]. split.
        -- constructor; [|exact Hall]. simpl. split; [done|]. split; [done|].
           unfold known, in_int_dict. rewrite Hkey. exact Hk.
        -- intros Hh. destruct (Hok Hh) as [-> ->]. done.
      * destruct (IH clock node self) as (added & Hn & Hc & He & Hall & Hok).
        exists added. done.
    + destruct (IH clock node self) as (added & Hn & Hc & He & Hall & Hok).
      exists added. done.
    + exists []. rewrite app_nil_r. repeat split; done.
Qed.


Lemma _add_node_and_edges_spec (clock : Clock) (node : ArgumentNode)
  (targets : list pyval) (self : t) :
  let after := _add_node_and_edges clock node targets self in
  exists added,
    nodes after.1.1 = <[turn_id node := node]> (nodes self)
    /\ confidence_threshold after.1.1 = confidence_threshold self
    /\ edges after.1.1 = edges self ++ added
    /\ Forall (fun e => source_id e = turn_id node /\ edge_type e = type node
                        /\ known (nodes after.1.1) (target_id e) = true) added
    /\ (forallb hashable targets = true ->
        after.2 = Ok tt
        /\ map target_id added = List.filter (known (nodes after.1.1)) targets).
Proof.
  unfold _add_node_and_edges.
  set (self1 := {| nodes := _; edges := edges self; confidence_threshold := _ |}).
  destruct (add_edges_spec targets clock node self1)
    as (added & Hn & Hc & He & Hall & Hok).
  exists added. simpl. rewrite Hn. done.
Qed.

(** *** Validation *)

Lemma bad_targets_malformed (d : pydict) : bad_targets d = targets_malformed d.
Proof.
  unfold bad_targets, targets_malformed, dict_get.
  destruct (dict_lookup "targets" d) as [[]|]; reflexivity.
Qed.

Lemma bad_type_unrecognised (d : pydict) : bad_type d = type_unrecognised d.
Proof.
  unfold bad_type, type_unrecognised.
  destruct (dict_lookup "type" d) as [[]|]; try reflexivity.
  simpl. by rewrite orb_false_r, !orb_assoc.
Qed.

Lemma bad_type_set_targets (v : pyval) (d : pydict) :
  bad_type (dict_set "targets" v d) = bad_type d.
Proof. unfold bad_type. by rewrite dict_lookup_set_ne. Qed.

(** A recognised type is the value of a member of the enumeration. *)
Lemma of_value_recognised (d : pydict) :
  type_unrecognised d = false ->
  exists ty, of_value (dict_get "type" (PyStr "claim") d) = Ok ty
             /\ dict_lookup "type" d = Some (PyStr (value ty)).
Proof.
  unfold type_unrecognised, dict_get, of_value.
  destruct (dict_lookup "type" d) as [[| | | |s| |]|]; try discriminate.
  simpl. intros Hs. apply negb_false_iff in Hs.
  destruct (String.eqb s "claim") eqn:E1.
  { apply String.eqb_eq in E1. subst s. by exists CLAIM. }
  destruct (String.eqb s "support") eqn:E2.
  { apply String.eqb_eq in E2. subst s. by exists SUPPORT. }
  destruct (String.eqb s "counter") eqn:E3.
  { apply String.eqb_eq in E3. subst s. by exists COUNTER. }
  destruct (String.eqb s "response") eqn:E4; [|discriminate].
  apply String.eqb_eq in E4. subst s. by exists RESPONSE.
Qed.

Lemma validate_dict (d : pydict) (c : float) :
  py_float (dict_get "confidence" (PyInt 0) d) = Ok c ->
  _validate_analysis (PyDict d)
  = Ok (validated d, penalised (type_unrecognised d) (penalised (targets_malformed d) c)).
Proof.
  intros Hc. unfold _validate_analysis, validated, penalised. simpl. rewrite Hc. simpl.
  rewrite bad_targets_malformed.
  destruct (targets_malformed d); [rewrite bad_type_set_targets|];
    rewrite bad_type_unrecognised; destruct (type_unrecognised d); reflexivity.
Qed.

Lemma validated_targets (d : pydict) :
  dict_lookup "targets" (validated d)
  = if targets_malformed d then Some (PyList []) else dict_lookup "targets" d.
Proof.
  unfold validated.
  destruct (type_unrecognised d); [rewrite dict_lookup_set_ne by done|];
    destruct (targets_malformed d); try done; apply dict_lookup_set_eq.
Qed.

Lemma validated_type (d : pydict) :
  dict_lookup "type" (validated d)
  = if type_unrecognised d then Some (PyStr "claim") else dict_lookup "type" d.
Proof.
  unfold validated. destruct (type_unrecognised d).
  - apply dict_lookup_set_eq.
  - destruct (targets_malformed d); [by rewrite dict_lookup_set_ne|done].
Qed.

Lemma validated_other (key : string) (d : pydict) :
  key <> "targets" -> key <> "type" ->
  dict_lookup key (validated d) = dict_lookup key d.
Proof.
  intros H1 H2. unfold validated.
  destruct (type_unrecognised d), (targets_malformed d);
    rewrite ?dict_lookup_set_ne by done; done.
Qed.

Lemma validated_targets_of (d : pydict) :
  targets_of (validated d) = Ok (valid_targets d).
Proof.
  unfold targets_of, dict_get, valid_targets. rewrite validated_targets.
  unfold targets_malformed. destruct (dict_lookup "targets" d) as [[]|]; reflexivity.
Qed.

Lemma validated_of_value (d : pydict) :
  of_value (dict_get "type" (PyStr "claim") (validated d)) = Ok (valid_type d)
  /\ (type_unrecognised d = true -> valid_type d = CLAIM).
Proof.
  unfold valid_type, dict_get at 1. rewrite validated_type.
  destruct (type_unrecognised d) eqn:E.
  - split; [|intros _]; unfold type_unrecognised, dict_get in *;
      destruct (dict_lookup "type" d) as [[| | | |s| |]|]; try reflexivity;
      simpl in *; apply negb_true_iff in E;
      apply orb_false_elim in E as [E E4]; apply orb_false_elim in E as [E E3];
      apply orb_false_elim in E as [E1 E2];
      unfold of_value; simpl; rewrite E1, E2, E3, E4; reflexivity.
  - destruct (of_value_recognised d E) as (ty & Hty & Hl).
    rewrite Hty. unfold dict_get in Hty. split; [|discriminate].
    destruct (dict_lookup "type" d); [exact Hty|discriminate].
Qed.


(** *** The try block and its handler *)

(** What the try block does with a response that is a dict whose confidence
    reads as a float: validation passes, the node is built from the validated
    response and handed to [_add_node_and_edges] with the validated targets. *)
Lemma analyze_body_validated (clock : Clock) (tid : Z) (message speaker : string)
  (reply : ClaudeClient.api_reply) (self : t) (d : pydict) (c : float) :
  ClaudeClient.call_claude reply = PyDict d ->
  py_float (dict_get "confidence" (PyInt 0) d) = Ok c ->
  let node :=
    {| turn_id := tid; type := valid_type d;
       summary := dict_get "summary" (PyStr (truncated message)) (validated d);
       speaker := speaker; topic := dict_get "topic" PyNone (validated d);
       timestamp := now clock |} in
  let after := _add_node_and_edges (tick clock) node (valid_targets d) self in
  analyze_body clock tid message speaker reply self
  = (after.1.1, after.1.2,
     match after.2 with
     | Ok _ => Ok (node, penalised (type_unrecognised d)
                           (penalised (targets_malformed d) c))
     | Raise e => Raise e
     end).
Proof.
  intros Hcall Hc. unfold analyze_body. rewrite Hcall, (validate_dict d c Hc).
  destruct (validated_of_value d) as [-> _]. rewrite validated_targets_of.
  simpl. destruct (_add_node_and_edges _ _ _ _) as [[m k] [u|e]]; reflexivity.
Qed.



(** Every operation appends edges to known nodes only. *)
Lemma apply_appends_to_known (o : op) (m : t) : appends_to_known m (apply o m).
Proof.
  destruct o as [clock node targets|clock tid message speaker
                 |clock tid message speaker reply]; simpl.
  - destruct (_add_node_and_edges_spec clock node targets m)
      as (added & _ & _ & He & Hall & _).
    exists added. split; [exact He|].
    eapply Forall_impl; [exact Hall|]. by intros e (_ & _ & Hk).
  - exists []. by rewrite app_nil_r.
  - unfold analyze_message, analyze_body.
    destruct (_validate_analysis _) as [[d c]|e]; simpl;
      [|exists []; by rewrite app_nil_r].
    destruct (of_value _) as [ty|e]; simpl; [|exists []; by rewrite app_nil_r].
    destruct (targets_of d) as [targets|e]; simpl;
      [|exists []; by rewrite app_nil_r].
    match goal with
    | |- context [_add_node_and_edges ?k ?n ?ts m] =>
        destruct (_add_node_and_edges_spec k n ts m)
          as (added & Hn & _ & He & Hall & _);
        destruct (_add_node_and_edges k n ts m) as [[m' k'] [u|e]]
    end; simpl in *; exists added; (split; [exact He|]).
    + eapply Forall_impl; [exact Hall|]. by intros e (_ & _ & Hk).
    + eapply Forall_impl; [exact Hall|]. intros e' (_ & _ & Hk).
      eapply in_int_dict_mono; [|exact Hk].
      intros k0 Hk0. destruct (decide (tid = k0)) as [->|Hne].
      * simpl. rewrite lookup_insert_eq. eauto.
      * simpl. by rewrite lookup_insert_ne.
Qed.


(** *** The properties of the specification *)



(** C3.  In every sequence of node and edge creation operations, every step
    only appends to the edge list, and every edge it appends has a target
    that is the key of a node of the map when the edge is made.  A target
    that is the key of no node is dropped: over targets that can be looked
    up, [_add_node_and_edges] raises nothing and appends an edge for exactly
    the targets that are keys, in their order. *)
Theorem edges_point_at_existing_nodes (ops : list op) (m : t) :
  every_step appends_to_known ops m
  /\ forall clock node targets,
       forallb hashable targets = true ->
       let after := _add_node_and_edges clock node targets m in
       after.2 = Ok tt
       /\ map target_id (drop (List.length (edges m)) (edges after.1.1))
          = List.filter (known (nodes after.1.1)) targets.
Proof.
  split.
  - revert m. induction ops as [|o ops IH]; intros m; simpl; [done|].
    split; [apply apply_appends_to_known|apply IH].
  - intros clock node targets Hh.
    destruct (_add_node_and_edges_spec clock node targets m)
      as (added & _ & _ & He & _ & Hok).
    destruct (Hok Hh) as [Hr Hm]. cbv zeta. split; [exact Hr|].
    rewrite He, drop_app_length. exact Hm.
Qed.

(** C4.  For a response whose confidence reads as the float [c], validation
    returns [c], times [0.8] when the targets field is not a list, times
    [0.8] again when the type field is missing or is none of the four
    values; it leaves the empty list as targets in the first case and claim
    as type in the second; and a response whose targets were coerced away
    adds no edge. *)
Theorem validation_penalties (d : pydict) (c : float) :
  py_float (dict_get "confidence" (PyInt 0) d) = Ok c ->
  _validate_analysis (PyDict d)
  = Ok (validated d,
        penalised (type_unrecognised d) (penalised (targets_malformed d) c))
  /\ dict_lookup "targets" (validated d)
     = (if targets_malformed d then Some (PyList []) else dict_lookup "targets" d)
  /\ dict_lookup "type" (validated d)
     = (if type_unrecognised d then Some (PyStr "claim") else dict_lookup "type" d)
  /\ (targets_malformed d = true ->
      forall clock tid message speaker reply self,
        ClaudeClient.call_claude reply = PyDict d ->
        edges (analyze_message clock tid message speaker reply self).1.1
        = edges self).
Proof.
  intros Hc. split; [by apply validate_dict|].
  split; [apply validated_targets|]. split; [apply validated_type|].
  intros Hbad clock tid message speaker reply self Hcall.
  unfold analyze_message.
  pose proof (analyze_body_validated clock tid message speaker reply self
                d c Hcall Hc) as Hb.
  cbv zeta in Hb. rewrite Hb.
  assert (Hts : valid_targets d = []).
  { unfold valid_targets. unfold targets_malformed in Hbad.
    destruct (dict_lookup "targets" d) as [[]|]; done. }
  rewrite Hts. reflexivity.
Qed.

(** C8.  The fallback path is deterministic: two calls with the same turn
    id, message and speaker build nodes with the same content, whatever the
    mapper and the instant, and calling it again on the mapper it left
    leaves the graph as it was. *)
Theorem fallback_node_deterministic (clock1 clock2 : Clock) (tid : Z)
  (message speaker : string) (m1 m2 : t) :
  let first := _create_fallback_node clock1 tid message speaker m1 in
  let second := _create_fallback_node clock2 tid message speaker m2 in
  let again := _create_fallback_node clock2 tid message speaker first.1 in
  content first.2 = content second.2
  /\ content first.2
     = (tid, CLAIM, PyStr (String.append (str_take 100 message) "..."),
        speaker, PyNone)
  /\ content again.2 = content first.2
  /\ Session.get_graph again.1 = Session.get_graph first.1.
Proof.
  cbv zeta. repeat split.
  unfold Session.get_graph. simpl. f_equal.
  rewrite insert_insert_eq, !fmap_insert. reflexivity.
Qed.

(** C10.  The node of the turn is in the map before the targets are
    scanned: a response whose targets list holds the id of the turn itself
    passes the membership test and gets an edge from the turn to itself. *)
Theorem own_id_makes_self_loop (clock : Clock) (tid : Z)
  (message speaker : string) (reply : ClaudeClient.api_reply) (self : t)
  (d : pydict) (c : float) (targets : list pyval) :
  ClaudeClient.call_claude reply = PyDict d ->
  py_float (dict_get "confidence" (PyInt 0) d) = Ok c ->
  dict_lookup "targets" d = Some (PyList targets) ->
  forallb hashable targets = true ->
  In (PyInt tid) targets ->
  exists node confidence added e,
    (analyze_message clock tid message speaker reply self).2
    = Ok (node, confidence)
    /\ edges (analyze_message clock tid message speaker reply self).1.1
       = edges self ++ added
    /\ In e added
    /\ source_id e = tid /\ target_id e = PyInt tid /\ edge_type e = type node.
Proof.
  intros Hcall Hc Hts Hh Hin.
  unfold analyze_message.
  pose proof (analyze_body_validated clock tid message speaker reply self
                d c Hcall Hc) as Hb.
  cbv zeta in Hb. rewrite Hb. clear Hb.
  assert (Hv : valid_targets d = targets) by (unfold valid_targets; by rewrite Hts).
  rewrite Hv.
  match goal with
  | |- context [_add_node_and_edges ?k ?n targets self] =>
      destruct (_add_node_and_edges_spec k n targets self)
        as (added & Hn & _ & He & Hall & Hok); set (node := n) in *
  end.
  destruct (Hok Hh) as [Hr Hm]. rewrite Hr. simpl.
  assert (Hself : In (PyInt tid) (map target_id added)).
  { rewrite Hm. apply filter_In. split; [exact Hin|].
    rewrite Hn. unfold known, in_int_dict. simpl.
    apply bool_decide_eq_true. rewrite lookup_insert_eq. eauto. }
  apply in_map_iff in Hself as (e & Het & Hein).
  exists node, (penalised (type_unrecognised d) (penalised (targets_malformed d) c)),
    added, e.
  rewrite Forall_forall in Hall.
  destruct (Hall e) as (Hs & Hty & _); [by apply list_elem_of_In|].
  repeat split; done.
Qed.

End Mapper.


(** The scenario of the specification: turn 1 is classified as a claim with
    confidence 0.9, turn 2 as a counter to turn 1 with confidence 0.85.  The
    graph then has the nodes 1 and 2 and the one edge from 2 to 1. *)
Example two_turn_scenario :
  let r1 := analyze_message (H := sample_runtime) sample_clock 1
              "I think X causes Y" "Alice" (ClaudeClient.ApiMessage ["claim"]) init in
  let r2 := analyze_message (H := sample_runtime) sample_clock 2
              "No, that's wrong" "Bob" (ClaudeClient.ApiMessage ["counter"]) r1.1.1 in
  (exists n1, r1.2 = Ok (n1, 0.9%float) /\ type n1 = CLAIM)
  /\ (exists n2, r2.2 = Ok (n2, 0.85%float) /\ type n2 = COUNTER)
  /\ edges r1.1.1 = []
  /\ map (fun e => (source_id e, target_id e, edge_type e)) (edges r2.1.1)
     = [(2, PyInt 1, COUNTER)]
  /\ map fst (map_to_list (nodes r2.1.1)) ≡ₚ [1; 2].
Proof.
  cbv zeta. split; [eexists; split; reflexivity|].
  split; [eexists; split; reflexivity|]. split; [reflexivity|].
  split; [reflexivity|]. vm_compute. apply perm_swap || reflexivity.
Qed.



(** C3, on a mapper that holds node 1: of the targets 1 and 9 only the
    first gets an edge. *)
Lemma edges_point_at_existing_nodes_witness :
  (_add_node_and_edges sample_clock sample_node [PyInt 1; PyInt 9] init).2 = Ok tt
  /\ map target_id
       (drop 0 (edges (_add_node_and_edges sample_clock sample_node
                         [PyInt 1; PyInt 9] init).1.1))
     = [PyInt 1].
Proof.
  exact (proj2 (edges_point_at_existing_nodes (H := sample_runtime) [] init)
           sample_clock sample_node [PyInt 1; PyInt 9] eq_refl).
Defined.

(** C4, a response with a string for targets and an unknown type: both
    penalties apply to the confidence 0.9. *)
Lemma validation_penalties_witness :
  _validate_analysis (H := sample_runtime) (PyDict coerced_response)
  = Ok ([("type", PyStr "claim"); ("summary", PyStr "no");
         ("targets", PyList []); ("confidence", PyFloat 0.9)],
        0.5760000000000001%float).
Proof.
  exact (proj1 (validation_penalties (H := sample_runtime) coerced_response
                  0.9%float eq_refl)).
Defined.

(** C10, turn 1 answering turns 1 and 2 on an empty graph *)
Lemma own_id_makes_self_loop_witness :
  exists node confidence added e,
    (analyze_message (H := sample_runtime) sample_clock 1 "I agree" "Bob"
       (ClaudeClient.ApiMessage ["self-loop"]) init).2
    = Ok (node, confidence)
    /\ edges (analyze_message (H := sample_runtime) sample_clock 1 "I agree" "Bob"
                (ClaudeClient.ApiMessage ["self-loop"]) init).1.1
       = [] ++ added
    /\ In e added
    /\ source_id e = 1 /\ target_id e = PyInt 1 /\ edge_type e = type node.
Proof.
  exact (own_id_makes_self_loop (H := sample_runtime) sample_clock 1 "I agree"
           "Bob" (ClaudeClient.ApiMessage ["self-loop"]) init
           self_loop_response 0.9%float [PyInt 1; PyInt 2]
           eq_refl eq_refl eq_refl eq_refl (or_introl eq_refl)).
Defined.

End MapperProps.

(** ** Properties of the session manager *)

Module ManagerProps.
Import Py Types SessionManager Spec DictProps.

Section Manager.
Context `{Runtime}.

(** *** Queues *)

Lemma put_all_fields (item : pyval) (qs : list nat) (self : t) :
  active_sessions (put_all item qs self) = active_sessions self
  /\ session_queues (put_all item qs self) = session_queues self
  /\ global_queues (put_all item qs self) = global_queues self
  /\ archived_sessions (put_all item qs self) = archived_sessions self
  /\ disk (put_all item qs self) = disk self.
Proof.
  revert self. induction qs as [|q qs IH]; intros self; simpl; [done|].
  destruct (IH (put q item self)) as (-> & -> & -> & -> & ->). done.
Qed.

Lemma put_all_trace (item : pyval) (qs : list nat) (self : t) :
  trace (put_all item qs self) = trace self ++ map (fun q => (q, item)) qs.
Proof.
  revert self. induction qs as [|q qs IH]; intros self; simpl.
  - by rewrite app_nil_r.
  - rewrite IH. simpl. by rewrite <- app_assoc.
Qed.

Lemma put_all_other (item : pyval) (qs : list nat) (self : t) (q : nat) :
  q ∉ qs -> queues (put_all item qs self) !! q = queues self !! q.
Proof.
  revert self. induction qs as [|q0 qs IH]; intros self Hq; simpl; [done|].
  apply not_elem_of_cons in Hq as [Hne Hq].
  rewrite IH by done. simpl. by apply list_lookup_alter_ne.
Qed.

Lemma put_all_subscriber (item : pyval) (qs : list nat) (self : t) (q : nat) :
  NoDup qs -> q ∈ qs ->
  queues (put_all item qs self) !! q
  = (fun content => content ++ [item]) <$> queues self !! q.
Proof.
  revert self. induction qs as [|q0 qs IH]; intros self Hnd Hq; simpl.
  - by apply elem_of_nil in Hq.
  - apply NoDup_cons in Hnd as [Hq0 Hnd].
    apply elem_of_cons in Hq as [->|Hq].
    + rewrite put_all_other by done. simpl. apply list_lookup_alter_eq.
    + rewrite IH by done. simpl. rewrite list_lookup_alter_ne; [done|].
      intros ->. done.
Qed.


(** *** Subscriber lists *)

Lemma dict_lookup_In {V : Type} (key : string) (v : V) (d : dict V) :
  dict_lookup key d = Some v -> In (key, v) d.
Proof.
  induction d as [|[k w] d IH]; simpl; [done|].
  destruct (String.eqb k key) eqn:E.
  - apply String.eqb_eq in E. intros [= ->]. left. by subst.
  - intros Hl. right. by apply IH.
Qed.

Lemma Forall_dict_set {V : Type} (P : string * V -> Prop) (key : string) (v : V)
  (d : dict V) :
  P (key, v) -> Forall P d -> Forall P (dict_set key v d).
Proof.
  intros Hv. induction 1 as [|[k w] d Hw Hd IH]; simpl.
  - by constructor.
  - destruct (String.eqb k key) eqn:E; constructor; try done.
    apply String.eqb_eq in E. by subst.
Qed.

Lemma Forall_dict_del {V : Type} (P : string * V -> Prop) (key : string)
  (d : dict V) :
  Forall P d -> Forall P (dict_del key d).
Proof.
  induction 1 as [|[k w] d Hw Hd IH]; simpl; [done|].
  destruct (String.eqb k key); [done|by constructor].
Qed.

Lemma list_remove_keeps (x : nat) (l l' : list nat) (P : nat -> Prop) :
  list_remove x l = Some l' ->
  (NoDup l -> NoDup l') /\ (Forall P l -> Forall P l') /\ (forall y, y ∈ l' -> y ∈ l).
Proof.
  revert l'. induction l as [|y l IH]; intros l'; simpl; [done|].
  destruct (Nat.eqb y x).
  - intros [= <-]. repeat split.
    + by intros [_ ?]%NoDup_cons.
    + by intros [_ ?]%Forall_cons.
    + intros z Hz. by apply elem_of_cons; right.
  - destruct (list_remove x l) as [r|]; [|done]. intros [= <-].
    destruct (IH r eq_refl) as (Hnd & Hall & Hin). repeat split.
    + intros [Hy Hl]%NoDup_cons. apply NoDup_cons. split; [|by apply Hnd].
      intros Hyr. by apply Hy, Hin.
    + intros [Hy Hl]%Forall_cons. apply Forall_cons. split; [done|by apply Hall].
    + intros z [->|Hz]%elem_of_cons; apply elem_of_cons; [by left|].
      right. by apply Hin.
Qed.

Lemma put_all_length (item : pyval) (qs : list nat) (self : t) :
  List.length (queues (put_all item qs self)) = List.length (queues self).
Proof.
  revert self. induction qs as [|q qs IH]; intros self; simpl; [done|].
  rewrite IH. simpl. apply length_alter.
Qed.

Lemma subscribers_distinct_ext (self self' : t) :
  session_queues self' = session_queues self ->
  (List.length (queues self) <= List.length (queues self'))%nat ->
  subscribers_distinct self -> subscribers_distinct self'.
Proof.
  unfold subscribers_distinct. intros -> Hlen Hd.
  eapply Forall_impl; [exact Hd|]. intros [sid qs] [Hnd Hall]. split; [done|].
  eapply Forall_impl; [exact Hall|]. simpl. intros q Hq. lia.
Qed.

Lemma subscribers_distinct_set (sid : string) (qs : list nat) (self : t) :
  NoDup qs ->
  Forall (fun q => (q < List.length (queues self))%nat) qs ->
  subscribers_distinct self ->
  subscribers_distinct
    (with_session_queues (dict_set sid qs (session_queues self)) self).
Proof.
  intros Hnd Hall Hd. unfold subscribers_distinct. simpl.
  by apply Forall_dict_set.
Qed.

(** The subscriber lists stay free of repeats whatever the manager does:
    every subscription makes a queue of its own. *)
Lemma manage_keeps_subscribers_distinct (o : manager_op) (self : t) :
  subscribers_distinct self -> subscribers_distinct (manage self o).
Proof.
  intros Hd.
  destruct o as [clock sid|sid|sid queue|clock fault sid|sid data| |data]; simpl.
  - unfold subscribers_distinct. simpl.
    apply Forall_dict_set; [|exact Hd]. split; [apply NoDup_nil_2|constructor].
  - unfold add_client_queue.
    set (self1 := if dict_has sid (session_queues self) then self else _).
    assert (Hd1 : subscribers_distinct self1).
    { subst self1. destruct (dict_has sid (session_queues self)); [done|].
      apply subscribers_distinct_set; [apply NoDup_nil_2|constructor|done]. }
    assert (Hq1 : queues self1 = queues self).
    { subst self1. by destruct (dict_has sid (session_queues self)). }
    simpl. unfold subscribers_distinct. simpl. rewrite length_app. simpl.
    assert (Hold : Forall (fun entry : string * list nat =>
              NoDup entry.2
              /\ Forall (fun q => (q < List.length (queues self1))%nat) entry.2)
              (session_queues self1)) by exact Hd1.
    apply Forall_dict_set.
    + simpl. unfold dict_get.
      destruct (dict_lookup sid (session_queues self1)) as [qs|] eqn:Hl.
      * apply dict_lookup_In in Hl.
        rewrite Forall_forall in Hold.
        destruct (Hold (sid, qs)) as [Hnd Hall]; [by apply list_elem_of_In|].
        simpl in *. split.
        -- apply NoDup_app. split; [done|]. split; [|apply NoDup_singleton].
           intros q Hq [->|[]%elem_of_nil]%elem_of_cons.
           rewrite Forall_forall in Hall. specialize (Hall _ Hq). simpl in Hall. lia.
        -- apply Forall_app. split.
           ++ eapply Forall_impl; [exact Hall|]. simpl. intros; lia.
           ++ constructor; [lia|constructor].
      * simpl. split; [apply NoDup_singleton|]. constructor; [lia|constructor].
    + eapply Forall_impl; [exact Hold|]. intros [k qs] [Hnd Hall]. split; [done|].
      eapply Forall_impl; [exact Hall|]. simpl. intros; lia.
  - unfold remove_client_queue.
    destruct (dict_lookup sid (session_queues self)) as [qs|] eqn:Hl; [|done].
    destruct (list_remove queue qs) as [qs'|] eqn:Hr; [|done].
    apply dict_lookup_In in Hl. unfold subscribers_distinct in Hd.
    rewrite Forall_forall in Hd.
    destruct (Hd (sid, qs)) as [Hnd Hall]; [by apply list_elem_of_In|].
    destruct (list_remove_keeps queue qs qs'
                (fun q => (q < List.length (queues self))%nat) Hr)
      as (Hnd' & Hall' & _).
    apply subscribers_distinct_set; [by apply Hnd'|by apply Hall'|].
    unfold subscribers_distinct. by rewrite Forall_forall.
  - unfold remove_session.
    destruct (dict_lookup sid (active_sessions self)) as [session|]; [|done].
    unfold Session.archive. destruct fault; simpl; try done.
    destruct (dict_has sid (session_queues self)); simpl; [|done].
    unfold subscribers_distinct. simpl. by apply Forall_dict_del.
  - unfold broadcast_to_session.
    destruct (dict_lookup sid (session_queues self)) as [qs|]; [|done].
    eapply subscribers_distinct_ext; [| |exact Hd].
    + apply put_all_fields.
    + by rewrite put_all_length.
  - unfold subscribers_distinct in *. simpl. rewrite length_app. simpl.
    eapply Forall_impl; [exact Hd|]. intros [k qs] [Hnd Hall]. split; [done|].
    eapply Forall_impl; [exact Hall|]. simpl. intros; lia.
  - unfold broadcast_global.
    eapply subscribers_distinct_ext; [| |exact Hd].
    + apply put_all_fields.
    + by rewrite put_all_length.
Qed.

(** On every manager reached from a new one, the subscribers of a topic are
    distinct queues. *)
Lemma reachable_subscribers_distinct (archived : dict pyval) (d : Session.Disk)
  (ops : list manager_op) (sid : string) (qs : list nat) :
  dict_lookup sid (session_queues (fold_left manage ops (init archived d)))
  = Some qs ->
  NoDup qs.
Proof.
  assert (Hd : subscribers_distinct (fold_left manage ops (init archived d))).
  { assert (H0 : subscribers_distinct (init archived d)) by constructor.
    revert H0. generalize (init archived d).
    induction ops as [|o ops IH]; intros self Hself; simpl; [done|].
    apply IH. by apply manage_keeps_subscribers_distinct. }
  intros Hl. apply dict_lookup_In in Hl.
  unfold subscribers_distinct in Hd. rewrite Forall_forall in Hd.
  apply (Hd (sid, qs)). by apply list_elem_of_In.
Qed.

(** *** Removal and sweep *)

Lemma sweep_app (fault : string -> Session.io_fault)
  (l1 l2 : list (string * Session.t)) :
  forall (clock : Clock) (self : t),
  sweep clock fault (l1 ++ l2) self
  = match sweep clock fault l1 self with
    | (self', clock', Ok _) => sweep clock' fault l2 self'
    | (self', clock', Raise e) => (self', clock', Raise e)
    end.
Proof.
  induction l1 as [|[sid session] l1 IH]; intros clock self; simpl; [done|].
  destruct (Session.is_inactive (now clock) session); [|apply IH].
  destruct (remove_session (tick clock) (fault sid) sid self) as [[s k] [u|e]];
    [apply IH|done].
Qed.

(** An archive that fails leaves the session registered and touches no
    other session, no queue list and no queue. *)
Lemma remove_session_fails (clock : Clock) (fault : Session.io_fault)
  (sid : string) (self : t) (session : Session.t) :
  get_session sid self = Some session ->
  fault <> Session.NoFault ->
  let out := remove_session clock fault sid self in
  out.2 = Raise OSError
  /\ is_Some (get_session sid out.1.1)
  /\ (forall k, k <> sid -> get_session k out.1.1 = get_session k self)
  /\ session_queues out.1.1 = session_queues self
  /\ queues out.1.1 = queues self
  /\ trace out.1.1 = trace self.
Proof.
  unfold get_session. intros Hs Hf. cbv zeta. unfold remove_session.
  rewrite Hs. unfold Session.archive.
  destruct fault; [done| |]; simpl; unfold get_session; simpl;
    rewrite DictProps.dict_lookup_set_eq;
    (repeat split; eauto);
    intros k Hk; by apply DictProps.dict_lookup_set_ne.
Qed.

(** C5.  A publish on a topic nobody subscribes to, known or not, changes
    nothing.  On a topic with the subscribers [qs], it performs one put per
    subscriber, in subscription order, of one and the same item: every
    subscriber queue gets the item once at its end, and no other queue
    changes.  The item is the dict whose one entry [data] is the JSON text
    of the event without its top-level timestamp; the event keeps every
    other entry, and a consumer that parses the text reads this event
    wherever the codec reads back what it wrote.  The subscribers of a topic
    are distinct queues on every manager reached from a new one
    ([reachable_subscribers_distinct]). *)
Theorem publish_reaches_every_subscriber (sid : string) (data : pydict) (self : t) :
  (dict_lookup sid (session_queues self) = None ->
   broadcast_to_session sid data self = self)
  /\ (dict_lookup sid (session_queues self) = Some [] ->
      broadcast_to_session sid data self = self)
  /\ forall qs,
       dict_lookup sid (session_queues self) = Some qs ->
       NoDup qs ->
       let event := strip_timestamp data in
       let item := PyDict [("data", PyStr (json_dumps (PyDict event)))] in
       let after := broadcast_to_session sid data self in
       trace after = trace self ++ map (fun q => (q, item)) qs
       /\ (forall q, q ∈ qs ->
           queues after !! q
           = (fun content => content ++ [item]) <$> queues self !! q)
       /\ (forall q, q ∉ qs -> queues after !! q = queues self !! q)
       /\ session_queues after = session_queues self
       /\ active_sessions after = active_sessions self
       /\ (forall key, key <> "timestamp" ->
             dict_lookup key event = dict_lookup key data)
       /\ (json_loads (json_dumps (PyDict event)) = Ok (PyDict event) ->
           event_of item = Some (PyDict event)).
Proof.
  unfold broadcast_to_session.
  split; [by intros ->|]. split; [by intros ->|].
  intros qs -> Hnd. cbv zeta.
  change (PyDict [("data", PyStr (json_dumps (PyDict (strip_timestamp data))))])
    with (message (strip_timestamp data)).
  destruct (put_all_fields (message (strip_timestamp data)) qs self)
    as (Ha & Hq & _).
  split; [apply put_all_trace|].
  split; [intros q; by apply put_all_subscriber|].
  split; [intros q; by apply put_all_other|].
  split; [done|]. split; [done|]. split.
  - intros key Hkey. unfold strip_timestamp.
    destruct (dict_has "timestamp" data); [|done].
    apply DictProps.dict_lookup_del_ne. congruence.
  - intros Hcodec. unfold message, event_of. simpl. by rewrite Hcodec.
Qed.

(** C6, the part of it the code satisfies.  [remove_session] on an id that is not registered
    changes nothing and raises nothing.  On a registered session it writes
    the snapshot of the session (transcripts, artifacts, anchors, graph and
    metadata) to the archives, then drops the session from the map of live
    sessions and its list of subscriber queues from the manager; nothing is
    put into the queues themselves.  When the archive raises, the session
    stays registered. *)
Theorem remove_session_archives_then_evicts (clock : Clock) (sid : string)
  (self : t) :
  (forall fault, get_session sid self = None ->
     remove_session clock fault sid self = (self, clock, Ok tt))
  /\ (forall session,
        get_session sid self = Some session ->
        distinct_keys (active_sessions self) ->
        dict_has sid (session_queues self) = true ->
        let out := remove_session clock Session.NoFault sid self in
        out.2 = Ok tt
        /\ disk out.1.1
           = <[Session.session_id session :=
                 Session.snapshot (now (tick clock)) session]> (disk self)
        /\ get_session sid out.1.1 = None
        /\ (forall k, k <> sid -> get_session k out.1.1 = get_session k self)
        /\ session_queues out.1.1 = dict_del sid (session_queues self)
        /\ queues out.1.1 = queues self
        /\ trace out.1.1 = trace self)
  /\ (forall session fault,
        get_session sid self = Some session ->
        fault <> Session.NoFault ->
        (remove_session clock fault sid self).2 = Raise OSError
        /\ is_Some (get_session sid (remove_session clock fault sid self).1.1)).
Proof.
  split; [|split].
  - intros fault Hs. unfold remove_session, get_session in *. by rewrite Hs.
  - intros session Hs Hd Hq. cbv zeta. unfold remove_session, get_session in *.
    rewrite Hs. simpl. rewrite Hq. simpl.
    repeat split; try done.
    + by apply dict_lookup_del_eq.
    + intros k Hk. by apply dict_lookup_del_ne.
  - intros session fault Hs Hf.
    destruct (remove_session_fails clock fault sid self session Hs Hf)
      as (Hr & Hin & _). done.
Qed.

(** *** The consumers of a removed session *)

Lemma event_loop_waits (content : list pyval) :
  Forall (fun item => item <> PyNone) content ->
  Api.event_loop content = (content, Api.Waiting).
Proof.
  induction 1 as [|item content Hitem _ IH]; simpl; [done|].
  rewrite IH. by destruct item.
Qed.

Lemma put_all_sentinel_free (item : pyval) (qs : list nat) (self : t) :
  item <> PyNone -> sentinel_free self -> sentinel_free (put_all item qs self).
Proof.
  intros Hitem. revert self.
  induction qs as [|q qs IH]; intros self Hfree; simpl; [done|].
  apply IH. unfold sentinel_free. simpl. apply Forall_alter; [exact Hfree|].
  intros content _ Hcontent. apply Forall_app. split; [done|].
  by constructor.
Qed.

Lemma remove_session_queues (clock : Clock) (fault : Session.io_fault)
  (sid : string) (self : t) :
  queues (remove_session clock fault sid self).1.1 = queues self
  /\ trace (remove_session clock fault sid self).1.1 = trace self.
Proof.
  unfold remove_session.
  destruct (dict_lookup sid (active_sessions self)) as [session|]; [|done].
  unfold Session.archive. destruct fault; simpl; try done.
  by destruct (dict_has sid (session_queues self)).
Qed.

Lemma manage_keeps_sentinel_free (o : manager_op) (self : t) :
  sentinel_free self -> sentinel_free (manage self o).
Proof.
  intros Hfree.
  destruct o as [clock sid|sid|sid queue|clock fault sid|sid data| |data]; simpl.
  - done.
  - unfold add_client_queue, sentinel_free.
    destruct (dict_has sid (session_queues self)); simpl;
      (apply Forall_app; split; [exact Hfree|by repeat constructor]).
  - unfold remove_client_queue.
    destruct (dict_lookup sid (session_queues self)) as [qs|]; [|done].
    by destruct (list_remove queue qs).
  - unfold sentinel_free.
    by rewrite (proj1 (remove_session_queues clock fault sid self)).
  - unfold broadcast_to_session.
    destruct (dict_lookup sid (session_queues self)) as [qs|]; [|done].
    by apply put_all_sentinel_free.
  - unfold sentinel_free. simpl.
    apply Forall_app. split; [exact Hfree|by repeat constructor].
  - unfold broadcast_global. by apply put_all_sentinel_free.
Qed.

Lemma reachable_sentinel_free (archived : dict pyval) (d : Session.Disk)
  (ops : list manager_op) :
  sentinel_free (fold_left manage ops (init archived d))
  /\ subscribers_distinct (fold_left manage ops (init archived d)).
Proof.
  assert (H0 : sentinel_free (init archived d)
               /\ subscribers_distinct (init archived d))
    by (split; constructor).
  revert H0. generalize (init archived d).
  induction ops as [|o ops IH]; intros self [Hfree Hd]; simpl; [done|].
  apply IH. split;
    [by apply manage_keeps_sentinel_free
    |by apply manage_keeps_subscribers_distinct].
Qed.

(** C6 on the code.  The consumers of the queues leave their loop on a
    [None] item, and no operation of the manager puts one: on every manager
    reached from a new one, [remove_session] puts nothing into any queue,
    whether the archive fails or not, and the loop of every consumer, run
    over what its queue holds afterwards, yields the items and waits.  This
    holds for the subscribers of the removed session in particular: their
    queues still exist, and nothing releases them. *)
Theorem remove_session_releases_no_consumer (archived : dict pyval)
  (d : Session.Disk) (ops : list manager_op) (clock : Clock)
  (fault : Session.io_fault) (sid : string) :
  let self := fold_left manage ops (init archived d) in
  let out := remove_session clock fault sid self in
  queues out.1.1 = queues self
  /\ trace out.1.1 = trace self
  /\ (forall q content,
        queues out.1.1 !! q = Some content ->
        Api.event_loop content = (content, Api.Waiting))
  /\ forall qs q,
       dict_lookup sid (session_queues self) = Some qs ->
       q ∈ qs ->
       exists content,
         queues out.1.1 !! q = Some content
         /\ Api.event_loop content = (content, Api.Waiting).
Proof.
  cbv zeta.
  destruct (reachable_sentinel_free archived d ops) as [Hfree Hd].
  destruct (remove_session_queues clock fault sid
              (fold_left manage ops (init archived d))) as [Hq Ht].
  rewrite Hq, Ht. split; [done|]. split; [done|].
  assert (Hwait : forall q content,
            queues (fold_left manage ops (init archived d)) !! q = Some content ->
            Api.event_loop content = (content, Api.Waiting)).
  { intros q content Hl. apply event_loop_waits.
    unfold sentinel_free in Hfree. rewrite Forall_forall in Hfree.
    apply Hfree. by apply list_elem_of_lookup_2 in Hl. }
  split; [exact Hwait|].
  intros qs q Hl Hin. apply dict_lookup_In in Hl.
  unfold subscribers_distinct in Hd. rewrite Forall_forall in Hd.
  destruct (Hd (sid, qs)) as [_ Hall]; [by apply list_elem_of_In|].
  rewrite Forall_forall in Hall. specialize (Hall q Hin). simpl in Hall.
  destruct (lookup_lt_is_Some_2 _ _ Hall) as [content Hcontent].
  exists content. split; [exact Hcontent|]. by apply (Hwait q).
Qed.

End Manager.

(** C5, two subscribers of one session, under a codec that writes the
    entries of the event: both get the text of the event without its
    timestamp, and read the event out of it. *)
Lemma publish_reaches_every_subscriber_witness :
  trace (broadcast_to_session (H := wire_runtime) "s"
           [("type", PyStr "transcript"); ("timestamp", PyStr "now")]
           two_subscribers)
  = [(0%nat, PyDict [("data", PyStr "{type: transcript}")]);
     (1%nat, PyDict [("data", PyStr "{type: transcript}")])]
  /\ queues (broadcast_to_session (H := wire_runtime) "s"
               [("type", PyStr "transcript"); ("timestamp", PyStr "now")]
               two_subscribers)
     = [[PyDict [("data", PyStr "{type: transcript}")]];
        [PyDict [("data", PyStr "{type: transcript}")]]]
  /\ event_of (H := wire_runtime) (PyDict [("data", PyStr "{type: transcript}")])
     = Some (PyDict [("type", PyStr "transcript")]).
Proof.
  assert (Hnd : NoDup [0%nat; 1%nat]).
  { apply NoDup_cons. split; [|apply NoDup_singleton].
    intros Hin. apply elem_of_cons in Hin as [?|Hin]; [discriminate|].
    by apply elem_of_nil in Hin. }
  destruct (proj2 (proj2 (publish_reaches_every_subscriber
              (H := wire_runtime) "s"
              [("type", PyStr "transcript"); ("timestamp", PyStr "now")]
              two_subscribers)) [0%nat; 1%nat] eq_refl Hnd)
    as (Ht & _ & _ & _ & _ & _ & He).
  split; [exact Ht|]. split; [reflexivity|]. exact (He eq_refl).
Defined.

(** C6 on the code, a session with two subscribers and one event published:
    after the removal the first subscriber has the event to yield, and then
    waits. *)
Lemma remove_session_releases_no_consumer_witness :
  queues (remove_session sample_clock Session.NoFault "s"
            (fold_left (manage (H := wire_runtime))
               [CreateSession sample_clock "s"; Subscribe "s"; Subscribe "s";
                Publish "s" [("type", PyStr "transcript")]]
               (init [] ∅))).1.1 !! 0%nat
  = Some [PyDict [("data", PyStr "{type: transcript}")]]
  /\ Api.event_loop [PyDict [("data", PyStr "{type: transcript}")]]
     = ([PyDict [("data", PyStr "{type: transcript}")]], Api.Waiting).
Proof.
  exact (conj eq_refl
           (proj1 (proj2 (proj2 (remove_session_releases_no_consumer
                                   (H := wire_runtime) [] ∅
                                   [CreateSession sample_clock "s"; Subscribe "s";
                                    Subscribe "s";
                                    Publish "s" [("type", PyStr "transcript")]]
                                   sample_clock Session.NoFault "s")))
              0%nat [PyDict [("data", PyStr "{type: transcript}")]] eq_refl)).
Defined.

(** C6, a session with no subscriber *)
Lemma remove_session_archives_then_evicts_witness :
  (remove_session sample_clock Session.NoFault "s" one_session).2 = Ok tt
  /\ get_session "s" (remove_session sample_clock Session.NoFault "s" one_session).1.1
     = None.
Proof.
  destruct (proj1 (proj2 (remove_session_archives_then_evicts sample_clock "s"
              one_session)) (Session.init sample_clock "s") eq_refl)
    as (Hr & _ & Hg & _).
  - apply NoDup_singleton.
  - reflexivity.
  - exact (conj Hr Hg).
Defined.

(** C6 as the specification states it fails: the queue of a subscriber is as
    empty after the removal of its session as before, and no put was made. *)
Lemma no_sentinel_reaches_the_subscribers :
  dict_lookup "s" (session_queues two_subscribers) = Some [0%nat; 1%nat]
  /\ (remove_session sample_clock Session.NoFault "s" two_subscribers).2 = Ok tt
  /\ get_session "s"
       (remove_session sample_clock Session.NoFault "s" two_subscribers).1.1 = None
  /\ queues (remove_session sample_clock Session.NoFault "s" two_subscribers).1.1
     = [[]; []]
  /\ trace (remove_session sample_clock Session.NoFault "s" two_subscribers).1.1 = []
  /\ closed_by_sentinel 0
       (remove_session sample_clock Session.NoFault "s" two_subscribers).1.1 = false
  /\ closed_by_sentinel 1
       (remove_session sample_clock Session.NoFault "s" two_subscribers).1.1 = false.
Proof. vm_compute. repeat split. Qed.

(** C7 as the specification states it fails: [b] is as inactive as [a], it
    is listed after [a], and the tick in which the archive of [a] fails
    leaves [b] registered and unarchived. *)
Lemma later_sessions_are_not_swept :
  map fst (active_sessions two_sessions) = ["a"; "b"]
  /\ Session.is_inactive (now late_clock) (Session.init sample_clock "a") = true
  /\ Session.is_inactive (now late_clock) (Session.init sample_clock "b") = true
  /\ disk_refuses_a "b" = Session.NoFault
  /\ dict_has "b"
       (active_sessions (cleanup_inactive_sessions late_clock disk_refuses_a two_sessions).1)
     = true
  /\ dict_has "b"
       (active_sessions
          (cleanup_inactive_sessions late_clock (fun _ => Session.NoFault) two_sessions).1)
     = false.
Proof. vm_compute. repeat split. Qed.

End ManagerProps.

(** ** Properties of the handlers *)

Module ApiProps.
Import Py Types Spec.

Section Handlers.
Context `{Runtime}.

Lemma broadcast_to_session_sessions (sid : string) (data : pydict)
  (self : SessionManager.t) :
  SessionManager.active_sessions (SessionManager.broadcast_to_session sid data self)
  = SessionManager.active_sessions self.
Proof.
  unfold SessionManager.broadcast_to_session.
  destruct (dict_lookup sid _); [|done].
  apply (ManagerProps.put_all_fields _ _ self).
Qed.

Lemma broadcast_global_sessions (data : pydict) (self : SessionManager.t) :
  SessionManager.active_sessions (SessionManager.broadcast_global data self)
  = SessionManager.active_sessions self.
Proof. apply (ManagerProps.put_all_fields _ _ self). Qed.

Lemma first_ids_succ (k : nat) : first_ids (S k) = first_ids k ++ [Z.of_nat (S k)].
Proof. unfold first_ids. by rewrite seq_S, map_app. Qed.

Lemma append_turn_dense (instant : datetime) (speaker text : string)
  (session : Session.t) (k : nat) (speakers : list string) :
  Session.last_turn_id session = Z.of_nat k ->
  map Session.tr_turn_id (Session.transcripts session) = first_ids k ->
  map Session.tr_speaker (Session.transcripts session) = speakers ->
  let out := Api.append_turn instant speaker text session in
  Session.tr_turn_id out.2 = Z.of_nat (S k)
  /\ Session.last_turn_id out.1 = Z.of_nat (S k)
  /\ map Session.tr_turn_id (Session.transcripts out.1) = first_ids (S k)
  /\ map Session.tr_speaker (Session.transcripts out.1) = speakers ++ [speaker].
Proof.
  intros Hl Hids Hsp. cbv zeta. unfold Api.append_turn. simpl.
  rewrite !map_app, Hids, Hsp, Hl, first_ids_succ. simpl.
  replace (Z.of_nat k + 1) with (Z.of_nat (S k)) by lia. done.
Qed.

Lemma send_message_dense (clock : Clock) (sid speaker message : string)
  (self : SessionManager.t) (k : nat) (speakers : list string) :
  dense sid k speakers self ->
  exists self',
    Api.send_message clock sid speaker message self
    = (self', tick clock, Ok (Z.of_nat (S k)))
    /\ dense sid (S k) (speakers ++ [speaker]) self'.
Proof.
  intros (session & Hs & Hl & Hids & Hsp). unfold Api.send_message. rewrite Hs.
  destruct (append_turn_dense (now clock) speaker message session k speakers
              Hl Hids Hsp) as (Hid & Hl' & Hids' & Hsp').
  destruct (Api.append_turn (now clock) speaker message session)
    as [session' transcript]. simpl in *.
  eexists. split; [by rewrite Hid|].
  exists session'. unfold SessionManager.get_session.
  rewrite broadcast_global_sessions, broadcast_to_session_sessions. simpl.
  by rewrite DictProps.dict_lookup_set_eq.
Qed.

Lemma upload_audio_dense (clock : Clock) (sid speaker : string)
  (b : Byte.byte) (audio : list Byte.byte)
  (self : SessionManager.t) (k : nat) (speakers : list string) :
  dense sid k speakers self ->
  exists self',
    Api.upload_audio clock sid speaker (b :: audio) self
    = (self', tick clock, Ok (Z.of_nat (S k)))
    /\ dense sid (S k) (speakers ++ [speaker]) self'.
Proof.
  intros (session & Hs & Hl & Hids & Hsp). unfold Api.upload_audio. rewrite Hs.
  destruct (append_turn_dense (now clock) speaker Api.placeholder session k
              speakers Hl Hids Hsp) as (Hid & Hl' & Hids' & Hsp').
  destruct (Api.append_turn (now clock) speaker Api.placeholder session)
    as [session' transcript]. simpl in *.
  eexists. split; [by rewrite Hid|].
  exists session'. unfold SessionManager.get_session.
  rewrite broadcast_to_session_sessions. simpl.
  by rewrite DictProps.dict_lookup_set_eq.
Qed.

Lemma set_text_keeps (turn_id : Z) (text : string) (l l' : list Session.Transcript)
  (tr : Session.Transcript) :
  Api.set_text turn_id text l = Some (tr, l') ->
  map Session.tr_turn_id l' = map Session.tr_turn_id l
  /\ map Session.tr_speaker l' = map Session.tr_speaker l.
Proof.
  revert l' tr. induction l as [|t0 l IH]; intros l' tr; simpl; [done|].
  destruct (Session.tr_turn_id t0 =? turn_id).
  - by intros [= <- <-].
  - destruct (Api.set_text turn_id text l) as [[tr' l'']|]; [|done].
    intros [= <- <-]. simpl. destruct (IH l'' tr' eq_refl) as [-> ->]. done.
Qed.

Lemma update_transcript_dense (sid : string) (turn_id : Z)
  (outcome : Api.transcription) (self : SessionManager.t) (k : nat)
  (speakers : list string) :
  dense sid k speakers self ->
  dense sid k speakers (Api.update_transcript sid turn_id outcome self).
Proof.
  intros (session & Hs & Hl & Hids & Hsp).
  assert (Hd : dense sid k speakers self) by (exists session; done).
  unfold Api.update_transcript. rewrite Hs.
  destruct outcome as [| |text]; [done| |];
    match goal with
    | |- context [Api.set_text turn_id ?t (Session.transcripts session)] =>
        destruct (Api.set_text turn_id t (Session.transcripts session))
          as [[tr l]|] eqn:Hset; [|done];
        destruct (set_text_keeps _ _ _ _ _ Hset) as [Hi Hp]
    end;
    eexists; unfold SessionManager.get_session;
    rewrite broadcast_to_session_sessions; simpl;
    (split; [apply DictProps.dict_lookup_set_eq|]); simpl;
    rewrite Hi, Hp; done.
Qed.

Lemma run_dense (sid : string) (steps : list Api.step) :
  forall (clock : Clock) (self : SessionManager.t) (k : nat) (speakers : list string),
  dense sid k speakers self ->
  let n := List.length (List.filter accepted steps) in
  granted (Api.run clock sid steps self).2 = map Z.of_nat (seq (S k) n)
  /\ dense sid (k + n) (speakers ++ map speaker_of (List.filter accepted steps))
       (Api.run clock sid steps self).1.1.
Proof.
  induction steps as [|[speaker message|speaker audio|turn_id outcome] steps IH];
    intros clock self k speakers Hd; cbv zeta; simpl.
  - rewrite Nat.add_0_r, app_nil_r. done.
  - destruct (send_message_dense clock sid speaker message self k speakers Hd)
      as (self' & -> & Hd').
    specialize (IH (tick clock) self' (S k) (speakers ++ [speaker]) Hd').
    cbv zeta in IH. destruct (Api.run (tick clock) sid steps self') as [[w c] rs].
    simpl in *. destruct IH as [-> IH]. rewrite <- app_assoc in IH. simpl in IH.
    by rewrite Nat.add_succ_r.
  - destruct audio as [|b audio].
    + destruct Hd as (session & Hs & Hrest).
      assert (Hd : dense sid k speakers self) by (exists session; done).
      unfold Api.upload_audio. rewrite Hs.
      specialize (IH clock self k speakers Hd). cbv zeta in IH.
      destruct (Api.run clock sid steps self) as [[w c] rs]. simpl in *. exact IH.
    + destruct (upload_audio_dense clock sid speaker b audio self k speakers Hd)
        as (self' & -> & Hd').
      specialize (IH (tick clock) self' (S k) (speakers ++ [speaker]) Hd').
      cbv zeta in IH. destruct (Api.run (tick clock) sid steps self') as [[w c] rs].
      simpl in *. destruct IH as [-> IH]. rewrite <- app_assoc in IH. simpl in IH.
      by rewrite Nat.add_succ_r.
  - apply IH. by apply update_transcript_dense.
Qed.

(** C2.  On a session just created, whatever submissions follow, with the
    transcriptions of earlier uploads coming back in between: the ids
    answered are [1; ...; N] in call order, where [N] counts the submissions
    that appended a turn; the last turn id of the session is [N]; and its
    transcripts are [N], carry the ids [1; ...; N] and the speakers of the
    submissions, in call order.  As the steps are any, this holds after each
    submission. *)
Theorem turn_ids_are_dense (clock0 clock : Clock) (sid : string)
  (steps : list Api.step) (w0 : SessionManager.t) :
  let w1 := (SessionManager.create_session clock0 sid w0).1.1 in
  let out := Api.run clock sid steps w1 in
  let n := List.length (List.filter accepted steps) in
  granted out.2 = first_ids n
  /\ exists session,
       SessionManager.get_session sid out.1.1 = Some session
       /\ Session.last_turn_id session = Z.of_nat n
       /\ List.length (Session.transcripts session) = n
       /\ map Session.tr_turn_id (Session.transcripts session) = first_ids n
       /\ map Session.tr_speaker (Session.transcripts session)
          = map speaker_of (List.filter accepted steps).
Proof.
  cbv zeta.
  set (w1 := (SessionManager.create_session clock0 sid w0).1.1).
  assert (Hd : dense sid 0 [] w1).
  { exists (Session.init clock0 sid). subst w1. unfold SessionManager.get_session.
    simpl. by rewrite DictProps.dict_lookup_set_eq. }
  destruct (run_dense sid steps clock w1 0%nat [] Hd) as [Hg Hdense].
  cbv zeta in Hdense. simpl in Hdense.
  split; [exact Hg|].
  destruct Hdense as (session & Hs & Hl & Hids & Hsp).
  exists session. repeat split; try done.
  rewrite <- (length_map Session.tr_turn_id), Hids. unfold first_ids.
  by rewrite length_map, length_seq.
Qed.

(** The anchor handler that is routed accepts every well-formed request on
    a registered session: it does not look at the transcripts. *)
Lemma add_anchor_skips_the_turn_check (clock : Clock) (sid : string)
  (anchor_data : Session.AnchorData) (self : SessionManager.t)
  (session : Session.t) :
  SessionManager.get_session sid self = Some session ->
  Api.anchor_data_valid anchor_data = true ->
  exists anchor session',
    (Api.add_anchor clock sid anchor_data self).2 = Ok anchor
    /\ Session.turnId anchor = Session.ad_turnId anchor_data
    /\ Session.anchor_timestamp anchor = now clock
    /\ SessionManager.get_session sid (Api.add_anchor clock sid anchor_data self).1.1
       = Some session'
    /\ Session.anchors session' = Session.anchors session ++ [anchor]
    /\ Session.transcripts session' = Session.transcripts session.
Proof.
  intros Hs Hv. unfold Api.add_anchor. rewrite Hv, Hs. simpl.
  eexists _, _. unfold SessionManager.get_session.
  rewrite broadcast_to_session_sessions. simpl.
  rewrite DictProps.dict_lookup_set_eq. repeat split.
Qed.

End Handlers.

(** C9 on the code: a session with no transcript at all takes an anchor on
    turn 7 through [add_anchor], stamped and appended, where the handler
    [create_anchor] written for the same route answers 404. *)
Lemma add_anchor_accepts_a_missing_turn :
  Session.transcripts <$> SessionManager.get_session "s" one_session = Some []
  /\ (Api.add_anchor (H := sample_runtime) sample_clock "s" stray_anchor
        one_session).2
     = Ok {| Session.position := 0; Session.length := 5;
             Session.word := "hello"; Session.turnId := 7;
             Session.userId := "alice"; Session.anchor_timestamp := 0 |}
  /\ Session.anchors
       <$> SessionManager.get_session "s"
             (Api.add_anchor (H := sample_runtime) sample_clock "s" stray_anchor
                one_session).1.1
     = Some [{| Session.position := 0; Session.length := 5;
                Session.word := "hello"; Session.turnId := 7;
                Session.userId := "alice"; Session.anchor_timestamp := 0 |}]
  /\ (Api.create_anchor (H := sample_runtime) sample_clock "s" stray_anchor
        one_session).2
     = Raise (HTTPException 404).
Proof. vm_compute. repeat split. Qed.

End ApiProps.

(** ** Further properties of the argument mapper *)

Module MapperLaws.
Import Py Types ArgumentMapper Spec Notions DictProps.

Section Mapper.
Context `{Runtime}.

Lemma add_edges_app (l1 l2 : list pyval) :
  forall (clock : Clock) (node : ArgumentNode) (self : t),
  add_edges clock node (l1 ++ l2) self
  = match add_edges clock node l1 self with
    | (self', clock', Ok _) => add_edges clock' node l2 self'
    | (self', clock', Raise e) => (self', clock', Raise e)
    end.
Proof.
  induction l1 as [|target l1 IH]; intros clock node self; simpl; [done|].
  destruct (in_int_dict target (nodes self)) as [[|]|e]; [apply IH|apply IH|done].
Qed.

Lemma edge_content_map (tid : Z) (ty : ArgumentType) (l : list ArgumentEdge) :
  Forall (fun e => source_id e = tid /\ edge_type e = ty) l ->
  map edge_content l = map (fun target => (tid, target, ty)) (map target_id l).
Proof.
  induction 1 as [|e l [Hs Ht] Hl IH]; simpl; [done|].
  rewrite IH. unfold edge_content at 1. by rewrite Hs, Ht.
Qed.

Lemma recognised_type (d : pydict) (ty : ArgumentType) :
  dict_lookup "type" d = Some (PyStr (value ty)) ->
  type_unrecognised d = false /\ valid_type d = ty.
Proof.
  intros Hl. unfold type_unrecognised, valid_type, dict_get. rewrite Hl.
  by destruct ty.
Qed.

(** X1.  The node [analyze_message] returns is the node it leaves under the turn
    id; it touches no other node, removes no edge and keeps the threshold.
    This holds on every path, the fallback included. *)
Theorem analyze_message_stores_returned_node (clock : Clock) (tid : Z)
  (message speaker : string) (reply : ClaudeClient.api_reply) (self : t) :
  exists node confidence added,
    (analyze_message clock tid message speaker reply self).2
    = Ok (node, confidence)
    /\ turn_id node = tid
    /\ Types.speaker node = speaker
    /\ nodes (analyze_message clock tid message speaker reply self).1.1
       = <[tid := node]> (nodes self)
    /\ edges (analyze_message clock tid message speaker reply self).1.1
       = edges self ++ added
    /\ confidence_threshold (analyze_message clock tid message speaker reply self).1.1
       = confidence_threshold self.
Proof.
  unfold analyze_message, analyze_body.
  destruct (_validate_analysis _) as [[d c]|e]; simpl;
    [|eexists _, _, []; rewrite app_nil_r; repeat split; reflexivity].
  destruct (of_value _) as [ty|e]; simpl;
    [|eexists _, _, []; rewrite app_nil_r; repeat split; reflexivity].
  destruct (targets_of d) as [targets|e]; simpl;
    [|eexists _, _, []; rewrite app_nil_r; repeat split; reflexivity].
  match goal with
  | |- context [_add_node_and_edges ?k ?n ?ts self] =>
      destruct (MapperProps._add_node_and_edges_spec k n ts self)
        as (added & Hn & Hc & He & _ & _);
      destruct (_add_node_and_edges k n ts self) as [[m' k'] [u|e]]
  end; simpl in *.
  - eexists _, _, added. repeat split; done.
  - eexists _, _, added. repeat split; try done.
    rewrite Hn. apply insert_insert_eq.
Qed.

(** X2.  A well-formed response is taken as it is: the node carries its type,
    summary and topic, the confidence is the one it states, and one edge
    goes to every target that is a node, in the order of the targets, with
    the type of the response. *)
Theorem analyze_message_takes_wellformed_response (clock : Clock) (tid : Z)
  (message speaker : string) (reply : ClaudeClient.api_reply) (self : t)
  (d : pydict) (c : float) (ty : ArgumentType) (targets : list pyval) :
  ClaudeClient.call_claude reply = PyDict d ->
  py_float (dict_get "confidence" (PyInt 0) d) = Ok c ->
  dict_lookup "type" d = Some (PyStr (value ty)) ->
  dict_lookup "targets" d = Some (PyList targets) ->
  forallb hashable targets = true ->
  exists node added,
    (analyze_message clock tid message speaker reply self).2 = Ok (node, c)
    /\ content node
       = (tid, ty, dict_get "summary" (PyStr (truncated message)) d, speaker,
          dict_get "topic" PyNone d)
    /\ edges (analyze_message clock tid message speaker reply self).1.1
       = edges self ++ added
    /\ map edge_content added
       = map (fun target => (tid, target, ty))
           (List.filter (known (<[tid := node]> (nodes self))) targets).
Proof.
  intros Hcall Hc Hty Hts Hh.
  destruct (recognised_type d ty Hty) as [Hrec Hvt].
  assert (Hmal : targets_malformed d = false)
    by (unfold targets_malformed; by rewrite Hts).
  assert (Hvts : valid_targets d = targets)
    by (unfold valid_targets; by rewrite Hts).
  unfold analyze_message.
  pose proof (MapperProps.analyze_body_validated clock tid message speaker reply
                self d c Hcall Hc) as Hb.
  cbv zeta in Hb. rewrite Hb. clear Hb. rewrite Hvts, Hvt, Hrec, Hmal.
  match goal with
  | |- context [_add_node_and_edges ?k ?n targets self] =>
      destruct (MapperProps._add_node_and_edges_spec k n targets self)
        as (added & Hn & _ & He & Hall & Hok); set (node := n) in *
  end.
  destruct (Hok Hh) as [Hr Hm]. rewrite Hr. simpl.
  exists node, added. split; [done|]. split.
  { unfold content, node. simpl. unfold dict_get.
    by rewrite !MapperProps.validated_other. }
  split; [exact He|].
  rewrite (edge_content_map tid ty).
  - rewrite Hm, Hn. done.
  - eapply Forall_impl; [exact Hall|]. by intros e (Hs & Ht & _).
Qed.

(** X3.  A targets list that holds a list or a dict stops the loop at that
    element: the answer is the fallback node with confidence [0.0], which
    replaces the node of the response, while the edges made for the targets
    before that element stay, with the type of the response. *)
Theorem unhashable_target_leaves_edges_behind (clock : Clock) (tid : Z)
  (message speaker : string) (reply : ClaudeClient.api_reply) (self : t)
  (d : pydict) (c : float) (ty : ArgumentType)
  (before after : list pyval) (bad : pyval) :
  ClaudeClient.call_claude reply = PyDict d ->
  py_float (dict_get "confidence" (PyInt 0) d) = Ok c ->
  dict_lookup "type" d = Some (PyStr (value ty)) ->
  dict_lookup "targets" d = Some (PyList (before ++ bad :: after)) ->
  forallb hashable before = true ->
  hashable bad = false ->
  exists node added,
    (analyze_message clock tid message speaker reply self).2
    = Ok (node, 0%float)
    /\ content node = (tid, CLAIM, PyStr (truncated message), speaker, PyNone)
    /\ nodes (analyze_message clock tid message speaker reply self).1.1
       = <[tid := node]> (nodes self)
    /\ edges (analyze_message clock tid message speaker reply self).1.1
       = edges self ++ added
    /\ map edge_content added
       = map (fun target => (tid, target, ty))
           (List.filter (known (<[tid := node]> (nodes self))) before).
Proof.
  intros Hcall Hc Hty Hts Hh Hbad.
  destruct (recognised_type d ty Hty) as [Hrec Hvt].
  assert (Hvts : valid_targets d = before ++ bad :: after)
    by (unfold valid_targets; by rewrite Hts).
  unfold analyze_message.
  pose proof (MapperProps.analyze_body_validated clock tid message speaker reply
                self d c Hcall Hc) as Hb.
  cbv zeta in Hb. rewrite Hb. clear Hb. rewrite Hvts, Hvt.
  unfold _add_node_and_edges. rewrite add_edges_app.
  match goal with
  | |- context [add_edges ?k ?n before ?s] =>
      destruct (MapperProps.add_edges_spec before k n s)
        as (added & Hn & Hct & He & Hall & Hok);
      destruct (add_edges k n before s) as [[m' k'] r] eqn:Hloop
  end.
  simpl in *. destruct (Hok Hh) as [-> Hm]. simpl.
  unfold in_int_dict. unfold hashable in Hbad.
  destruct (int_key bad) as [?|e]; [discriminate|]. simpl.
  eexists _, added. split; [reflexivity|]. split; [reflexivity|].
  split; [rewrite Hn; apply insert_insert_eq|]. split; [exact He|].
  rewrite (edge_content_map tid ty).
  - rewrite Hm. apply f_equal.
    apply filter_ext. intros target. unfold known, in_int_dict.
    destruct (int_key target) as [[k|]|]; try done.
    f_equal. apply bool_decide_ext.
    destruct (decide (tid = k)) as [->|Hne].
    + rewrite !lookup_insert_eq. split; eauto.
    + rewrite !lookup_insert_ne by done. done.
  - eapply Forall_impl; [exact Hall|]. by intros e' (Hs & Ht & _).
Qed.

(** X4.  What validation returns is well formed and stays as it is: its type is
    a member of the enumeration, its targets are a list, and validating it
    again changes nothing and applies no penalty, so that the confidence
    comes back as it was first read. *)
Theorem validation_normalises (analysis : pyval) (d' : pydict) (c' : float) :
  _validate_analysis analysis = Ok (d', c') ->
  (exists ty, of_value (dict_get "type" (PyStr "claim") d') = Ok ty)
  /\ (exists targets, targets_of d' = Ok targets)
  /\ exists d c,
       analysis = PyDict d
       /\ py_float (dict_get "confidence" (PyInt 0) d) = Ok c
       /\ _validate_analysis (PyDict d') = Ok (d', c).
Proof.
  intros Hv.
  destruct analysis as [| | | | | |d]; try discriminate.
  destruct (py_float (dict_get "confidence" (PyInt 0) d)) as [c|e] eqn:Hc.
  2: { unfold _validate_analysis in Hv. simpl in Hv. rewrite Hc in Hv. discriminate. }
  rewrite (MapperProps.validate_dict d c Hc) in Hv. injection Hv as <- _.
  destruct (MapperProps.validated_of_value d) as [Hof _].
  split; [eauto|]. split; [rewrite MapperProps.validated_targets_of; eauto|].
  exists d, c. split; [done|]. split; [done|].
  assert (Hc' : py_float (dict_get "confidence" (PyInt 0) (validated d)) = Ok c).
  { unfold dict_get in *. by rewrite MapperProps.validated_other. }
  rewrite (MapperProps.validate_dict (validated d) c Hc').
  assert (Hm : targets_malformed (validated d) = false).
  { unfold targets_malformed at 1. rewrite MapperProps.validated_targets.
    unfold targets_malformed.
    destruct (dict_lookup "targets" d) as [[]|]; reflexivity. }
  assert (Hu : type_unrecognised (validated d) = false).
  { unfold type_unrecognised at 1. rewrite MapperProps.validated_type.
    destruct (type_unrecognised d) eqn:E; [reflexivity|].
    unfold type_unrecognised in E.
    destruct (dict_lookup "type" d) as [[]|]; done. }
  rewrite Hm, Hu. unfold penalised.
  unfold validated at 1. by rewrite Hm, Hu.
Qed.

End Mapper.

(** X2, an instance.  Turn 2 counters turn 1: the node carries the response, and the one edge
    goes to turn 1. *)
Lemma analyze_message_takes_wellformed_response_witness :
  exists node added,
    (analyze_message (H := sample_runtime) sample_clock 2 "No, it does not" "Bob"
       (ClaudeClient.ApiMessage ["counter"]) after_first_claim).2
    = Ok (node, 0.85%float)
    /\ content node = (2, COUNTER, PyStr "X does not cause Y", "Bob", PyNone)
    /\ map edge_content added = [(2, PyInt 1, COUNTER)].
Proof.
  destruct (analyze_message_takes_wellformed_response (H := sample_runtime)
              sample_clock 2 "No, it does not" "Bob"
              (ClaudeClient.ApiMessage ["counter"]) after_first_claim
              counter_to_first 0.85%float COUNTER [PyInt 1]
              eq_refl eq_refl eq_refl eq_refl eq_refl)
    as (node & added & Hr & Hc & _ & Hm).
  exists node, added. split; [exact Hr|]. split; [exact Hc|]. exact Hm.
Defined.

(** X3, an instance.  Turn 2 supports turn 1 and a list: the edge to turn 1 is kept and is a
    support, the node is the fallback claim. *)
Lemma unhashable_target_leaves_edges_behind_witness :
  exists node added,
    (analyze_message (H := second_runtime) sample_clock 2 "Indeed" "Bob"
       (ClaudeClient.ApiMessage ["unhashable"]) after_first_claim).2
    = Ok (node, 0%float)
    /\ content node = (2, CLAIM, PyStr "Indeed...", "Bob", PyNone)
    /\ map edge_content added = [(2, PyInt 1, SUPPORT)].
Proof.
  destruct (unhashable_target_leaves_edges_behind (H := second_runtime)
              sample_clock 2 "Indeed" "Bob"
              (ClaudeClient.ApiMessage ["unhashable"]) after_first_claim
              unhashable_response 0.9%float SUPPORT [PyInt 1] [PyInt 1]
              (PyList []) eq_refl eq_refl eq_refl eq_refl eq_refl eq_refl)
    as (node & added & Hr & Hc & _ & _ & Hm).
  exists node, added. split; [exact Hr|]. split; [exact Hc|]. exact Hm.
Defined.

(** X4, an instance.  The validated form of a response with a string for targets and an
    unknown type is validated again without a penalty. *)
Lemma validation_normalises_witness :
  _validate_analysis (H := sample_runtime)
    (PyDict [("type", PyStr "claim"); ("summary", PyStr "no");
             ("targets", PyList []); ("confidence", PyFloat 0.9)])
  = Ok ([("type", PyStr "claim"); ("summary", PyStr "no");
         ("targets", PyList []); ("confidence", PyFloat 0.9)], 0.9%float).
Proof.
  destruct (validation_normalises (H := sample_runtime) (PyDict coerced_response)
              [("type", PyStr "claim"); ("summary", PyStr "no");
               ("targets", PyList []); ("confidence", PyFloat 0.9)]
              0.5760000000000001%float eq_refl)
    as (_ & _ & d & c & Hd & Hc & Hv).
  injection Hd as <-. injection Hc as <-. exact Hv.
Defined.

End MapperLaws.

(** ** Properties of the session *)

Module SessionLaws.
Import Py Types Spec Notions.

Set Warnings "-clear-no-such-hyp".

Lemma with_anchors_same (self : Session.t) :
  Session.with_anchors (Session.anchors self) self = self.
Proof. by destruct self. Qed.

Lemma remove_first_none (p : Session.Anchor -> bool) (l : list Session.Anchor) :
  Forall (fun a => p a = false) l -> Session.remove_first p l = None.
Proof.
  induction 1 as [|a l Ha Hl IH]; simpl; [done|]. by rewrite Ha, IH.
Qed.

Lemma remove_first_app (p : Session.Anchor -> bool)
  (pre post : list Session.Anchor) (a : Session.Anchor) :
  Forall (fun x => p x = false) pre -> p a = true ->
  Session.remove_first p (pre ++ a :: post) = Some (a, pre ++ post).
Proof.
  induction 1 as [|x pre Hx Hpre IH]; intros Ha; simpl.
  - by rewrite Ha.
  - by rewrite Hx, IH.
Qed.

(** X5.  [remove_anchor] takes out the first anchor with the four keys and hands
    it back; the anchors before and after it stay in their order.  When no
    anchor has the keys the answer is [None] and the session is untouched. *)
Theorem remove_anchor_takes_first_match (tid pos len : Z) (user : string)
  (self : Session.t) :
  (Forall (fun a => Session.anchor_matches tid pos len user a = false)
     (Session.anchors self) ->
   Session.remove_anchor tid pos len user self = (self, None))
  /\ forall pre a post,
       Session.anchors self = pre ++ a :: post ->
       Forall (fun x => Session.anchor_matches tid pos len user x = false) pre ->
       Session.anchor_matches tid pos len user a = true ->
       Session.remove_anchor tid pos len user self
       = (Session.with_anchors (pre ++ post) self, Some a).
Proof.
  unfold Session.remove_anchor. split.
  - intros Hnone. by rewrite remove_first_none.
  - intros pre a post -> Hpre Ha. by rewrite remove_first_app.
Qed.

(** X6.  An anchor added to a session that has none with its keys is found again
    by [remove_anchor] under these keys, and removing it gives the session
    back as it was. *)
Theorem add_then_remove_anchor (instant : datetime)
  (data : Session.AnchorData) (self : Session.t) :
  Forall (fun a => Session.anchor_matches (Session.ad_turnId data)
                     (Session.ad_position data) (Session.ad_length data)
                     (Session.ad_userId data) a = false)
    (Session.anchors self) ->
  Session.remove_anchor (Session.ad_turnId data) (Session.ad_position data)
    (Session.ad_length data) (Session.ad_userId data)
    (Session.add_anchor instant data self).1
  = (self, Some (Session.add_anchor instant data self).2).
Proof.
  intros Hnone. unfold Session.remove_anchor, Session.add_anchor. simpl.
  rewrite remove_first_app; [| exact Hnone |].
  - rewrite app_nil_r. simpl. by destruct self.
  - unfold Session.anchor_matches. simpl.
    by rewrite !Z.eqb_refl, String.eqb_refl.
Qed.

(** X7.  Joining and leaving: a name that joins once and leaves is gone and the
    count of clients is what it was; a name that joins twice and leaves once
    is gone from the participants as well, while one client stays counted.
    The count never goes below zero. *)
Theorem join_and_leave (t1 t2 t3 : datetime) (name : string) (self : Session.t) :
  0 <= Session.connected_clients self ->
  name ∉ Session.participants self ->
  let once :=
    Session.remove_participant t2 name (Session.add_participant t1 name self) in
  let twice :=
    Session.remove_participant t3 name
      (Session.add_participant t2 name (Session.add_participant t1 name self)) in
  Session.participants once = Session.participants self
  /\ Session.connected_clients once = Session.connected_clients self
  /\ Session.last_activity once = t2
  /\ Session.participants twice = Session.participants self
  /\ Session.connected_clients twice = Session.connected_clients self + 1
  /\ 0 <= Session.connected_clients (Session.remove_participant t1 name self).
Proof.
  intros Hc Hn. cbv zeta.
  unfold Session.remove_participant, Session.add_participant. simpl.
  repeat split; try lia; set_solver.
Qed.

Lemma is_inactive_true (t : datetime) (self : Session.t) :
  Session.is_inactive t self = true
  <-> Session.connected_clients self <= 0
      /\ Session.participants self = ∅
      /\ 300000000 < t - Session.last_activity self.
Proof.
  unfold Session.is_inactive.
  rewrite !andb_true_iff, Z.leb_le, Z.ltb_lt, Nat.eqb_eq.
  change (Config.INACTIVE_SESSION_TIMEOUT * 60 * Config.second) with 300000000.
  split.
  - intros ((Hc & Hp) & Ht). repeat split; try done.
    by apply size_empty_inv, leibniz_equiv in Hp.
  - intros (Hc & Hp & Ht). repeat split; try done.
    rewrite Hp. apply size_empty.
Qed.

(** X8.  A session is not swept while somebody is in it, nor in the five minutes
    that follow a join or a leave; once its last participant has left, it is
    inactive exactly when more than five minutes have passed since. *)
Theorem activity_defers_inactivity (t0 t : datetime) (name : string)
  (self : Session.t) :
  Session.is_inactive t (Session.add_participant t0 name self) = false
  /\ (t - t0 <= 300000000 ->
      Session.is_inactive t (Session.remove_participant t0 name self) = false)
  /\ (Session.participants self ⊆ {[name]} ->
      Session.connected_clients self <= 1 ->
      (Session.is_inactive t (Session.remove_participant t0 name self) = true
       <-> 300000000 < t - t0)).
Proof.
  split; [|split].
  - apply not_true_is_false. rewrite is_inactive_true. simpl.
    intros (_ & Hp & _). set_solver.
  - intros Ht. apply not_true_is_false. rewrite is_inactive_true. simpl. lia.
  - intros Hp Hc. rewrite is_inactive_true. simpl. split.
    + by intros (_ & _ & Ht).
    + intros Ht. repeat split; [lia|set_solver|done].
Qed.

(** *** Sorting the transcripts *)

Lemma StronglySorted_weaken {A : Type} (R1 R2 : A -> A -> Prop) (l : list A) :
  (forall x y, R1 x y -> R2 x y) -> StronglySorted R1 l -> StronglySorted R2 l.
Proof.
  intros Himp. induction 1 as [|x l Hl IH Hx]; constructor; [done|].
  eapply Forall_impl; [exact Hx|]. apply Himp.
Qed.

Section Sorting.
Context {A : Type} (key : A -> Z) (before : Z -> Z -> bool).
Hypothesis before_total : forall a b, before a b = false -> before b a = true.
Hypothesis before_trans :
  forall a b c, before a b = true -> before b c = true -> before a c = true.

Lemma insert_by_perm (x : A) (l : list A) :
  SessionQueries.insert_by key before x l ≡ₚ x :: l.
Proof.
  induction l as [|y l IH]; simpl; [done|].
  destruct (before (key x) (key y)); [done|].
  rewrite IH. apply perm_swap.
Qed.

Lemma sorted_by_perm (l : list A) : SessionQueries.sorted_by key before l ≡ₚ l.
Proof.
  induction l as [|x l IH]; simpl; [done|].
  rewrite insert_by_perm. by rewrite IH.
Qed.

Lemma insert_by_sorted (x : A) (l : list A) :
  StronglySorted (in_order key before) l -> StronglySorted (in_order key before) (SessionQueries.insert_by key before x l).
Proof.
  induction 1 as [|y l Hl IH Hy]; simpl.
  - repeat constructor.
  - unfold in_order in *. destruct (before (key x) (key y)) eqn:E.
    + constructor; [by constructor|]. constructor; [exact E|].
      eapply Forall_impl; [exact Hy|]. intros z Hz. by eapply before_trans.
    + constructor; [exact IH|].
      rewrite insert_by_perm. constructor; [|exact Hy].
      by apply before_total.
Qed.

Lemma sorted_by_sorted (l : list A) :
  StronglySorted (in_order key before) (SessionQueries.sorted_by key before l).
Proof.
  induction l as [|x l IH]; simpl; [constructor|]. by apply insert_by_sorted.
Qed.

Lemma sorted_by_id (l : list A) :
  StronglySorted (in_order key before) l -> SessionQueries.sorted_by key before l = l.
Proof.
  induction 1 as [|x l Hl IH Hx]; simpl; [done|]. rewrite IH.
  destruct Hx as [|y l Hy _]; simpl; [done|]. unfold in_order in Hy. by rewrite Hy.
Qed.

End Sorting.

Lemma ascending_total (a b : Z) :
  SessionQueries.ascending a b = false -> SessionQueries.ascending b a = true.
Proof. unfold SessionQueries.ascending. lia. Qed.

Lemma ascending_trans (a b c : Z) :
  SessionQueries.ascending a b = true -> SessionQueries.ascending b c = true ->
  SessionQueries.ascending a c = true.
Proof. unfold SessionQueries.ascending. lia. Qed.

Lemma descending_total (a b : Z) :
  SessionQueries.descending a b = false -> SessionQueries.descending b a = true.
Proof. unfold SessionQueries.descending. lia. Qed.

Lemma descending_trans (a b c : Z) :
  SessionQueries.descending a b = true -> SessionQueries.descending b c = true ->
  SessionQueries.descending a c = true.
Proof. unfold SessionQueries.descending. lia. Qed.

(** X9.  [get_all_turns] hands back the transcripts, every one once, oldest
    first; transcripts that already stand in the order of their timestamps
    come back in the order they have. *)
Theorem get_all_turns_sorts (self : Session.t) :
  SessionQueries.get_all_turns self ≡ₚ Session.transcripts self
  /\ StronglySorted
       (fun a b => Session.tr_timestamp a <= Session.tr_timestamp b)
       (SessionQueries.get_all_turns self)
  /\ (StronglySorted
        (fun a b => Session.tr_timestamp a <= Session.tr_timestamp b)
        (Session.transcripts self) ->
      SessionQueries.get_all_turns self = Session.transcripts self).
Proof.
  unfold SessionQueries.get_all_turns. split; [apply sorted_by_perm|]. split.
  - eapply StronglySorted_weaken;
      [|apply (sorted_by_sorted _ _ ascending_total ascending_trans)].
    unfold in_order, SessionQueries.ascending. simpl. intros a b. lia.
  - intros Hs. apply sorted_by_id.
    eapply StronglySorted_weaken; [|exact Hs].
    unfold in_order, SessionQueries.ascending. simpl. intros a b. lia.
Qed.

(** X10.  [get_recent_turns] hands back turns of the session, the most recent
    first, and every turn it leaves out is at most as recent as every turn
    it hands back; for a count that is not negative it hands back that many
    turns, or all of them when there are fewer. *)
Theorem get_recent_turns_are_the_latest (count : Z) (self : Session.t) :
  exists older,
    SessionQueries.get_recent_turns count self ++ older
    ≡ₚ Session.transcripts self
    /\ (forall x y,
          x ∈ SessionQueries.get_recent_turns count self -> y ∈ older ->
          Session.tr_timestamp y <= Session.tr_timestamp x)
    /\ StronglySorted
         (fun a b => Session.tr_timestamp b <= Session.tr_timestamp a)
         (SessionQueries.get_recent_turns count self)
    /\ (0 <= count ->
        List.length (SessionQueries.get_recent_turns count self)
        = Nat.min (Z.to_nat count) (List.length (Session.transcripts self))).
Proof.
  unfold SessionQueries.get_recent_turns, SessionQueries.slice_to.
  set (sorted := SessionQueries.sorted_by Session.tr_timestamp
                   SessionQueries.descending (Session.transcripts self)).
  assert (Hs : StronglySorted
                 (fun a b => Session.tr_timestamp b <= Session.tr_timestamp a)
                 sorted).
  { eapply StronglySorted_weaken;
      [|apply (sorted_by_sorted _ _ descending_total descending_trans)].
    unfold in_order, SessionQueries.descending. simpl. intros a b. lia. }
  assert (Hp : sorted ≡ₚ Session.transcripts self) by apply sorted_by_perm.
  set (n := if 0 <=? count then Z.to_nat count
            else (List.length sorted - Z.to_nat (- count))%nat).
  assert (Hn : (if 0 <=? count then take (Z.to_nat count) sorted
                else take (List.length sorted - Z.to_nat (- count)) sorted)
               = take n sorted) by (subst n; by destruct (0 <=? count)).
  rewrite Hn. exists (drop n sorted).
  rewrite take_drop. split; [exact Hp|]. split; [|split].
  - intros x y Hx Hy. rewrite <- (take_drop n sorted) in Hs.
    by apply (StronglySorted_app_1_elem_of _ _ _ _ _ Hs Hx Hy).
  - rewrite <- (take_drop n sorted) in Hs.
    by apply StronglySorted_app_1_l in Hs.
  - intros Hc. subst n. apply Z.leb_le in Hc. rewrite Hc.
    rewrite length_take. by rewrite Hp.
Qed.

(** X6, an instance.  An anchor added to a new session and removed again *)
Lemma add_then_remove_anchor_witness :
  Session.remove_anchor 7 0 5 "alice"
    (Session.add_anchor 3 stray_anchor (Session.init sample_clock "s")).1
  = (Session.init sample_clock "s",
     Some (Session.add_anchor 3 stray_anchor (Session.init sample_clock "s")).2).
Proof.
  exact (add_then_remove_anchor 3 stray_anchor (Session.init sample_clock "s")
           (Forall_nil_2 _)).
Defined.

(** X7, an instance.  Alice joins a new session and leaves it. *)
Lemma join_and_leave_witness :
  Session.participants
    (Session.remove_participant 2 "Alice"
       (Session.add_participant 1 "Alice" (Session.init sample_clock "s")))
  = Session.participants (Session.init sample_clock "s")
  /\ Session.connected_clients
       (Session.remove_participant 2 "Alice"
          (Session.add_participant 1 "Alice" (Session.init sample_clock "s")))
     = 0.
Proof.
  destruct (join_and_leave 1 2 3 "Alice" (Session.init sample_clock "s"))
    as (Hp & Hc & _).
  - simpl. lia.
  - apply not_elem_of_empty.
  - exact (conj Hp Hc).
Defined.

End SessionLaws.

(** ** Further properties of the session manager *)

Module ManagerLaws.
Import Py Types SessionManager Spec Notions DictProps.

Section Manager.
Context `{Runtime}.

(** *** Keys *)

Lemma dict_set_keys {V : Type} (key : string) (v : V) (d : dict V) :
  map fst (dict_set key v d)
  = if dict_has key d then map fst d else map fst d ++ [key].
Proof.
  induction d as [|[k w] d IH]; simpl; [done|].
  destruct (String.eqb k key) eqn:E; simpl; [done|].
  rewrite IH. by destruct (dict_has key d).
Qed.

Lemma dict_has_keys {V : Type} (key : string) (d : dict V) :
  dict_has key d = true <-> In key (map fst d).
Proof.
  induction d as [|[k w] d IH]; simpl; [split; [done|tauto]|].
  destruct (String.eqb k key) eqn:E.
  - apply String.eqb_eq in E. tauto.
  - apply String.eqb_neq in E. rewrite IH. tauto.
Qed.

Lemma distinct_keys_set {V : Type} (key : string) (v : V) (d : dict V) :
  distinct_keys d -> distinct_keys (dict_set key v d).
Proof.
  unfold distinct_keys. intros Hd. rewrite dict_set_keys.
  destruct (dict_has key d) eqn:E; [done|].
  apply NoDup_app. split; [done|]. split; [|apply NoDup_singleton].
  intros k Hk [->|[]%elem_of_nil]%elem_of_cons.
  apply list_elem_of_In, dict_has_keys in Hk. congruence.
Qed.

Lemma dict_del_sublist {V : Type} (key : string) (d : dict V) :
  map fst (dict_del key d) `sublist_of` map fst d.
Proof.
  induction d as [|[k w] d IH]; simpl; [done|].
  destruct (String.eqb k key); simpl.
  - by apply sublist_cons.
  - by apply sublist_skip.
Qed.

Lemma distinct_keys_del {V : Type} (key : string) (d : dict V) :
  distinct_keys d -> distinct_keys (dict_del key d).
Proof.
  unfold distinct_keys. intros Hd.
  eapply sublist_NoDup; [exact Hd|apply dict_del_sublist].
Qed.

Lemma dict_lookup_distinct {V : Type} (key : string) (v : V) (d : dict V) :
  distinct_keys d -> In (key, v) d -> dict_lookup key d = Some v.
Proof.
  unfold distinct_keys. induction d as [|[k w] d IH]; simpl; [done|].
  intros [Hk Hd]%NoDup_cons [[= -> ->]|Hin].
  - by rewrite String.eqb_refl.
  - destruct (String.eqb k key) eqn:E; [|by apply IH].
    apply String.eqb_eq in E. subst k. exfalso. apply Hk.
    apply list_elem_of_In. apply in_map_iff. by exists (key, v).
Qed.

Lemma dict_has_is_Some {V : Type} (key : string) (d : dict V) :
  dict_has key d = true <-> is_Some (dict_lookup key d).
Proof.
  rewrite dict_has_lookup. destruct (dict_lookup key d); split; eauto; try done.
Qed.

Lemma is_Some_set {V : Type} (key key' : string) (v : V) (d : dict V) :
  is_Some (dict_lookup key' (dict_set key v d))
  <-> key = key' \/ is_Some (dict_lookup key' d).
Proof.
  destruct (decide (key = key')) as [->|Hne].
  - rewrite dict_lookup_set_eq. split; eauto.
  - rewrite dict_lookup_set_ne by done. tauto.
Qed.

(** *** The registry *)

Lemma registry_consistent_init (archived : dict pyval) (d : Session.Disk) :
  registry_consistent (init archived d).
Proof.
  repeat split; try apply NoDup_nil_2. simpl. by intros sid [? ?].
Qed.

Lemma registry_consistent_queues (sq : dict (list nat)) (self : t) :
  distinct_keys sq ->
  (forall sid, is_Some (dict_lookup sid (session_queues self)) ->
               is_Some (dict_lookup sid sq)) ->
  registry_consistent self ->
  registry_consistent (with_session_queues sq self).
Proof.
  intros Hd Hsub (Ha & _ & Hin). repeat split; try done.
  simpl. intros sid Hs. by apply Hsub, Hin.
Qed.

Lemma remove_session_consistent (clock : Clock) (fault : Session.io_fault)
  (sid : string) (self : t) :
  registry_consistent self ->
  registry_consistent (remove_session clock fault sid self).1.1
  /\ (remove_session clock fault sid self).2 <> Raise KeyError
  /\ (fault = Session.NoFault ->
      (remove_session clock fault sid self).2 = Ok tt
      /\ get_session sid (remove_session clock fault sid self).1.1 = None
      /\ (forall k, k <> sid ->
            get_session k (remove_session clock fault sid self).1.1
            = get_session k self)
      /\ (forall session, get_session sid self = Some session ->
            disk (remove_session clock fault sid self).1.1
            = <[Session.session_id session :=
                  Session.snapshot (now (tick clock)) session]> (disk self))).
Proof.
  intros (Ha & Hq & Hin). unfold remove_session, get_session.
  destruct (dict_lookup sid (active_sessions self)) as [session|] eqn:Hs.
  2: { simpl. repeat split; try done. }
  assert (Hhas : dict_has sid (session_queues self) = true).
  { apply dict_has_is_Some, Hin. by rewrite Hs. }
  unfold Session.archive. destruct fault; simpl.
  - rewrite Hhas. simpl. split; [|split; [done|]].
    + repeat split; simpl.
      * by apply distinct_keys_del.
      * by apply distinct_keys_del.
      * intros k Hk. destruct (decide (k = sid)) as [->|Hne].
        -- rewrite dict_lookup_del_eq in Hk by done. by destruct Hk.
        -- assert (Hne' : sid <> k) by congruence.
           rewrite dict_lookup_del_ne in Hk by done.
           rewrite dict_lookup_del_ne by done. by apply Hin.
    + intros _. repeat split.
      * by apply dict_lookup_del_eq.
      * intros k Hk. apply dict_lookup_del_ne. congruence.
      * by intros ? [= <-].
  - split; [|split; [done|done]]. repeat split; simpl; try done.
    + by apply distinct_keys_set.
    + intros k Hk. apply Hin. apply is_Some_set in Hk as [<-|Hk]; [|done].
      by rewrite Hs.
  - split; [|split; [done|done]]. repeat split; simpl; try done.
    + by apply distinct_keys_set.
    + intros k Hk. apply Hin. apply is_Some_set in Hk as [<-|Hk]; [|done].
      by rewrite Hs.
Qed.

Lemma manage_consistent (o : manager_op) (self : t) :
  registry_consistent self -> registry_consistent (manage self o).
Proof.
  intros Hc. pose proof Hc as (Ha & Hq & Hin).
  destruct o as [clock sid|sid|sid queue|clock fault sid|sid data| |data]; simpl.
  - repeat split; simpl; try by apply distinct_keys_set.
    intros k Hk. apply is_Some_set. apply is_Some_set in Hk as [->|Hk]; eauto.
  - unfold add_client_queue.
    set (self1 := if dict_has sid (session_queues self) then self else _).
    assert (Hc1 : registry_consistent self1).
    { subst self1. destruct (dict_has sid (session_queues self)); [done|].
      apply registry_consistent_queues;
        [by apply distinct_keys_set|intros k Hk; rewrite is_Some_set; tauto|done]. }
    simpl.
    apply (registry_consistent_queues _ (new_queue self1).1).
    + simpl. apply distinct_keys_set, Hc1.
    + simpl. intros k Hk. rewrite is_Some_set. tauto.
    + exact Hc1.
  - unfold remove_client_queue.
    destruct (dict_lookup sid (session_queues self)) as [qs|]; [|done].
    destruct (list_remove queue qs); [|done].
    apply registry_consistent_queues;
      [by apply distinct_keys_set|intros k Hk; rewrite is_Some_set; tauto|done].
  - by apply remove_session_consistent.
  - unfold broadcast_to_session.
    destruct (dict_lookup sid (session_queues self)) as [qs|]; [|done].
    destruct (ManagerProps.put_all_fields (message (strip_timestamp data)) qs self)
      as (Ea & Eq & _).
    unfold registry_consistent. by rewrite Ea, Eq.
  - done.
  - unfold broadcast_global.
    destruct (ManagerProps.put_all_fields (message data) (global_queues self) self)
      as (Ea & Eq & _).
    unfold registry_consistent. by rewrite Ea, Eq.
Qed.

Lemma reachable_consistent (archived : dict pyval) (d : Session.Disk)
  (ops : list manager_op) :
  registry_consistent (fold_left manage ops (init archived d)).
Proof.
  assert (H0 : registry_consistent (init archived d))
    by apply registry_consistent_init.
  revert H0. generalize (init archived d).
  induction ops as [|o ops IH]; intros self Hself; simpl; [done|].
  apply IH. by apply manage_consistent.
Qed.

(** X11.  On every manager reached from a new one, whatever sessions were created
    and removed and whoever subscribed, [remove_session] finds the list of
    subscribers of a live session: it never raises KeyError, and when the
    archive succeeds it raises nothing and the session is gone. *)
Theorem remove_session_finds_the_subscribers (archived : dict pyval)
  (d : Session.Disk) (ops : list manager_op) (clock : Clock)
  (fault : Session.io_fault) (sid : string) :
  let self := fold_left manage ops (init archived d) in
  (remove_session clock fault sid self).2 <> Raise KeyError
  /\ (remove_session clock Session.NoFault sid self).2 = Ok tt
  /\ get_session sid (remove_session clock Session.NoFault sid self).1.1 = None
  /\ dict_lookup sid
       (session_queues (remove_session clock Session.NoFault sid self).1.1)
     = (if dict_has sid (active_sessions self) then None
        else dict_lookup sid (session_queues self)).
Proof.
  cbv zeta. set (self := fold_left manage ops (init archived d)).
  pose proof (reachable_consistent archived d ops) as Hc. fold self in Hc.
  destruct (remove_session_consistent clock fault sid self Hc) as (_ & Hk & _).
  destruct (remove_session_consistent clock Session.NoFault sid self Hc)
    as (_ & _ & Hok).
  destruct (Hok eq_refl) as (Hr & Hg & _).
  repeat split; try done.
  destruct Hc as (Ha & Hq & Hin). unfold remove_session.
  rewrite dict_has_lookup.
  destruct (dict_lookup sid (active_sessions self)) as [session|] eqn:Hs; [|done].
  assert (Hhas : dict_has sid (session_queues self) = true).
  { apply dict_has_is_Some, Hin. by rewrite Hs. }
  simpl. rewrite Hhas. simpl. by apply dict_lookup_del_eq.
Qed.

(** *** The sweep without faults *)

Lemma is_inactive_later (t t' : datetime) (session : Session.t) :
  t <= t' -> Session.is_inactive t session = true ->
  Session.is_inactive t' session = true.
Proof.
  intros Hle. unfold Session.is_inactive.
  rewrite !andb_true_iff, !Z.ltb_lt. intros ((Hc & Hp) & Ht).
  repeat split; try done. lia.
Qed.

Lemma archive_grows (d : gmap string Session.Snapshot) (k key : string)
  (v : Session.Snapshot) :
  k = key \/ is_Some (d !! key) -> is_Some (<[k := v]> d !! key).
Proof.
  intros Hor. destruct (decide (k = key)) as [->|Hne].
  - rewrite lookup_insert_eq. eauto.
  - rewrite lookup_insert_ne by done. tauto.
Qed.

Lemma sweep_without_faults (items : list (string * Session.t)) :
  forall (clock : Clock) (self : t),
  registry_consistent self ->
  NoDup (map fst items) ->
  (forall sid s, In (sid, s) items -> get_session sid self = Some s) ->
  let out := sweep clock (fun _ => Session.NoFault) items self in
  out.2 = Ok tt
  /\ registry_consistent out.1.1
  /\ (forall sid, ~ In sid (map fst items) ->
        get_session sid out.1.1 = get_session sid self)
  /\ (forall key, is_Some (disk self !! key) -> is_Some (disk out.1.1 !! key))
  /\ forall sid s, In (sid, s) items ->
       ((forall k, Session.is_inactive (clock k) s = true) ->
        get_session sid out.1.1 = None
        /\ is_Some (disk out.1.1 !! Session.session_id s))
       /\ ((forall k, Session.is_inactive (clock k) s = false) ->
           get_session sid out.1.1 = Some s).
Proof.
  induction items as [|[sid0 s0] items IH]; intros clock self Hc Hnd Hreg;
    cbv zeta; simpl.
  - split; [done|]. split; [exact Hc|]. repeat split; done.
  - apply NoDup_cons in Hnd as [Hsid0 Hnd].
    rewrite list_elem_of_In in Hsid0.
    assert (Hs0 : get_session sid0 self = Some s0) by (apply Hreg; by left).
    destruct (Session.is_inactive (now clock) s0) eqn:Hin0.
    + destruct (remove_session_consistent (tick clock) Session.NoFault sid0 self Hc)
        as (Hc' & _ & Hok).
      destruct (Hok eq_refl) as (Hr & Hgone & Hother & Hdisk).
      specialize (Hdisk s0 Hs0).
      destruct (remove_session (tick clock) Session.NoFault sid0 self)
        as [[self' clock'] r] eqn:Hrem.
      simpl in *. subst r. unfold broadcast_to_home.
      assert (Hclock' : clock' = tick (tick (tick clock))).
      { unfold remove_session in Hrem. unfold get_session in Hs0.
        rewrite Hs0 in Hrem. simpl in Hrem.
        destruct (dict_has sid0 _) in Hrem; by injection Hrem as _ <-. }
      specialize (IH clock' self' Hc' Hnd).
      cbv zeta in IH.
      destruct IH as (Hr' & Hc'' & Hout & Hdk & Hitems).
      { intros sid s Hin. rewrite Hother; [apply Hreg; by right|].
        intros ->. apply Hsid0. apply in_map_iff. by exists (sid0, s). }
      split; [exact Hr'|]. split; [exact Hc''|]. split; [|split].
      * intros sid Hsid. rewrite Hout by tauto. apply Hother.
        intros ->. tauto.
      * intros key Hk. apply Hdk. rewrite Hdisk.
        apply archive_grows. by right.
      * intros sid s [[= -> ->]|Hin].
        -- split.
           ++ intros _. rewrite Hout by done. split; [exact Hgone|].
              apply Hdk. rewrite Hdisk. apply archive_grows. by left.
           ++ intros Hnever. specialize (Hnever 0%nat). unfold now in Hin0.
              congruence.
        -- destruct (Hitems sid s Hin) as [Hyes Hno]. split.
           ++ intros Hall. apply Hyes. intros k. subst clock'. apply Hall.
           ++ intros Hall. apply Hno. intros k. subst clock'. apply Hall.
    + specialize (IH (tick clock) self Hc Hnd). cbv zeta in IH.
      destruct IH as (Hr' & Hc'' & Hout & Hdk & Hitems).
      { intros sid s Hin. apply Hreg. by right. }
      split; [exact Hr'|]. split; [exact Hc''|].
      split; [intros sid Hsid; apply Hout; tauto|]. split; [exact Hdk|].
      intros sid s [[= -> ->]|Hin].
      * split.
        -- intros Hall. specialize (Hall 0%nat). unfold now in Hin0. congruence.
        -- intros _. by rewrite Hout.
      * destruct (Hitems sid s Hin) as [Hyes Hno]. split.
        -- intros Hall. apply Hyes. intros k. apply Hall.
        -- intros Hall. apply Hno. intros k. apply Hall.
Qed.

(** X12.  A tick of the sweep in which no archive fails, under a clock that does
    not run backwards: every session that is inactive when the tick begins
    is evicted and has its snapshot in the archives, every session that is
    at no reading inactive stays registered as it is, and the registry stays
    consistent. *)
Theorem sweep_evicts_the_inactive (clock : Clock) (self : t) :
  registry_consistent self ->
  monotone clock ->
  let out := cleanup_inactive_sessions clock (fun _ => Session.NoFault) self in
  registry_consistent out.1
  /\ forall sid s,
       get_session sid self = Some s ->
       (Session.is_inactive (now clock) s = true ->
        get_session sid out.1 = None
        /\ is_Some (disk out.1 !! Session.session_id s))
       /\ ((forall k, Session.is_inactive (clock k) s = false) ->
           get_session sid out.1 = Some s).
Proof.
  intros Hc Hmono. cbv zeta. unfold cleanup_inactive_sessions.
  destruct (sweep_without_faults (active_sessions self) clock self Hc)
    as (Hr & Hc' & _ & _ & Hitems).
  { apply Hc. }
  { intros sid s Hin. apply dict_lookup_distinct; [apply Hc|done]. }
  destruct (sweep clock _ (active_sessions self) self) as [[self' clock'] r].
  simpl in *. subst r. simpl. split; [exact Hc'|].
  intros sid s Hs.
  destruct (Hitems sid s (ManagerProps.dict_lookup_In _ _ _ Hs)) as [Hyes Hno].
  split; [|exact Hno].
  intros Hin. apply Hyes. intros k.
  apply (is_inactive_later (now clock)); [|exact Hin].
  apply Hmono. lia.
Qed.

(** *** Subscribing and unsubscribing *)

Lemma list_remove_last (q : nat) (qs : list nat) :
  q ∉ qs -> list_remove q (qs ++ [q]) = Some qs.
Proof.
  induction qs as [|x qs IH]; simpl; intros Hq.
  - by rewrite Nat.eqb_refl.
  - apply not_elem_of_cons in Hq as [Hne Hq].
    destruct (Nat.eqb x q) eqn:E; [apply Nat.eqb_eq in E; congruence|].
    by rewrite IH.
Qed.

Lemma list_remove_absent (q : nat) (qs : list nat) :
  q ∉ qs -> list_remove q qs = None.
Proof.
  induction qs as [|x qs IH]; simpl; intros Hq; [done|].
  apply not_elem_of_cons in Hq as [Hne Hq].
  destruct (Nat.eqb x q) eqn:E; [apply Nat.eqb_eq in E; congruence|].
  by rewrite IH.
Qed.

(** The subscribers the session has before [add_client_queue] adds one *)
Lemma add_client_queue_spec (sid : string) (self : t) :
  subscribers_distinct self ->
  let qs := dict_get sid [] (session_queues self) in
  let out := add_client_queue sid self in
  out.2 = List.length (queues self)
  /\ ~ (out.2 ∈ qs)
  /\ NoDup qs
  /\ queues out.1 = queues self ++ [[]]
  /\ trace out.1 = trace self
  /\ dict_lookup sid (session_queues out.1) = Some (qs ++ [out.2])
  /\ exists sq, session_queues out.1 = dict_set sid (qs ++ [out.2]) sq
                /\ dict_lookup sid sq = Some qs.
Proof.
  intros Hd. cbv zeta. unfold add_client_queue.
  assert (Hqs : NoDup (dict_get sid [] (session_queues self))
                /\ Forall (fun q => (q < List.length (queues self))%nat)
                     (dict_get sid [] (session_queues self))).
  { unfold dict_get.
    destruct (dict_lookup sid (session_queues self)) as [qs|] eqn:Hl;
      [|split; constructor].
    apply ManagerProps.dict_lookup_In in Hl. unfold subscribers_distinct in Hd.
    rewrite Forall_forall in Hd.
    apply (Hd (sid, qs)). by apply list_elem_of_In. }
  destruct Hqs as [Hnd Hall].
  assert (Hfresh : List.length (queues self) ∉ dict_get sid [] (session_queues self)).
  { intros Hin. rewrite Forall_forall in Hall. specialize (Hall _ Hin).
    simpl in Hall. lia. }
  rewrite dict_has_lookup. unfold dict_get in *.
  destruct (dict_lookup sid (session_queues self)) as [qs|] eqn:Hl; simpl.
  - rewrite Hl. repeat split; try done.
    + apply dict_lookup_set_eq.
    + eauto.
  - rewrite !dict_lookup_set_eq. simpl. repeat split; try done.
    eexists. split; [reflexivity|]. apply dict_lookup_set_eq.
Qed.

(** X13.  A subscription makes a queue that did not exist; a publish on the topic
    then leaves its item in that queue; once the queue is unsubscribed a
    publish leaves nothing in it, and unsubscribing it a second time changes
    nothing. *)
Theorem subscription_lifecycle (sid : string) (data : pydict) (self : t) :
  subscribers_distinct self ->
  let sub := add_client_queue sid self in
  let gone := remove_client_queue sid sub.2 sub.1 in
  queues self !! sub.2 = None
  /\ queues sub.1 !! sub.2 = Some []
  /\ queues (broadcast_to_session sid data sub.1) !! sub.2
     = Some [message (strip_timestamp data)]
  /\ queues (broadcast_to_session sid data gone) !! sub.2 = Some []
  /\ remove_client_queue sid sub.2 gone = gone.
Proof.
  intros Hd. cbv zeta.
  destruct (add_client_queue_spec sid self Hd)
    as (Hq & Hfresh & Hnd & Hqueues & _ & Hl & sq & Hsq & Hsql).
  cbv zeta in *.
  set (qs := dict_get sid [] (session_queues self)) in *.
  destruct (add_client_queue sid self) as [self' q] eqn:Hsub. simpl in *.
  assert (Hnone : queues self !! q = None).
  { apply lookup_ge_None. lia. }
  assert (Hempty : queues self' !! q = Some []).
  { rewrite Hqueues, Hq. apply list_lookup_middle. done. }
  split; [exact Hnone|]. split; [exact Hempty|].
  assert (Hgone : remove_client_queue sid q self'
                  = with_session_queues (dict_set sid qs (session_queues self')) self').
  { unfold remove_client_queue. rewrite Hl. by rewrite list_remove_last. }
  split; [|split].
  - unfold broadcast_to_session. rewrite Hl.
    rewrite ManagerProps.put_all_subscriber.
    + by rewrite Hempty.
    + apply NoDup_app. split; [done|]. split; [|apply NoDup_singleton].
      intros x Hx [->|[]%elem_of_nil]%elem_of_cons. done.
    + apply elem_of_app. right. apply elem_of_cons. by left.
  - rewrite Hgone. unfold broadcast_to_session. simpl.
    rewrite dict_lookup_set_eq.
    rewrite ManagerProps.put_all_other by done. exact Hempty.
  - rewrite Hgone. unfold remove_client_queue. simpl.
    rewrite dict_lookup_set_eq. by rewrite list_remove_absent.
Qed.

(** *** Events *)

Lemma dict_del_set_same (v : pyval) (d : pydict) (key : string) :
  dict_del key (dict_set key v d)
  = if dict_has key d then dict_del key d else d.
Proof.
  induction d as [|[k w] d IH]; simpl.
  - by rewrite String.eqb_refl.
  - destruct (String.eqb k key) eqn:E; simpl; rewrite E; [done|].
    rewrite IH. by destruct (dict_has key d).
Qed.

(** X14.  A top-level timestamp never reaches the subscribers of a session: a
    payload publishes as it would without it, the published payload has no
    such key, and its other entries are the ones of the payload. *)
Theorem top_level_timestamp_is_dropped (sid : string) (data : pydict) (self : t) :
  (forall v,
     broadcast_to_session sid (dict_set "timestamp" v data) self
     = broadcast_to_session sid data self)
  /\ (distinct_keys data -> dict_lookup "timestamp" (strip_timestamp data) = None)
  /\ (forall key, key <> "timestamp" ->
        dict_lookup key (strip_timestamp data) = dict_lookup key data).
Proof.
  split; [|split].
  - intros v. unfold broadcast_to_session.
    destruct (dict_lookup sid (session_queues self)); [|done].
    f_equal. f_equal. unfold strip_timestamp.
    assert (Hhas : dict_has "timestamp" (dict_set "timestamp" v data) = true).
    { apply dict_has_is_Some. rewrite dict_lookup_set_eq. eauto. }
    rewrite Hhas. apply dict_del_set_same.
  - intros Hd. unfold strip_timestamp.
    destruct (dict_has "timestamp" data) eqn:E.
    + by apply dict_lookup_del_eq.
    + rewrite dict_has_lookup in E. by destruct (dict_lookup "timestamp" data).
  - intros key Hne. unfold strip_timestamp.
    destruct (dict_has "timestamp" data); [|done].
    apply dict_lookup_del_ne. congruence.
Qed.


End Manager.

(** X12, an instance.  Twenty minutes on, a tick without faults evicts both sessions. *)
Lemma sweep_evicts_the_inactive_witness :
  get_session "a"
    (cleanup_inactive_sessions late_clock (fun _ => Session.NoFault) two_sessions).1
  = None
  /\ get_session "b"
       (cleanup_inactive_sessions late_clock (fun _ => Session.NoFault)
          two_sessions).1
     = None.
Proof.
  assert (Hm : monotone late_clock).
  { intros i j Hij. unfold late_clock. lia. }
  destruct (sweep_evicts_the_inactive late_clock two_sessions
              (reachable_consistent (H := sample_runtime) [] ∅
                 [CreateSession sample_clock "a"; CreateSession sample_clock "b"])
              Hm) as (_ & Hall).
  split.
  - exact (proj1 (proj1 (Hall "a" (Session.init sample_clock "a") eq_refl) eq_refl)).
  - exact (proj1 (proj1 (Hall "b" (Session.init sample_clock "b") eq_refl) eq_refl)).
Defined.

(** X13, an instance.  A subscriber of a session gets the item published while it is
    subscribed, and nothing after it left. *)
Lemma subscription_lifecycle_witness :
  queues (broadcast_to_session (H := sample_runtime) "s" [("type", PyStr "transcript")]
            (add_client_queue "s" one_session).1) !! 0%nat
  = Some [PyDict [("data", PyStr "{}")]]
  /\ queues (broadcast_to_session (H := sample_runtime) "s"
               [("type", PyStr "transcript")]
               (remove_client_queue "s" 0%nat (add_client_queue "s" one_session).1))
       !! 0%nat
     = Some [].
Proof.
  destruct (subscription_lifecycle (H := sample_runtime) "s"
              [("type", PyStr "transcript")] one_session)
    as (_ & _ & Hp & Hg & _).
  - repeat constructor.
  - exact (conj Hp Hg).
Defined.


End ManagerLaws.

(** ** The sweep and a failing archive *)

Module SweepProps.
Import Py Types SessionManager Spec Notions DictProps.

(** The loop asks the file system about the sessions it lists, and about no
    other. *)
Lemma sweep_ext (f g : string -> Session.io_fault)
  (items : list (string * Session.t)) :
  forall (clock : Clock) (self : t),
  (forall k, In k (map fst items) -> f k = g k) ->
  sweep clock f items self = sweep clock g items self.
Proof.
  induction items as [|[sid s] items IH]; intros clock self Hfg; simpl; [done|].
  rewrite (Hfg sid) by (by left).
  destruct (Session.is_inactive (now clock) s).
  - destruct (remove_session (tick clock) (g sid) sid self) as [[s' c'] [u|e]];
      [|done].
    apply IH. intros k Hk. apply Hfg. by right.
  - apply IH. intros k Hk. apply Hfg. by right.
Qed.

(** The clock a call hands back is the clock it was given, read further on. *)
Lemma remove_session_clock (clock : Clock) (fault : Session.io_fault)
  (sid : string) (self : t) :
  exists n, forall k,
    (remove_session clock fault sid self).1.2 k = clock (n + k)%nat.
Proof.
  unfold remove_session.
  destruct (dict_lookup sid (active_sessions self)) as [session|];
    [|by exists 0%nat].
  unfold Session.archive. destruct fault; simpl.
  - destruct (dict_has sid (session_queues self)); by exists 2%nat.
  - by exists 1%nat.
  - by exists 2%nat.
Qed.

Lemma sweep_clock (fault : string -> Session.io_fault)
  (items : list (string * Session.t)) :
  forall (clock : Clock) (self : t),
  exists n, forall k, (sweep clock fault items self).1.2 k = clock (n + k)%nat.
Proof.
  induction items as [|[sid s] items IH]; intros clock self; simpl;
    [by exists 0%nat|].
  destruct (Session.is_inactive (now clock) s).
  - destruct (remove_session_clock (tick clock) (fault sid) sid self) as [m Hm].
    destruct (remove_session (tick clock) (fault sid) sid self)
      as [[s' c'] [u|e]]; simpl in *.
    + destruct (IH c' (broadcast_to_home (session_removed sid) s')) as [n Hn].
      exists (n + m + 1)%nat. intros k. rewrite Hn, Hm. unfold tick.
      f_equal. lia.
    + exists (m + 1)%nat. intros k. rewrite Hm. unfold tick. f_equal. lia.
  - destruct (IH (tick clock) self) as [n Hn].
    exists (n + 1)%nat. intros k. rewrite Hn. unfold tick. f_equal. lia.
Qed.

(** Whatever the file system does, no snapshot leaves the archives. *)
Lemma remove_session_keeps_archives (clock : Clock) (fault : Session.io_fault)
  (sid : string) (self : t) (key : string) :
  is_Some (disk self !! key) ->
  is_Some (disk (remove_session clock fault sid self).1.1 !! key).
Proof.
  intros Hkey. unfold remove_session.
  destruct (dict_lookup sid (active_sessions self)) as [session|]; [|done].
  unfold Session.archive. destruct fault; simpl.
  - destruct (dict_has sid (session_queues self)); simpl;
      apply (ManagerLaws.archive_grows (disk self)); by right.
  - done.
  - apply (ManagerLaws.archive_grows (disk self)). by right.
Qed.

(** C7, in the form the code satisfies.  The handler of the sweep stands
    around the whole loop.  Take a tick, under a clock that does not run
    backwards, in which the first archive to fail is that of an inactive
    session.  The loop ends there with the exception, which the handler
    takes, so the tick itself returns.  Of the sessions listed before the
    failing one, those inactive when the tick began are evicted and
    archived, and those at no reading inactive are kept; the failing session
    stays registered; the sessions listed after it are as they were, inactive
    or not.  They are left to a later tick: a tick without a failure evicts
    those of them that are inactive when it begins. *)
Theorem sweep_ends_at_first_failure (clock : Clock)
  (fault : string -> Session.io_fault)
  (before after : list (string * Session.t)) (sid : string)
  (session : Session.t) (self : t) :
  registry_consistent self ->
  monotone clock ->
  active_sessions self = before ++ (sid, session) :: after ->
  (forall k, In k (map fst before) -> fault k = Session.NoFault) ->
  fault sid <> Session.NoFault ->
  Session.is_inactive (now clock) session = true ->
  let out := cleanup_inactive_sessions clock fault self in
  (sweep clock fault (active_sessions self) self).2 = Raise OSError
  /\ registry_consistent out.1
  /\ (forall k s, In (k, s) before ->
        (Session.is_inactive (now clock) s = true ->
         get_session k out.1 = None
         /\ is_Some (disk out.1 !! Session.session_id s))
        /\ ((forall i, Session.is_inactive (clock i) s = false) ->
            get_session k out.1 = Some s))
  /\ is_Some (get_session sid out.1)
  /\ (forall k s, In (k, s) after -> get_session k out.1 = Some s)
  /\ forall later,
       monotone later ->
       let next := cleanup_inactive_sessions later (fun _ => Session.NoFault) out.1 in
       forall k s, In (k, s) after ->
         Session.is_inactive (now later) s = true ->
         get_session k next.1 = None.
Proof.
  intros Hc Hmono Hitems Hok Hbad Hinactive. cbv zeta.
  assert (Hnd : NoDup (map fst before ++ sid :: map fst after)).
  { destruct Hc as (Ha & _). unfold distinct_keys in Ha.
    by rewrite Hitems, map_app in Ha. }
  apply NoDup_app in Hnd as (Hnb & Hdisj & Hna).
  apply NoDup_cons in Hna as [Hsid_after _].
  assert (Hreg : forall k s, In (k, s) (active_sessions self) ->
                             get_session k self = Some s).
  { intros k s Hin. apply ManagerLaws.dict_lookup_distinct; [apply Hc|done]. }
  assert (Hkey : forall k s (l : list (string * Session.t)),
                   In (k, s) l -> k ∈ map fst l).
  { intros k s l Hin. apply list_elem_of_In, in_map_iff. by exists (k, s). }
  destruct (ManagerLaws.sweep_without_faults before clock self Hc)
    as (Hr & Hc1 & Hout & Hdisk & Hbefore).
  { exact Hnb. }
  { intros k s Hin. apply Hreg. rewrite Hitems. apply in_or_app. by left. }
  destruct (sweep_clock (fun _ => Session.NoFault) before clock self) as [n Hn].
  assert (Hsw : sweep clock fault before self
                = sweep clock (fun _ => Session.NoFault) before self)
    by (apply sweep_ext; exact Hok).
  destruct (sweep clock (fun _ => Session.NoFault) before self)
    as [[self1 clock1] r] eqn:Hsweep1.
  simpl in Hr, Hc1, Hout, Hdisk, Hbefore, Hn. subst r.
  assert (Hin1 : Session.is_inactive (now clock1) session = true).
  { unfold now. rewrite Hn.
    apply (ManagerLaws.is_inactive_later (now clock)); [|exact Hinactive].
    apply Hmono. lia. }
  assert (Hs1 : get_session sid self1 = Some session).
  { rewrite Hout.
    - apply Hreg. rewrite Hitems. apply in_or_app. right. by left.
    - intros Hin. apply list_elem_of_In in Hin.
      apply (Hdisj sid Hin). by left. }
  destruct (ManagerProps.remove_session_fails (tick clock1) (fault sid) sid self1
              session Hs1 Hbad) as (Hraise & Hstill & Hother & _).
  destruct (ManagerLaws.remove_session_consistent (tick clock1) (fault sid) sid
              self1 Hc1) as (Hc2 & _).
  pose proof (remove_session_keeps_archives (tick clock1) (fault sid) sid self1)
    as Hkeep.
  assert (Hsweep : sweep clock fault (active_sessions self) self
                   = ((remove_session (tick clock1) (fault sid) sid self1).1.1,
                      (remove_session (tick clock1) (fault sid) sid self1).1.2,
                      Raise OSError)).
  { rewrite Hitems, ManagerProps.sweep_app, Hsw. simpl. rewrite Hin1.
    destruct (remove_session (tick clock1) (fault sid) sid self1)
      as [[s2 c2] [u|e]]; simpl in *; [discriminate|congruence]. }
  assert (Hclean : cleanup_inactive_sessions clock fault self
                   = ((remove_session (tick clock1) (fault sid) sid self1).1.1,
                      (remove_session (tick clock1) (fault sid) sid self1).1.2)).
  { unfold cleanup_inactive_sessions. by rewrite Hsweep. }
  rewrite Hclean, Hsweep. simpl.
  set (self2 := (remove_session (tick clock1) (fault sid) sid self1).1.1) in *.
  split; [done|]. split; [exact Hc2|].
  assert (Hne_before : forall k s, In (k, s) before -> k <> sid).
  { intros k s Hin ->. apply (Hdisj sid (Hkey _ _ _ Hin)). by left. }
  assert (Hne_after : forall k s, In (k, s) after ->
                        k <> sid /\ ~ In k (map fst before)).
  { intros k s Hin. split.
    - intros ->. apply Hsid_after. exact (Hkey _ _ _ Hin).
    - intros Hb. apply list_elem_of_In in Hb.
      apply (Hdisj k Hb). right. exact (Hkey _ _ _ Hin). }
  assert (Hafter : forall k s, In (k, s) after -> get_session k self2 = Some s).
  { intros k s Hin. destruct (Hne_after k s Hin) as [Hne Hnb'].
    rewrite Hother by exact Hne. rewrite Hout by exact Hnb'.
    apply Hreg. rewrite Hitems. apply in_or_app. right. by right. }
  split; [|split; [exact Hstill|split; [exact Hafter|]]].
  - intros k s Hin. destruct (Hbefore k s Hin) as [Hyes Hno].
    rewrite (Hother k (Hne_before k s Hin)). split; [|exact Hno].
    intros Hstart. destruct Hyes as [Hgone Harch].
    { intros i. apply (ManagerLaws.is_inactive_later (now clock)); [|exact Hstart].
      apply Hmono. lia. }
    split; [exact Hgone|]. by apply Hkeep.
  - intros later Hlater k s Hin Hstart.
    unfold cleanup_inactive_sessions.
    destruct (ManagerLaws.sweep_without_faults (active_sessions self2) later
                self2 Hc2) as (Hr' & _ & _ & _ & Hitems').
    { apply Hc2. }
    { intros k' s' Hin'. apply ManagerLaws.dict_lookup_distinct; [apply Hc2|done]. }
    destruct (sweep later _ (active_sessions self2) self2) as [[self3 clock3] r3].
    simpl in *. subst r3. simpl.
    destruct (Hitems' k s) as [Hyes _].
    { apply ManagerProps.dict_lookup_In. by apply Hafter. }
    destruct Hyes as [Hgone _]; [|exact Hgone].
    intros i. apply (ManagerLaws.is_inactive_later (now later)); [|exact Hstart].
    apply Hlater. lia.
Qed.

(** C7, the sessions [a], [b] and [c], all inactive, with the snapshot of
    [b] failing: [a] is evicted, [b] and [c] stay, and the next tick evicts
    [c]. *)
Lemma sweep_ends_at_first_failure_witness :
  get_session "a"
    (cleanup_inactive_sessions late_clock disk_refuses_b three_sessions).1
  = None
  /\ is_Some
       (get_session "b"
          (cleanup_inactive_sessions late_clock disk_refuses_b three_sessions).1)
  /\ get_session "c"
       (cleanup_inactive_sessions late_clock disk_refuses_b three_sessions).1
     = Some (Session.init sample_clock "c")
  /\ get_session "c"
       (cleanup_inactive_sessions late_clock (fun _ => Session.NoFault)
          (cleanup_inactive_sessions late_clock disk_refuses_b three_sessions).1).1
     = None.
Proof.
  assert (Hm : monotone late_clock).
  { intros i j Hij. unfold late_clock. lia. }
  destruct (sweep_ends_at_first_failure late_clock disk_refuses_b
              [("a", Session.init sample_clock "a")]
              [("c", Session.init sample_clock "c")] "b"
              (Session.init sample_clock "b") three_sessions
              (ManagerLaws.reachable_consistent (H := sample_runtime) [] ∅
                 [CreateSession sample_clock "a"; CreateSession sample_clock "b";
                  CreateSession sample_clock "c"])
              Hm eq_refl)
    as (_ & _ & Ha & Hb & Hc & Hnext).
  - intros k [<-|[]]. reflexivity.
  - discriminate.
  - reflexivity.
  - split; [|split; [exact Hb|split]].
    + exact (proj1 (proj1 (Ha "a" (Session.init sample_clock "a")
                             (or_introl eq_refl)) eq_refl)).
    + exact (Hc "c" (Session.init sample_clock "c") (or_introl eq_refl)).
    + exact (Hnext late_clock Hm "c" (Session.init sample_clock "c")
               (or_introl eq_refl) eq_refl).
Defined.

End SweepProps.

(** ** Further properties of the handlers *)

Module ApiLaws.
Import Py Types Spec Notions DictProps.

Section Handlers.
Context `{Runtime}.




Lemma set_text_last (turn_id : Z) (text : string) (l : list Session.Transcript)
  (tr : Session.Transcript) :
  Forall (fun x => Session.tr_turn_id x <> turn_id) l ->
  Session.tr_turn_id tr = turn_id ->
  Api.set_text turn_id text (l ++ [tr])
  = Some ({| Session.tr_turn_id := Session.tr_turn_id tr;
             Session.tr_speaker := Session.tr_speaker tr;
             Session.tr_transcript := text;
             Session.tr_timestamp := Session.tr_timestamp tr;
             Session.tr_anchors := Session.tr_anchors tr |},
          l ++ [{| Session.tr_turn_id := Session.tr_turn_id tr;
                   Session.tr_speaker := Session.tr_speaker tr;
                   Session.tr_transcript := text;
                   Session.tr_timestamp := Session.tr_timestamp tr;
                   Session.tr_anchors := Session.tr_anchors tr |}]).
Proof.
  intros Hl Htr. induction Hl as [|x l Hx Hl IH]; simpl.
  - apply Z.eqb_eq in Htr. by rewrite Htr.
  - apply Z.eqb_neq in Hx. by rewrite Hx, IH.
Qed.

Lemma first_ids_below (k : nat) :
  Forall (fun z => z <> Z.of_nat (S k)) (first_ids k).
Proof.
  unfold first_ids. apply Forall_forall. intros z Hz.
  apply list_elem_of_In, in_map_iff in Hz as (n & <- & Hn).
  apply in_seq in Hn. lia.
Qed.

(** X17.  An upload puts a placeholder turn at the end of the transcripts; when
    its transcription comes back, the text of that turn, and of that turn
    only, becomes the transcribed text, or the note that the transcription
    failed or was empty.  When the transcriber raises, the placeholder
    stays. *)
Theorem upload_then_transcription (clock : Clock) (sid speaker : string)
  (b : Byte.byte) (audio : list Byte.byte) (outcome : Api.transcription)
  (self : SessionManager.t) (k : nat) (speakers : list string) :
  dense sid k speakers self ->
  let up := Api.upload_audio clock sid speaker (b :: audio) self in
  let back := Api.update_transcript sid (Z.of_nat (S k)) outcome up.1.1 in
  exists session,
    SessionManager.get_session sid self = Some session
    /\ up.2 = Ok (Z.of_nat (S k))
    /\ Session.transcripts
         <$> SessionManager.get_session sid up.1.1
       = Some (Session.transcripts session
               ++ [{| Session.tr_turn_id := Z.of_nat (S k);
                      Session.tr_speaker := speaker;
                      Session.tr_transcript := Api.placeholder;
                      Session.tr_timestamp := now clock;
                      Session.tr_anchors := None |}])
    /\ Session.transcripts
         <$> SessionManager.get_session sid back
       = Some (Session.transcripts session
               ++ [{| Session.tr_turn_id := Z.of_nat (S k);
                      Session.tr_speaker := speaker;
                      Session.tr_transcript :=
                        default Api.placeholder (final_text outcome);
                      Session.tr_timestamp := now clock;
                      Session.tr_anchors := None |}]).
Proof.
  intros (session & Hs & Hl & Hids & Hsp). cbv zeta. exists session.
  split; [exact Hs|].
  unfold Api.upload_audio. rewrite Hs. unfold Api.append_turn. simpl.
  replace (Session.last_turn_id session + 1) with (Z.of_nat (S k)) by lia.
  set (tr := {| Session.tr_turn_id := _ |}).
  set (session' := Session.with_transcripts _ _ session).
  set (up := SessionManager.broadcast_to_session _ _ _).
  assert (Hup : SessionManager.get_session sid up = Some session').
  { subst up. unfold SessionManager.get_session.
    rewrite ApiProps.broadcast_to_session_sessions. simpl.
    apply dict_lookup_set_eq. }
  split; [reflexivity|]. split; [by rewrite Hup|].
  assert (Hfresh : Forall (fun x => Session.tr_turn_id x <> Z.of_nat (S k))
                     (Session.transcripts session)).
  { pose proof (first_ids_below k) as Hb. rewrite <- Hids in Hb.
    rewrite Forall_forall in Hb. apply Forall_forall. intros x Hx.
    apply Hb, list_elem_of_In, in_map, list_elem_of_In, Hx. }
  unfold Api.update_transcript. rewrite Hup.
  destruct outcome as [| |text]; simpl.
  - by rewrite Hup.
  - rewrite (set_text_last _ _ _ tr Hfresh eq_refl).
    unfold SessionManager.get_session.
    rewrite ApiProps.broadcast_to_session_sessions. simpl.
    by rewrite dict_lookup_set_eq.
  - destruct text as [|c text]; simpl;
      rewrite (set_text_last _ _ _ tr Hfresh eq_refl);
      unfold SessionManager.get_session;
      rewrite ApiProps.broadcast_to_session_sessions; simpl;
      by rewrite dict_lookup_set_eq.
Qed.

(** X18.  Once a session has been archived through the DELETE handler, every
    handler answers 404 for its id (422 for an anchor that is not well
    formed) and leaves the manager as it is, and a transcription that comes
    back late changes nothing. *)
Theorem archived_session_is_gone (clock clock' : Clock) (sid : string)
  (self : SessionManager.t) (session : Session.t) :
  registry_consistent self ->
  SessionManager.get_session sid self = Some session ->
  let gone := (Api.archive_session clock Session.NoFault sid self).1.1 in
  (Api.archive_session clock Session.NoFault sid self).2 = Ok tt
  /\ (forall speaker message,
        Api.send_message clock' sid speaker message gone
        = (gone, clock', Raise Api.not_found))
  /\ (forall speaker audio,
        Api.upload_audio clock' sid speaker audio gone
        = (gone, clock', Raise Api.not_found))
  /\ (forall data,
        Api.add_anchor clock' sid data gone
        = (gone, clock',
           Raise (if Api.anchor_data_valid data then Api.not_found
                  else Api.unprocessable)))
  /\ (forall data,
        Api.create_anchor clock' sid data gone
        = (gone, clock', Raise Api.not_found))
  /\ Api.archive_session clock' Session.NoFault sid gone
     = (gone, clock', Raise Api.not_found)
  /\ (forall turn_id outcome, Api.update_transcript sid turn_id outcome gone = gone).
Proof.
  intros Hc Hs. cbv zeta.
  assert (Harch : Api.archive_session clock Session.NoFault sid self
                  = SessionManager.remove_session clock Session.NoFault sid self).
  { unfold Api.archive_session. by rewrite Hs. }
  rewrite Harch. clear Harch.
  destruct (ManagerLaws.remove_session_consistent clock Session.NoFault sid self Hc)
    as (_ & _ & Hok).
  destruct (Hok eq_refl) as (Hr & Hgone & _).
  split; [exact Hr|].
  set (gone := (SessionManager.remove_session clock Session.NoFault sid self).1.1) in *.
  repeat split.
  - intros speaker message. unfold Api.send_message. by rewrite Hgone.
  - intros speaker audio. unfold Api.upload_audio. by rewrite Hgone.
  - intros data. unfold Api.add_anchor.
    destruct (Api.anchor_data_valid data); simpl; [|done]. by rewrite Hgone.
  - intros data. unfold Api.create_anchor. by rewrite Hgone.
  - unfold Api.archive_session. by rewrite Hgone.
  - intros turn_id outcome. unfold Api.update_transcript. rewrite Hgone.
    by destruct outcome.
Qed.

(** *** The context of the classifier *)

Lemma monotone_tick (clock : Clock) : monotone clock -> monotone (tick clock).
Proof. intros Hm i j Hij. unfold tick. apply Hm. lia. Qed.

Lemma same_timestamps_sorted (l l0 : list Session.Transcript) :
  map Session.tr_timestamp l = map Session.tr_timestamp l0 ->
  StronglySorted (fun a b => Session.tr_timestamp a <= Session.tr_timestamp b) l0 ->
  StronglySorted (fun a b => Session.tr_timestamp a <= Session.tr_timestamp b) l.
Proof.
  revert l0. induction l as [|x l IH]; intros [|y l0] Hl Hs; simplify_eq/=;
    [constructor|].
  apply StronglySorted_inv in Hs as [Hs Hy].
  constructor; [by apply (IH l0)|].
  rewrite Forall_forall in Hy. apply Forall_forall. intros z Hz.
  assert (Hin : In (Session.tr_timestamp z) (map Session.tr_timestamp l0)).
  { rewrite <- H1. apply in_map, list_elem_of_In, Hz. }
  apply in_map_iff in Hin as (z' & Hz' & Hin).
  rewrite H0, <- Hz'. apply Hy, list_elem_of_In, Hin.
Qed.

Lemma same_timestamps_bound (t : Z) (l l0 : list Session.Transcript) :
  map Session.tr_timestamp l = map Session.tr_timestamp l0 ->
  Forall (fun tr => Session.tr_timestamp tr <= t) l0 ->
  Forall (fun tr => Session.tr_timestamp tr <= t) l.
Proof.
  intros Hl Hb. rewrite Forall_forall in Hb. apply Forall_forall. intros z Hz.
  assert (Hin : In (Session.tr_timestamp z) (map Session.tr_timestamp l0)).
  { rewrite <- Hl. apply in_map, list_elem_of_In, Hz. }
  apply in_map_iff in Hin as (z' & Hz' & Hin).
  rewrite <- Hz'. apply Hb, list_elem_of_In, Hin.
Qed.

Lemma run_chronological (sid : string) (steps : list Api.step) :
  forall (clock : Clock) (self : SessionManager.t) (session : Session.t),
  monotone clock ->
  SessionManager.get_session sid self = Some session ->
  StronglySorted (fun a b => Session.tr_timestamp a <= Session.tr_timestamp b)
    (Session.transcripts session) ->
  Forall (fun tr => Session.tr_timestamp tr <= now clock)
    (Session.transcripts session) ->
  exists session',
    SessionManager.get_session sid (Api.run clock sid steps self).1.1
    = Some session'
    /\ StronglySorted
         (fun a b => Session.tr_timestamp a <= Session.tr_timestamp b)
         (Session.transcripts session').
Proof.
  assert (Happend : forall (clock : Clock) (session : Session.t) speaker text,
    monotone clock ->
    StronglySorted (fun a b => Session.tr_timestamp a <= Session.tr_timestamp b)
      (Session.transcripts session) ->
    Forall (fun tr => Session.tr_timestamp tr <= now clock)
      (Session.transcripts session) ->
    StronglySorted (fun a b => Session.tr_timestamp a <= Session.tr_timestamp b)
      (Session.transcripts (Api.append_turn (now clock) speaker text session).1)
    /\ Forall (fun tr => Session.tr_timestamp tr <= now (tick clock))
         (Session.transcripts (Api.append_turn (now clock) speaker text session).1)).
  { intros clock session speaker text Hm Hsorted Hbound. simpl. split.
    - apply StronglySorted_app_2; [|done|repeat constructor].
      intros x y Hx [->|[]%elem_of_nil]%elem_of_cons. simpl.
      rewrite Forall_forall in Hbound. by apply Hbound.
    - apply Forall_app. split.
      + eapply Forall_impl; [exact Hbound|]. simpl. intros tr Htr.
        etrans; [exact Htr|]. unfold now, tick. apply Hm. lia.
      + constructor; [|constructor]. simpl. unfold now, tick. apply Hm. lia. }
  induction steps as [|[speaker message|speaker audio|turn_id outcome] steps IH];
    intros clock self session Hm Hs Hsorted Hbound; simpl.
  - eauto.
  - unfold Api.send_message. rewrite Hs.
    destruct (Happend clock session speaker message Hm Hsorted Hbound) as [Hs' Hb'].
    destruct (Api.append_turn (now clock) speaker message session)
      as [session' transcript]. simpl in Hs', Hb'.
    match goal with
    | |- context [Api.run (tick clock) sid steps ?w] =>
        destruct (IH (tick clock) w session' (monotone_tick _ Hm)) as (s'' & Hg & Hss);
        [unfold SessionManager.get_session;
         rewrite ApiProps.broadcast_global_sessions,
           ApiProps.broadcast_to_session_sessions; simpl;
         apply dict_lookup_set_eq
        |done|done|];
        destruct (Api.run (tick clock) sid steps w) as [[w' c'] rs]
    end.
    simpl in *. eauto.
  - unfold Api.upload_audio. rewrite Hs. destruct audio as [|b audio].
    + destruct (IH clock self session Hm Hs Hsorted Hbound) as (s'' & Hg & Hss).
      destruct (Api.run clock sid steps self) as [[w' c'] rs]. simpl in *. eauto.
    + destruct (Happend clock session speaker Api.placeholder Hm Hsorted Hbound)
        as [Hs' Hb'].
      destruct (Api.append_turn (now clock) speaker Api.placeholder session)
        as [session' transcript]. simpl in Hs', Hb'.
      match goal with
      | |- context [Api.run (tick clock) sid steps ?w] =>
          destruct (IH (tick clock) w session' (monotone_tick _ Hm))
            as (s'' & Hg & Hss);
          [unfold SessionManager.get_session;
           rewrite ApiProps.broadcast_to_session_sessions; simpl;
           apply dict_lookup_set_eq
          |done|done|];
          destruct (Api.run (tick clock) sid steps w) as [[w' c'] rs]
      end.
      simpl in *. eauto.
  - unfold Api.update_transcript. rewrite Hs.
    assert (Hkeep : forall text l tr,
              Api.set_text turn_id text (Session.transcripts session) = Some (tr, l) ->
              map Session.tr_timestamp l
              = map Session.tr_timestamp (Session.transcripts session)).
    { intros text. generalize (Session.transcripts session).
      induction l as [|x l IHl]; intros l' tr; simpl; [done|].
      destruct (Session.tr_turn_id x =? turn_id); [by intros [= <- <-]|].
      destruct (Api.set_text turn_id text l) as [[tr' l'']|]; [|done].
      intros [= <- <-]. simpl. by rewrite (IHl l'' tr' eq_refl). }
    assert (Hsame : forall l,
              map Session.tr_timestamp l
              = map Session.tr_timestamp (Session.transcripts session) ->
              StronglySorted
                (fun a b => Session.tr_timestamp a <= Session.tr_timestamp b) l
              /\ Forall (fun tr => Session.tr_timestamp tr <= now clock) l).
    { intros l Hl. split.
      - exact (same_timestamps_sorted _ _ Hl Hsorted).
      - exact (same_timestamps_bound _ _ _ Hl Hbound). }
    destruct outcome as [| |text].
    + by apply (IH clock self session).
    + destruct (Api.set_text turn_id _ (Session.transcripts session))
        as [[tr l]|] eqn:Hset; [|by apply (IH clock self session)].
      destruct (Hsame l (Hkeep _ _ _ Hset)) as [Hl1 Hl2].
      apply (IH clock _
               (Session.with_transcripts l (Session.last_turn_id session) session)
               Hm); [|exact Hl1|exact Hl2].
      unfold SessionManager.get_session.
      rewrite ApiProps.broadcast_to_session_sessions. simpl.
      apply dict_lookup_set_eq.
    + destruct (Api.set_text turn_id _ (Session.transcripts session))
        as [[tr l]|] eqn:Hset; [|by apply (IH clock self session)].
      destruct (Hsame l (Hkeep _ _ _ Hset)) as [Hl1 Hl2].
      apply (IH clock _
               (Session.with_transcripts l (Session.last_turn_id session) session)
               Hm); [|exact Hl1|exact Hl2].
      unfold SessionManager.get_session.
      rewrite ApiProps.broadcast_to_session_sessions. simpl.
      apply dict_lookup_set_eq.
Qed.

(** X19.  Under a clock that does not run backwards, the turns of a session stand
    in the order of their timestamps whatever was submitted: the context
    [get_all_turns] builds for the classifier is the transcript list in
    submission order. *)
Theorem context_is_the_transcript (clock0 clock : Clock) (sid : string)
  (steps : list Api.step) (w0 : SessionManager.t) :
  monotone clock ->
  let w1 := (SessionManager.create_session clock0 sid w0).1.1 in
  exists session,
    SessionManager.get_session sid (Api.run clock sid steps w1).1.1 = Some session
    /\ SessionQueries.get_all_turns session = Session.transcripts session.
Proof.
  intros Hm. cbv zeta.
  destruct (run_chronological sid steps clock
              (SessionManager.create_session clock0 sid w0).1.1
              (Session.init clock0 sid) Hm) as (session & Hg & Hs).
  - unfold SessionManager.get_session. simpl. apply dict_lookup_set_eq.
  - constructor.
  - constructor.
  - exists session. split; [exact Hg|].
    unfold SessionQueries.get_all_turns. apply SessionLaws.sorted_by_id.
    eapply SessionLaws.StronglySorted_weaken; [|exact Hs].
    unfold in_order, SessionQueries.ascending. simpl. intros a b. lia.
Qed.

End Handlers.


(** X17, an instance.  An upload to a new session, transcribed as [hi] *)
Lemma upload_then_transcription_witness :
  Session.transcripts
    <$> SessionManager.get_session "s"
          (Api.update_transcript (H := sample_runtime) "s" 1 (Api.TranscriptText "hi")
             (Api.upload_audio (H := sample_runtime) sample_clock "s" "Alice"
                [Byte.x78] one_session).1.1)
  = Some [{| Session.tr_turn_id := 1; Session.tr_speaker := "Alice";
             Session.tr_transcript := "hi"; Session.tr_timestamp := 0;
             Session.tr_anchors := None |}].
Proof.
  destruct (upload_then_transcription (H := sample_runtime) sample_clock "s"
              "Alice" Byte.x78 [] (Api.TranscriptText "hi") one_session 0 [])
    as (session & Hs & _ & _ & Hb).
  - exists (Session.init sample_clock "s"). repeat split.
  - injection Hs as <-. exact Hb.
Defined.

(** X18, an instance.  A message to a session that was archived *)
Lemma archived_session_is_gone_witness :
  Api.send_message (H := sample_runtime) late_clock "s" "Alice" "hello"
    (Api.archive_session sample_clock Session.NoFault "s" one_session).1.1
  = ((Api.archive_session sample_clock Session.NoFault "s" one_session).1.1,
     late_clock, Raise Api.not_found).
Proof.
  exact (proj1 (proj2 (archived_session_is_gone (H := sample_runtime) sample_clock
                         late_clock "s" one_session (Session.init sample_clock "s")
                         (ManagerLaws.reachable_consistent (H := sample_runtime)
                            [] ∅ [CreateSession sample_clock "s"])
                         eq_refl))
           "Alice" "hello").
Defined.

(** X19, an instance.  Two messages and an upload on a new session *)
Lemma context_is_the_transcript_witness :
  exists session,
    SessionManager.get_session "s"
      (Api.run (H := sample_runtime) sample_clock "s"
         [Api.SendMessage "Alice" "hi"; Api.UploadAudio "Bob" [Byte.x78];
          Api.SendMessage "Alice" "ho"]
         (SessionManager.create_session sample_clock "s"
            (SessionManager.init [] ∅)).1.1).1.1
    = Some session
    /\ SessionQueries.get_all_turns session = Session.transcripts session.
Proof.
  apply (context_is_the_transcript (H := sample_runtime) sample_clock sample_clock
           "s"
           [Api.SendMessage "Alice" "hi"; Api.UploadAudio "Bob" [Byte.x78];
            Api.SendMessage "Alice" "ho"]
           (SessionManager.init [] ∅)).
  intros i j Hij. unfold sample_clock. lia.
Defined.

End ApiLaws.

(** ** Properties of the selection analysis *)

Module SelectionLaws.
Import Py Types SelectionAnalyzer Notions.

Section Selection.
Context `{Runtime}.

Lemma str_take_length (n : nat) (s : string) :
  (String.length (str_take n s) <= n)%nat.
Proof.
  revert s. induction n as [|n IH]; intros [|c s]; simpl; try lia.
  specialize (IH s). lia.
Qed.

Lemma slice_at_most (n : nat) (v w : pyval) :
  slice n v = Ok w -> at_most n w = true.
Proof.
  destruct v; simpl; try done; intros [= <-]; simpl; apply Nat.leb_le.
  - apply str_take_length.
  - rewrite length_take. lia.
Qed.

Lemma clamp_within_bounds (f : float) : within_bounds (clamp f) = true.
Proof.
  unfold clamp. destruct (PrimFloat.ltb f 0) eqn:E0; [done|].
  destruct (PrimFloat.ltb 1 f) eqn:E1; [done|]. simpl. by rewrite E0, E1.
Qed.

Lemma render_all_raises (keys : list string) (xs : list pyval) (x : pyval)
  (e : exn) :
  x ∈ xs -> items x keys = Raise e -> exists e', render_all keys xs = Raise e'.
Proof.
  intros Hx He. induction xs as [|y xs IH]; [by apply elem_of_nil in Hx|].
  simpl. destruct (items y keys) as [[]|e'] eqn:Hy; simpl; [|eauto].
  apply elem_of_cons in Hx as [->|Hx]; [congruence|by apply IH].
Qed.

Lemma items_raises (x : pyval) (keys : list string) (key : string) (e : exn) :
  key ∈ keys -> item x key = Raise e -> exists e', items x keys = Raise e'.
Proof.
  intros Hk He. induction keys as [|k keys IH]; [by apply elem_of_nil in Hk|].
  simpl. destruct (item x k) as [v|e'] eqn:Hv; simpl; [|eauto].
  apply elem_of_cons in Hk as [->|Hk]; [congruence|by apply IH].
Qed.

(** X20.  Whatever the selection and whatever the provider answers,
    [analyze_selection] raises nothing and hands back a dict of the four
    keys, in this order, with at most three themes, at most five key points
    and a confidence that is neither below 0 nor above 1. *)
Theorem analyze_selection_is_bounded (nodes edges : list pyval)
  (reply : ClaudeClient.api_reply) :
  let result := analyze_selection nodes edges reply in
  map fst result = ["main_themes"; "key_points"; "conclusion"; "confidence"]
  /\ at_most 3 (dict_get "main_themes" PyNone result) = true
  /\ at_most 5 (dict_get "key_points" PyNone result) = true
  /\ within_bounds (dict_get "confidence" PyNone result) = true.
Proof.
  cbv zeta. unfold analyze_selection, analyze_body.
  destruct (render_all _ nodes) as [[]|]; simpl; [|done].
  destruct (render_all _ edges) as [[]|]; simpl; [|done].
  destruct (ArgumentMapper.get _ "main_themes" _) as [themes|]; simpl; [|done].
  destruct (slice 3 themes) as [main_themes|] eqn:Ht; simpl; [|done].
  destruct (ArgumentMapper.get _ "key_points" _) as [points|]; simpl; [|done].
  destruct (slice 5 points) as [key_points|] eqn:Hp; simpl; [|done].
  destruct (ArgumentMapper.get _ "conclusion" _) as [conclusion|]; simpl; [|done].
  destruct (ArgumentMapper.get _ "confidence" _) as [c|]; simpl; [|done].
  destruct (py_float c) as [confidence|]; simpl; [|done].
  unfold dict_get. simpl. split; [done|].
  split; [exact (slice_at_most _ _ _ Ht)|].
  split; [exact (slice_at_most _ _ _ Hp)|apply clamp_within_bounds].
Qed.

(** X21.  A node of the selection that cannot be subscripted with one of [id],
    [speaker] and [summary] (a dict without the key, or no dict at all), or
    an edge that cannot be with one of [source], [type] and [target], makes
    the analysis answer with the failure dict, whatever the provider would
    have said. *)
Theorem selection_with_a_missing_key_fails (nodes edges : list pyval)
  (reply : ClaudeClient.api_reply) (x : pyval) (key : string) (e : exn) :
  (x ∈ nodes /\ key ∈ ["id"; "speaker"; "summary"]
   \/ x ∈ edges /\ key ∈ ["source"; "type"; "target"]) ->
  item x key = Raise e ->
  analyze_selection nodes edges reply = failed.
Proof.
  intros Hx He. unfold analyze_selection, analyze_body.
  destruct Hx as [[Hx Hk]|[Hx Hk]].
  - destruct (items_raises x _ key e Hk He) as (e1 & H1).
    destruct (render_all_raises _ nodes x e1 Hx H1) as (e2 & ->). done.
  - destruct (render_all _ nodes) as [[]|]; simpl; [|done].
    destruct (items_raises x _ key e Hk He) as (e1 & H1).
    destruct (render_all_raises _ edges x e1 Hx H1) as (e2 & ->). done.
Qed.


End Selection.

(** X21, an instance.  A node without a speaker *)
Lemma selection_with_a_missing_key_fails_witness :
  analyze_selection (H := Spec.sample_runtime) [PyDict [("id", PyStr "1")]] []
    (ClaudeClient.ApiMessage ["claim"])
  = failed.
Proof.
  apply (selection_with_a_missing_key_fails (H := Spec.sample_runtime)
           [PyDict [("id", PyStr "1")]] [] (ClaudeClient.ApiMessage ["claim"])
           (PyDict [("id", PyStr "1")]) "speaker" KeyError).
  - left. split; [apply elem_of_cons; by left|].
    apply elem_of_cons. right. apply elem_of_cons. by left.
  - reflexivity.
Defined.


End SelectionLaws.
